(** * The resilient data-access layer of the golf dashboard

    A shallow embedding of the two cooperating pieces of [src/app.js]:
    the client-side loader of class [GolfDashboard] ([loadData],
    [fetchWithRetry], [getCachedData], [setCachedData], [refreshData]) and
    the service worker that intercepts requests (the [fetch] listener, the
    three predicates, the four handlers and [createOfflineResponse]).

    JavaScript effects are modelled by a state-and-exception monad: a
    computation takes the state of its global scope and gives a completion
    (normal, or a thrown error) together with the new state.  An [await]
    is a sequencing point: one operation runs from start to end, without
    another one scheduled in between.  The network is an oracle: the
    outcome of the n-th call of [fetch].

    Left out: the DOM updates of [showConnectionStatus], the charts and
    lists behind [renderDashboard] (a parameter: the error it throws, if
    any), and the matching of cached responses on anything but the URL.  A
    [cache.put], which the handlers do not await, is taken to have settled
    when the handler returns. *)

From Stdlib Require Import String Ascii List ZArith Bool Lia.
From stdpp Require Import base gmap strings list pretty.

Open Scope string_scope.
Open Scope list_scope.

(** ** JavaScript strings *)

(** The double quote character, and a string between double quotes. *)
Definition dq : string := String "034"%char EmptyString.
Definition quoted (s : string) : string := dq +:+ s +:+ dq.
Definition newline : string := String "010"%char EmptyString.

(** [String.prototype.startsWith]. *)
Fixpoint startsWith (s prefix : string) {struct prefix} : bool :=
  match prefix, s with
  | EmptyString, _ => true
  | String _ _, EmptyString => false
  | String a prefix', String b s' => Ascii.eqb a b && startsWith s' prefix'
  end.

(** [String.prototype.includes]. *)
Fixpoint includes (s needle : string) : bool :=
  startsWith s needle ||
  match s with
  | EmptyString => false
  | String _ s' => includes s' needle
  end.

(** [String.prototype.endsWith]. *)
Definition endsWith (s suffix : string) : bool :=
  let n := String.length s in
  let k := String.length suffix in
  (k <=? n)%nat && String.eqb (substring (n - k) k s) suffix.

Definition lower_ascii (c : ascii) : ascii :=
  let n := nat_of_ascii c in
  if ((65 <=? n) && (n <=? 90))%nat then ascii_of_nat (n + 32) else c.

Fixpoint toLowerCase (s : string) : string :=
  match s with
  | EmptyString => EmptyString
  | String c s' => String (lower_ascii c) (toLowerCase s')
  end.

Fixpoint join (sep : string) (l : list string) : string :=
  match l with
  | [] => ""
  | [x] => x
  | x :: l' => x +:+ sep +:+ join sep l'
  end.

(** ** JSON values *)

#[local] Set Warnings "-register-all".

(** Numbers are kept to the integers: the collection's only numeric field is
    the score. *)
Inductive json : Type :=
  | JNull
  | JBool (b : bool)
  | JNum (n : Z)
  | JStr (s : string)
  | JArr (l : list json)
  | JObj (l : list (string * json)).

(** JavaScript's ToBoolean on a parsed value, as in [if (cachedData)]. *)
Definition truthy (v : json) : bool :=
  match v with
  | JNull => false
  | JBool b => b
  | JNum n => negb (n =? 0)%Z
  | JStr s => negb (String.eqb s "")
  | JArr _ => true
  | JObj _ => true
  end.

Definition is_array (v : json) : bool :=
  match v with JArr _ => true | _ => false end.

(** *** A parser for a fragment of JSON

    The theorems below take [JSON.parse] as a parameter.  This parser is the
    instance used on concrete inputs: whitespace, the three literals,
    integers without leading zeros, strings with all the escapes of JSON,
    arrays and objects.  It gives [None] where [JSON.parse] throws a
    SyntaxError, and also on the JSON that the value type cannot hold:
    numbers with a fraction or an exponent, and [\u] escapes of code points
    above 127. *)

Definition is_ws (c : ascii) : bool :=
  let n := nat_of_ascii c in
  ((n =? 32) || (n =? 9) || (n =? 10) || (n =? 13))%nat.

Fixpoint skip_ws (s : string) : string :=
  match s with
  | String c s' => if is_ws c then skip_ws s' else s
  | EmptyString => EmptyString
  end.

Definition digit_of (c : ascii) : option nat :=
  let n := nat_of_ascii c in
  if ((48 <=? n) && (n <=? 57))%nat then Some (n - 48) else None.

Fixpoint parse_digits (acc : nat) (s : string) : nat * string :=
  match s with
  | String c s' =>
      match digit_of c with
      | Some d => parse_digits (10 * acc + d) s'
      | None => (acc, s)
      end
  | EmptyString => (acc, s)
  end.

Definition hex_of (c : ascii) : option nat :=
  let n := nat_of_ascii c in
  if ((48 <=? n) && (n <=? 57))%nat then Some (n - 48)%nat
  else if ((97 <=? n) && (n <=? 102))%nat then Some (n - 87)%nat
  else if ((65 <=? n) && (n <=? 70))%nat then Some (n - 55)%nat
  else None.

(** The character that a one-letter escape stands for. *)
Definition unescape (e : ascii) : option ascii :=
  if Ascii.eqb e "n" then Some "010"%char
  else if Ascii.eqb e "t" then Some "009"%char
  else if Ascii.eqb e "r" then Some "013"%char
  else if Ascii.eqb e "b" then Some "008"%char
  else if Ascii.eqb e "f" then Some "012"%char
  else if Ascii.eqb e "034" || Ascii.eqb e "\" || Ascii.eqb e "/" then Some e
  else None.

(** The characters of a string literal after its opening quote.  A control
    character must be escaped. *)
Fixpoint parse_chars (s : string) : option (string * string) :=
  match s with
  | EmptyString => None
  | String c s' =>
      if Ascii.eqb c "034" then Some ("", s')
      else if (nat_of_ascii c <? 32)%nat then None
      else if Ascii.eqb c "\" then
        match s' with
        | String e s'' =>
            if Ascii.eqb e "u" then
              match s'' with
              | String h1 (String h2 (String h3 (String h4 s5))) =>
                  match hex_of h1, hex_of h2, hex_of h3, hex_of h4, parse_chars s5 with
                  | Some a, Some b, Some c3, Some d, Some (str, rest) =>
                      let code := (4096 * a + 256 * b + 16 * c3 + d)%nat in
                      if (code <? 128)%nat
                      then Some (String (ascii_of_nat code) str, rest)
                      else None
                  | _, _, _, _, _ => None
                  end
              | _ => None
              end
            else
              match unescape e, parse_chars s'' with
              | Some u, Some (str, rest) => Some (String u str, rest)
              | _, _ => None
              end
        | EmptyString => None
        end
      else
        match parse_chars s' with
        | Some (str, rest) => Some (String c str, rest)
        | None => None
        end
  end.

(** A number may not start with a zero that a digit follows. *)
Definition leading_zero (d : nat) (rest : string) : bool :=
  (d =? 0)%nat &&
  match rest with
  | String c _ => match digit_of c with Some _ => true | None => false end
  | EmptyString => false
  end.

Definition expect (word : string) (v : json) (s : string) : option (json * string) :=
  if startsWith s word
  then Some (v, substring (String.length word) (String.length s - String.length word) s)
  else None.

Fixpoint parse_value (fuel : nat) (s : string) : option (json * string) :=
  match fuel with
  | 0 => None
  | S fuel' =>
      match skip_ws s with
      | EmptyString => None
      | String c rest =>
          if Ascii.eqb c "n" then expect "ull" JNull rest
          else if Ascii.eqb c "t" then expect "rue" (JBool true) rest
          else if Ascii.eqb c "f" then expect "alse" (JBool false) rest
          else if Ascii.eqb c "034" then
            match parse_chars rest with
            | Some (str, rest') => Some (JStr str, rest')
            | None => None
            end
          else if Ascii.eqb c "[" then
            match skip_ws rest with
            | String d rest' =>
                if Ascii.eqb d "]" then Some (JArr [], rest')
                else match parse_elements fuel' rest with
                     | Some (l, r) => Some (JArr l, r)
                     | None => None
                     end
            | EmptyString => None
            end
          else if Ascii.eqb c "{" then
            match skip_ws rest with
            | String d rest' =>
                if Ascii.eqb d "}" then Some (JObj [], rest')
                else match parse_members fuel' rest with
                     | Some (l, r) => Some (JObj l, r)
                     | None => None
                     end
            | EmptyString => None
            end
          else if Ascii.eqb c "-" then
            match rest with
            | String d rest' =>
                match digit_of d with
                | Some dv =>
                    if leading_zero dv rest' then None
                    else let '(n, r) := parse_digits 0 rest in
                         Some (JNum (- Z.of_nat n), r)
                | None => None
                end
            | EmptyString => None
            end
          else
            match digit_of c with
            | Some d =>
                if leading_zero d rest then None
                else let '(n, r) := parse_digits d rest in
                     Some (JNum (Z.of_nat n), r)
            | None => None
            end
      end
  end
with parse_elements (fuel : nat) (s : string) : option (list json * string) :=
  match fuel with
  | 0 => None
  | S fuel' =>
      match parse_value fuel' s with
      | Some (v, r) =>
          match skip_ws r with
          | String d r' =>
              if Ascii.eqb d "]" then Some ([v], r')
              else if Ascii.eqb d "," then
                match parse_elements fuel' r' with
                | Some (l, r'') => Some (v :: l, r'')
                | None => None
                end
              else None
          | EmptyString => None
          end
      | None => None
      end
  end
with parse_members (fuel : nat) (s : string) : option (list (string * json) * string) :=
  match fuel with
  | 0 => None
  | S fuel' =>
      match skip_ws s with
      | String q r0 =>
          if Ascii.eqb q "034" then
            match parse_chars r0 with
            | Some (key, r1) =>
                match skip_ws r1 with
                | String colon r2 =>
                    if Ascii.eqb colon ":" then
                      match parse_value fuel' r2 with
                      | Some (v, r3) =>
                          match skip_ws r3 with
                          | String d r4 =>
                              if Ascii.eqb d "}" then Some ([(key, v)], r4)
                              else if Ascii.eqb d "," then
                                match parse_members fuel' r4 with
                                | Some (l, r5) => Some ((key, v) :: l, r5)
                                | None => None
                                end
                              else None
                          | EmptyString => None
                          end
                      | None => None
                      end
                    else None
                | EmptyString => None
                end
            | None => None
            end
          else None
      | EmptyString => None
      end
  end.

(** The whole text must be one value, up to trailing whitespace. *)
Definition parse_json (s : string) : option json :=
  match parse_value (S (String.length s)) s with
  | Some (v, rest) =>
      match skip_ws rest with
      | EmptyString => Some v
      | String _ _ => None
      end
  | None => None
  end.

(** [JSON.stringify] on the same fragment (no indentation).  Quote and
    backslash are escaped, a control character is written as its
    one-letter escape or as [\u00XX]. *)
Definition hex_digit (n : nat) : ascii :=
  if (n <? 10)%nat then ascii_of_nat (48 + n) else ascii_of_nat (87 + n).

Fixpoint escape (s : string) : string :=
  match s with
  | EmptyString => EmptyString
  | String c s' =>
      let n := nat_of_ascii c in
      if Ascii.eqb c "034" || Ascii.eqb c "\" then String "\" (String c (escape s'))
      else if Ascii.eqb c "010" then String "\" (String "n" (escape s'))
      else if Ascii.eqb c "009" then String "\" (String "t" (escape s'))
      else if Ascii.eqb c "013" then String "\" (String "r" (escape s'))
      else if Ascii.eqb c "008" then String "\" (String "b" (escape s'))
      else if Ascii.eqb c "012" then String "\" (String "f" (escape s'))
      else if (n <? 32)%nat then
        String "\" (String "u" (String "0" (String "0"
          (String (hex_digit (n / 16)) (String (hex_digit (n mod 16)) (escape s'))))))
      else String c (escape s')
  end.

Fixpoint stringify_json (v : json) : string :=
  match v with
  | JNull => "null"
  | JBool true => "true"
  | JBool false => "false"
  | JNum n => pretty n
  | JStr s => quoted (escape s)
  | JArr l => "[" +:+ join "," (map stringify_json l) +:+ "]"
  | JObj l =>
      "{" +:+ join "," (map (fun kv => quoted (escape (fst kv)) +:+ ":" +:+
                                       stringify_json (snd kv)) l) +:+ "}"
  end.

(** ** The platform: errors, completions, requests and responses *)

(** A thrown JavaScript error object. *)
Record JsError : Type := mkError { name : string; message : string }.

Definition Error (msg : string) : JsError := mkError "Error" msg.
Definition TypeError (msg : string) : JsError := mkError "TypeError" msg.
Definition SyntaxError (msg : string) : JsError := mkError "SyntaxError" msg.
Definition QuotaExceededError : JsError :=
  mkError "QuotaExceededError" "The quota has been exceeded.".

Inductive Completion (A : Type) : Type :=
  | Normal (a : A)
  | Throw (e : JsError).
Arguments Normal {A} a.
Arguments Throw {A} e.

(** A computation over the state [S] of a global scope. *)
Definition Js (S A : Type) : Type := S -> Completion A * S.

Definition ret {S A} (a : A) : Js S A := fun s => (Normal a, s).

Definition bind {S A B} (m : Js S A) (k : A -> Js S B) : Js S B :=
  fun s =>
    match m s with
    | (Normal a, s') => k a s'
    | (Throw e, s') => (Throw e, s')
    end.

(** Reading a field of the state, and changing the state. *)
Definition gets {S A} (f : S -> A) : Js S A := fun s => (Normal (f s), s).
Definition modify {S} (f : S -> S) : Js S unit := fun s => (Normal tt, f s).

Declare Scope js_scope.
Delimit Scope js_scope with js.
Notation "x ← y ; z" := (bind y (fun x => z))
  (at level 20, y at level 100, z at level 200, only parsing) : js_scope.
Notation "y ;; z" := (bind y (fun _ => z))
  (at level 100, z at level 200, only parsing, right associativity) : js_scope.
Open Scope js_scope.

Definition throw {S A} (e : JsError) : Js S A := fun s => (Throw e, s).

(** [try { body } catch (error) { handler }]. *)
Definition try_catch {S A} (body : Js S A) (handler : JsError -> Js S A) : Js S A :=
  fun s =>
    match body s with
    | (Normal a, s') => (Normal a, s')
    | (Throw e, s') => handler e s'
    end.

Definition Headers : Type := list (string * string).

(** [Headers.prototype.get]: names compare without case, the values of a
    repeated name are joined, an absent name gives null. *)
Definition headers_get (h : Headers) (key : string) : option string :=
  match List.filter (fun kv => String.eqb (toLowerCase (fst kv)) (toLowerCase key)) h with
  | [] => None
  | l => Some (join ", " (map snd l))
  end.

Record Request : Type := mkRequest {
  method : string;
  url : string;
  mode : string;
  cache : string;
  headers : Headers
}.

Record Response : Type := mkResponse {
  status : nat;
  statusText : string;
  resp_headers : Headers;
  body : string
}.

(** [Response.prototype.ok]: the status is in the range 200 to 299. *)
Definition ok (r : Response) : bool :=
  ((200 <=? status r) && (status r <=? 299))%nat.

(** What a call of the platform's [fetch] settles to. *)
Inductive FetchOutcome : Type :=
  | Rejected (e : JsError)
  | Resolved (r : Response).

(** The network, as seen from one global scope: the outcome of its n-th
    call of [fetch], which may depend on the request. *)
Definition Network : Type := nat -> Request -> FetchOutcome.

(** An attempt fails when [fetch] rejects, or resolves to a response that is
    not ok. *)
Definition failed (o : FetchOutcome) : bool :=
  match o with
  | Rejected _ => true
  | Resolved r => negb (ok r)
  end.

(** The calls number [n], [n+1], ..., [n+k-1] of [fetch] all fail on [req]. *)
Fixpoint fails_from (network : Network) (req : Request) (n k : nat) : bool :=
  match k with
  | 0 => true
  | S k' => failed (network n req) && fails_from network req (S n) k'
  end.

(** The error that a failed attempt of [fetchWithRetry] catches. *)
Definition http_error (r : Response) : JsError :=
  Error ("HTTP " +:+ pretty (status r) +:+ ": " +:+ statusText r).

Definition failure_of (o : FetchOutcome) : JsError :=
  match o with
  | Rejected e => e
  | Resolved r => http_error r
  end.

(** ** The Durable Store of the client: [localStorage] *)

(** The backing medium holds string items under a quota on their total
    length; a write that would exceed it is rejected. *)
Record Storage : Type := mkStorage {
  items : gmap string string;
  quota : nat
}.

Definition storage_size (m : gmap string string) : nat :=
  map_fold (fun k v acc => String.length k + String.length v + acc)%nat 0%nat m.

Definition getItem (key : string) (st : Storage) : option string :=
  items st !! key.

Definition setItem (key value : string) (st : Storage) : Completion unit * Storage :=
  let items' := <[key := value]> (items st) in
  if (storage_size items' <=? quota st)%nat
  then (Normal tt, mkStorage items' (quota st))
  else (Throw QuotaExceededError, st).

(** ** The client: class [GolfDashboard] *)

Inductive ConnectionStatus : Type := online | offline | reconnecting.

(** What the client does that can be observed from outside. *)
Inductive Event : Type :=
  | EvFetch (req : Request)
  | EvDelay (ms : nat)
  | EvConsole (level text : string)
  | EvStatus (s : ConnectionStatus)
  | EvRender (data : json).

(** The fields of the instance that the loader uses, with the globals it
    reaches: [localStorage], the clock behind [Date.now], the number of
    calls of [fetch] so far, and the trace of events. *)
Record Dashboard : Type := mkDashboard {
  tournaments : json;
  maxRetries : nat;
  connectionStatus : ConnectionStatus;
  localStorage : Storage;
  clock : nat;
  fetches : nat;
  trace : list Event
}.

(** The constructor's assignments (before it calls [init]). *)
Definition constructor (store : Storage) (now : nat) : Dashboard :=
  mkDashboard (JArr []) 3 online store now 0 [].

Definition set_tournaments (t : json) (d : Dashboard) : Dashboard :=
  mkDashboard t (maxRetries d) (connectionStatus d) (localStorage d) (clock d)
              (fetches d) (trace d).
Definition set_connectionStatus (c : ConnectionStatus) (d : Dashboard) : Dashboard :=
  mkDashboard (tournaments d) (maxRetries d) c (localStorage d) (clock d)
              (fetches d) (trace d).
Definition set_localStorage (st : Storage) (d : Dashboard) : Dashboard :=
  mkDashboard (tournaments d) (maxRetries d) (connectionStatus d) st (clock d)
              (fetches d) (trace d).
Definition set_clock (t : nat) (d : Dashboard) : Dashboard :=
  mkDashboard (tournaments d) (maxRetries d) (connectionStatus d) (localStorage d) t
              (fetches d) (trace d).
Definition set_fetches (n : nat) (d : Dashboard) : Dashboard :=
  mkDashboard (tournaments d) (maxRetries d) (connectionStatus d) (localStorage d)
              (clock d) n (trace d).
Definition emit (e : Event) (d : Dashboard) : Dashboard :=
  mkDashboard (tournaments d) (maxRetries d) (connectionStatus d) (localStorage d)
              (clock d) (fetches d) (trace d ++ [e]).

(** The network attempts recorded in a trace. *)
Definition is_fetch (e : Event) : bool :=
  match e with EvFetch _ => true | _ => false end.
Definition attempts (t : list Event) : nat := length (List.filter is_fetch t).

Definition is_warning (e : Event) : bool :=
  match e with EvConsole level _ => String.eqb level "warn" | _ => false end.

(** An object spread of [extra] over [base]: a key of [base] keeps its place
    and takes the new value, a new key goes to the end. *)
Fixpoint spread_one (key value : string) (base : Headers) : Headers :=
  match base with
  | [] => [(key, value)]
  | (k, v) :: rest =>
      if String.eqb k key then (k, value) :: rest
      else (k, v) :: spread_one key value rest
  end.
Definition spread (base extra : Headers) : Headers :=
  fold_left (fun acc kv => spread_one (fst kv) (snd kv) acc) extra base.

Section GolfDashboard.

(** The platform's [JSON.parse] ([None] where it throws) and
    [JSON.stringify], the network, and the view glue of
    [renderDashboard]: the error it throws on a collection, if any. *)
Variable JSON_parse : string -> option json.
Variable JSON_stringify : json -> string.
Variable network : Network.
Variable render : json -> option JsError.

Definition console (level text : string) : Js Dashboard unit :=
  modify (emit (EvConsole level text)).

(** [fetch(url, init)] of the window: one network call. *)
Definition fetch (req : Request) : Js Dashboard Response :=
  fun d =>
    let d' := emit (EvFetch req) (set_fetches (S (fetches d)) d) in
    match network (fetches d) req with
    | Rejected e => (Throw e, d')
    | Resolved r => (Normal r, d')
    end.

(** [delay(ms)]: the operation is suspended for [ms] milliseconds. *)
Definition delay (ms : nat) : Js Dashboard unit :=
  modify (fun d => emit (EvDelay ms) (set_clock (clock d + ms) d)).

Definition showConnectionStatus (s : ConnectionStatus) : Js Dashboard unit :=
  modify (fun d => emit (EvStatus s) (set_connectionStatus s d)).

Definition renderDashboard : Js Dashboard unit :=
  fun d =>
    match render (tournaments d) with
    | Some e => (Throw e, d)
    | None => (Normal tt, emit (EvRender (tournaments d)) d)
    end.

(** The request that [fetchWithRetry] hands to [fetch]. *)
Definition retry_request (url : string) (options_headers : Headers) : Request :=
  mkRequest "GET" url "cors" "no-cache"
            (spread [("Cache-Control", "no-cache")] options_headers).

(** The loop of [fetchWithRetry] from index [i], with [remaining]
    iterations before [i < this.maxRetries] fails.  Falling off the loop
    returns undefined ([None]).  [i === this.maxRetries - 1] is written
    [i + 1 = maxRetries], the same test on the integers. *)
Fixpoint fetchWithRetry_from (remaining i : nat) (url : string) (options_headers : Headers)
  : Js Dashboard (option Response) :=
  match remaining with
  | 0 => ret None
  | S remaining' =>
      try_catch
        (response ← fetch (retry_request url options_headers);
         if negb (ok response) then throw (http_error response)
         else ret (Some response))
        (fun error =>
           console "warn" ("Fetch attempt " +:+ pretty (i + 1)%nat +:+ " failed: " +:+
                           message error);;
           max ← gets maxRetries;
           if (i + 1 =? max)%nat then throw error
           else
             delay (2 ^ i * 1000);;
             fetchWithRetry_from remaining' (S i) url options_headers)
  end.

Definition fetchWithRetry (url : string) (options_headers : Headers)
  : Js Dashboard (option Response) :=
  max ← gets maxRetries;
  fetchWithRetry_from max 0 url options_headers.

(** [getCachedData]: null ([JNull]) when the item is absent or empty, or
    when parsing it throws. *)
Definition getCachedData : Js Dashboard json :=
  fun d =>
    match getItem "golf-tournaments" (localStorage d) with
    | None => (Normal JNull, d)
    | Some cached =>
        if String.eqb cached "" then (Normal JNull, d)
        else match JSON_parse cached with
             | Some v => (Normal v, d)
             | None =>
                 (Normal JNull,
                  emit (EvConsole "warn" "Failed to load cached data: SyntaxError") d)
             end
    end.

Definition localStorage_setItem (key value : string) : Js Dashboard unit :=
  fun d =>
    let '(c, st) := setItem key value (localStorage d) in
    (c, set_localStorage st d).

Definition setCachedData (data : json) : Js Dashboard unit :=
  try_catch
    (localStorage_setItem "golf-tournaments" (JSON_stringify data);;
     now ← gets clock;
     localStorage_setItem "golf-tournaments-timestamp" (pretty now))
    (fun error => console "warn" ("Failed to cache data: " +:+ name error)).

(** [await response.json()] on what [fetchWithRetry] returned. *)
Definition response_json (response : option Response) : Js Dashboard json :=
  match response with
  | None => throw (TypeError "Cannot read properties of undefined (reading 'json')")
  | Some r =>
      match JSON_parse (body r) with
      | Some v => ret v
      | None => throw (SyntaxError "Unexpected token in JSON")
      end
  end.

Definition loadData : Js Dashboard unit :=
  try_catch
    (cachedData ← getCachedData;
     if truthy cachedData then
       modify (set_tournaments cachedData);;
       console "log" "Loaded data from cache"
     else
       response ← fetchWithRetry "./data/championships.json" [];
       data ← response_json response;
       modify (set_tournaments data);;
       current ← gets tournaments;
       setCachedData current;;
       console "log" "Loaded fresh data and cached it")
    (fun error =>
       console "error" ("Failed to load data: " +:+ message error);;
       fallbackData ← getCachedData;
       if truthy fallbackData then
         modify (set_tournaments fallbackData);;
         showConnectionStatus offline;;
         console "log" "Using cached data due to network error"
       else throw (Error "No data available")).

Definition refreshData : Js Dashboard unit :=
  try_catch
    (showConnectionStatus reconnecting;;
     loadData;;
     renderDashboard;;
     showConnectionStatus online)
    (fun error =>
       console "error" ("Failed to refresh data: " +:+ message error);;
       showConnectionStatus offline).

End GolfDashboard.

(** ** The service worker *)

Definition CACHE_NAME : string := "golf-dashboard-v1.2".
Definition STATIC_CACHE : string := "golf-static-v1.2".
Definition DATA_CACHE : string := "golf-data-v1.2".

(** A cache maps the URL of a GET request to the stored response; the
    cache storage keeps its named caches in the order of their creation. *)
Definition CacheStorage : Type := list (string * gmap string Response).

Inductive WorkerEvent : Type :=
  | SwFetch (req : Request)
  | SwMatch (key : string)
  | SwPut (cacheName key : string)
  | SwLog (text : string).

Record Worker : Type := mkWorker {
  caches : CacheStorage;
  sw_fetches : nat;
  sw_trace : list WorkerEvent
}.

Definition sw_emit (e : WorkerEvent) (w : Worker) : Worker :=
  mkWorker (caches w) (sw_fetches w) (sw_trace w ++ [e]).
Definition set_caches (cs : CacheStorage) (w : Worker) : Worker :=
  mkWorker cs (sw_fetches w) (sw_trace w).

(** The named cache, if it exists. *)
Fixpoint cache_named (cacheName : string) (cs : CacheStorage) : option (gmap string Response) :=
  match cs with
  | [] => None
  | (n, c) :: rest => if String.eqb n cacheName then Some c else cache_named cacheName rest
  end.

(** [caches.open]: the cache is created, last in order, when it is new. *)
Definition open_cache (cacheName : string) (cs : CacheStorage) : CacheStorage :=
  match cache_named cacheName cs with
  | Some _ => cs
  | None => (cs ++ [(cacheName, ∅)])%list
  end.

(** The entry of the named cache under a key is set. *)
Fixpoint set_entry (cacheName key : string) (r : Response) (cs : CacheStorage) : CacheStorage :=
  match cs with
  | [] => []
  | (n, c) :: rest =>
      if String.eqb n cacheName then (n, <[key := r]> c) :: rest
      else (n, c) :: set_entry cacheName key r rest
  end.

(** The fields of a header value: split at the commas, blanks trimmed. *)
Fixpoint split_commas (s : string) : list string :=
  match s with
  | EmptyString => [""]
  | String c s' =>
      if Ascii.eqb c "," then "" :: split_commas s'
      else match split_commas s' with
           | [] => [String c ""]
           | f :: fs => String c f :: fs
           end
  end.

Definition is_blank (c : ascii) : bool := Ascii.eqb c " " || Ascii.eqb c "009".

Fixpoint trim_left (s : string) : string :=
  match s with
  | String c s' => if is_blank c then trim_left s' else s
  | EmptyString => EmptyString
  end.

Fixpoint trim_right (s : string) : string :=
  match s with
  | EmptyString => EmptyString
  | String c s' =>
      let t := trim_right s' in
      if is_blank c && String.eqb t "" then "" else String c t
  end.

Definition trim (s : string) : string := trim_right (trim_left s).

(** The response has a Vary header with the field [*]. *)
Definition vary_star (r : Response) : bool :=
  match headers_get (resp_headers r) "vary" with
  | None => false
  | Some v => existsb (fun f => String.eqb (trim f) "*") (split_commas v)
  end.

Definition http_scheme (u : string) : bool :=
  startsWith u "http://" || startsWith u "https://".

(** A request that a cache takes as a key: a GET over http or https. *)
Definition cacheable (request : Request) : bool :=
  String.eqb (method request) "GET" && http_scheme (url request).

(** What [cache.put] accepts: a cacheable request, with a response that is
    not partial content (206) and does not vary on everything.  (The
    storage is taken to have room; the bodies passed are unread.) *)
Definition storable (request : Request) (r : Response) : bool :=
  cacheable request && negb (status r =? 206)%nat && negb (vary_star r).

(** What [cache.put] does to the named cache: the entry is set when the
    pair is accepted, nothing is stored otherwise. *)
Definition put_cache (cacheName : string) (request : Request) (r : Response)
    (cs : CacheStorage) : CacheStorage :=
  if storable request r then set_entry cacheName (url request) r cs else cs.

(** [caches.match]: the first cache, in order, that holds the key. *)
Fixpoint match_caches (key : string) (cs : CacheStorage) : option Response :=
  match cs with
  | [] => None
  | (_, c) :: rest =>
      match c !! key with
      | Some r => Some r
      | None => match_caches key rest
      end
  end.

Definition isDataRequest (request : Request) : bool :=
  includes (url request) "/data/" || endsWith (url request) ".json".

Definition isStaticResource (request : Request) : bool :=
  includes (url request) ".css" ||
  includes (url request) ".js" ||
  includes (url request) ".png" ||
  includes (url request) ".jpg" ||
  includes (url request) ".jpeg" ||
  includes (url request) ".gif" ||
  includes (url request) ".svg" ||
  includes (url request) ".ico" ||
  includes (url request) "cdn.jsdelivr.net".

(** The last disjunct is guarded: an absent (or empty) Accept header is
    falsy and [includes] is not called on it. *)
Definition isNavigationRequest (request : Request) : bool :=
  String.eqb (mode request) "navigate" ||
  endsWith (url request) ".html" ||
  match headers_get (headers request) "accept" with
  | None => false
  | Some a => negb (String.eqb a "") && includes a "text/html"
  end.

(** The branch of the [fetch] listener that a request takes. *)
Inductive Strategy : Type := DataClass | StaticClass | NavigationClass | GenericClass.

(** The listener's chain of tests; [None] is a request it leaves alone
    (it does not call [respondWith]). *)
Definition classify (request : Request) : option Strategy :=
  if String.eqb (method request) "GET" then
    if isDataRequest request then Some DataClass
    else if isStaticResource request then Some StaticClass
    else if isNavigationRequest request then Some NavigationClass
    else Some GenericClass
  else None.
Definition offline_page : string :=
  join newline [
    "";
    "            <!DOCTYPE html>";
    "            <html lang=" +:+ quoted "en" +:+ ">";
    "            <head>";
    "                <meta charset=" +:+ quoted "UTF-8" +:+ ">";
    "                <meta name=" +:+ quoted "viewport" +:+ " content=" +:+ quoted "width=device-width, initial-scale=1.0" +:+ ">";
    "                <title>Offline - Golf Dashboard</title>";
    "                <style>";
    "                    body {";
    "                        font-family: 'Segoe UI', Tahoma, Geneva, Verdana, sans-serif;";
    "                        background: linear-gradient(135deg, #1e3c72 0%, #2a5298 100%);";
    "                        color: white;";
    "                        display: flex;";
    "                        justify-content: center;";
    "                        align-items: center;";
    "                        min-height: 100vh;";
    "                        margin: 0;";
    "                        text-align: center;";
    "                    }";
    "                    .offline-container {";
    "                        background: rgba(255, 255, 255, 0.1);";
    "                        backdrop-filter: blur(10px);";
    "                        padding: 40px;";
    "                        border-radius: 15px;";
    "                        box-shadow: 0 8px 32px rgba(0,0,0,0.3);";
    "                    }";
    "                    .offline-icon {";
    "                        font-size: 64px;";
    "                        margin-bottom: 20px;";
    "                    }";
    "                    h1 {";
    "                        margin-bottom: 20px;";
    "                        color: #fff;";
    "                    }";
    "                    p {";
    "                        margin-bottom: 30px;";
    "                        opacity: 0.9;";
    "                    }";
    "                    .retry-btn {";
    "                        background: #4CAF50;";
    "                        color: white;";
    "                        border: none;";
    "                        padding: 12px 24px;";
    "                        border-radius: 8px;";
    "                        cursor: pointer;";
    "                        font-size: 16px;";
    "                        font-weight: 600;";
    "                        transition: background 0.3s ease;";
    "                    }";
    "                    .retry-btn:hover {";
    "                        background: #45a049;";
    "                    }";
    "                </style>";
    "            </head>";
    "            <body>";
    "                <div class=" +:+ quoted "offline-container" +:+ ">";
    "                    <div class=" +:+ quoted "offline-icon" +:+ ">🌐</div>";
    "                    <h1>You're Offline</h1>";
    "                    <p>It looks like you're not connected to the internet.<br>";
    "                    Some features may not be available until you reconnect.</p>";
    "                    <button class=" +:+ quoted "retry-btn" +:+ " onclick=" +:+ quoted "window.location.reload()" +:+ ">";
    "                        Try Again";
    "                    </button>";
    "                </div>";
    "            </body>";
    "            </html>";
    "        "
  ].

(** *** Markup

    A text is well-formed markup when its tags nest: every opening tag is
    closed by the matching closing tag, innermost first.  Declarations
    ([<!DOCTYPE ...>]) and void elements have no closing tag. *)

Definition void_elements : list string := ["meta"; "br"; "link"; "img"; "input"; "hr"].

(** The text of a tag up to its closing angle bracket, and what follows. *)
Fixpoint read_tag (s : string) : option (string * string) :=
  match s with
  | EmptyString => None
  | String c s' =>
      if Ascii.eqb c ">" then Some ("", s')
      else match read_tag s' with
           | Some (content, rest) => Some (String c content, rest)
           | None => None
           end
  end.

Fixpoint tag_name (s : string) : string :=
  match s with
  | EmptyString => EmptyString
  | String c s' => if is_ws c || Ascii.eqb c "/" then EmptyString else String c (tag_name s')
  end.

Fixpoint balanced (fuel : nat) (s : string) (stack : list string) : bool :=
  match fuel with
  | 0 => false
  | S fuel' =>
      match s with
      | EmptyString => match stack with [] => true | _ :: _ => false end
      | String c s' =>
          if Ascii.eqb c "<" then
            match read_tag s' with
            | None => false
            | Some (String "!" _, rest) => balanced fuel' rest stack
            | Some (String "/" closing, rest) =>
                match stack with
                | top :: stack' =>
                    String.eqb top (tag_name closing) && balanced fuel' rest stack'
                | [] => false
                end
            | Some (content, rest) =>
                if existsb (String.eqb (tag_name content)) void_elements
                then balanced fuel' rest stack
                else balanced fuel' rest (tag_name content :: stack)
            end
          else balanced fuel' s' stack
      end
  end.

Definition well_formed_markup (s : string) : bool :=
  balanced (S (String.length s)) s [].

(** The retry action of the offline page: reloading the location. *)
Definition retry_action : string :=
  "<button class=" +:+ quoted "retry-btn" +:+ " onclick=" +:+
  quoted "window.location.reload()" +:+ ">".

Definition offline_json : string :=
  "{" +:+ quoted "error" +:+ ": " +:+ quoted "Offline" +:+ ", " +:+ quoted "data" +:+ ": []}".

Definition null_includes : JsError :=
  TypeError "Cannot read properties of null (reading 'includes')".

(** [createOfflineResponse]: [includes] is called on what
    [request.headers.get('accept')] returns, which is null when the header
    is absent. *)
Definition createOfflineResponse (request : Request) : Completion Response :=
  match headers_get (headers request) "accept" with
  | None => Throw null_includes
  | Some a =>
      if includes a "text/html" then
        Normal (mkResponse 200 ""
                  [("Content-Type", "text/html"); ("Cache-Control", "no-cache")]
                  offline_page)
      else if includes a "application/json" then
        Normal (mkResponse 200 ""
                  [("Content-Type", "application/json"); ("Cache-Control", "no-cache")]
                  offline_json)
      else
        Normal (mkResponse 503 "Service Unavailable"
                  [("Content-Type", "text/plain"); ("Cache-Control", "no-cache")]
                  "Offline")
  end.

Definition lift {S A} (c : Completion A) : Js S A := fun s => (c, s).

Section ServiceWorker.

(** The network as the worker sees it, and the origin against which
    ['/index.html'] is resolved. *)
Variable network : Network.
Variable origin : string.

Definition sw_log (text : string) : Js Worker unit := modify (sw_emit (SwLog text)).

(** [fetch(request)] of the worker: one network call. *)
Definition sw_fetch (request : Request) : Js Worker Response :=
  fun w =>
    let w' := sw_emit (SwFetch request) (mkWorker (caches w) (S (sw_fetches w)) (sw_trace w)) in
    match network (sw_fetches w) request with
    | Rejected e => (Throw e, w')
    | Resolved r => (Normal r, w')
    end.

(** [caches.open(name)] gives the handle of the cache: its name. *)
Definition caches_open (cacheName : string) : Js Worker string :=
  modify (fun w => set_caches (open_cache cacheName (caches w)) w);;
  ret cacheName.

(** An awaited [cache.put(request, response)]: it rejects with a TypeError
    what the cache does not accept. *)
Definition cache_put (cache : string) (request : Request) (response : Response)
  : Js Worker unit :=
  fun w =>
    (if storable request response then Normal tt
     else Throw (TypeError "Failed to execute 'put' on 'Cache'"),
     sw_emit (SwPut cache (url request))
       (set_caches (put_cache cache request response (caches w)) w)).

(** A call whose promise is not awaited: its effect takes place, its
    rejection reaches nobody. *)
Definition unawaited {S} (m : Js S unit) : Js S unit :=
  try_catch m (fun _ => ret tt).

(** [caches.match] on a URL. *)
Definition caches_match (key : string) : Js Worker (option Response) :=
  modify (sw_emit (SwMatch key));;
  gets (fun w => match_caches key (caches w)).

Definition handleDataRequest (request : Request) : Js Worker Response :=
  try_catch
    (sw_log ("Service Worker: Fetching data from network " +:+ url request);;
     networkResponse ← sw_fetch request;
     if ok networkResponse then
       cache ← caches_open DATA_CACHE;
       unawaited (cache_put cache request networkResponse);;
       sw_log ("Service Worker: Data cached " +:+ url request);;
       ret networkResponse
     else
       throw (Error ("Network response not ok: " +:+ pretty (status networkResponse))))
    (fun error =>
       sw_log ("Service Worker: Network failed, trying cache " +:+ url request);;
       cachedResponse ← caches_match (url request);
       match cachedResponse with
       | Some r =>
           sw_log ("Service Worker: Serving from cache " +:+ url request);;
           ret r
       | None => lift (createOfflineResponse request)
       end).

Definition handleStaticRequest (request : Request) : Js Worker Response :=
  try_catch
    (cachedResponse ← caches_match (url request);
     match cachedResponse with
     | Some r =>
         sw_log ("Service Worker: Serving static from cache " +:+ url request);;
         ret r
     | None =>
         sw_log ("Service Worker: Fetching static from network " +:+ url request);;
         networkResponse ← sw_fetch request;
         (if ok networkResponse then
            cache ← caches_open STATIC_CACHE;
            unawaited (cache_put cache request networkResponse);;
            sw_log ("Service Worker: Static resource cached " +:+ url request)
          else ret tt);;
         ret networkResponse
     end)
    (fun error =>
       sw_log ("Service Worker: Failed to fetch static resource " +:+ url request);;
       lift (createOfflineResponse request)).

Definition handleNavigationRequest (request : Request) : Js Worker Response :=
  try_catch
    (networkResponse ← sw_fetch request;
     if ok networkResponse then
       cache ← caches_open STATIC_CACHE;
       unawaited (cache_put cache request networkResponse);;
       ret networkResponse
     else
       throw (Error ("Navigation response not ok: " +:+ pretty (status networkResponse))))
    (fun error =>
       sw_log ("Service Worker: Navigation network failed, trying cache " +:+ url request);;
       cachedResponse ← caches_match (url request);
       match cachedResponse with
       | Some r => ret r
       | None =>
           indexResponse ← caches_match (origin +:+ "/index.html");
           match indexResponse with
           | Some r => ret r
           | None => lift (createOfflineResponse request)
           end
       end).

Definition handleGenericRequest (request : Request) : Js Worker Response :=
  try_catch
    (networkResponse ← sw_fetch request;
     (if ok networkResponse then
        cache ← caches_open CACHE_NAME;
        unawaited (cache_put cache request networkResponse)
      else ret tt);;
     ret networkResponse)
    (fun error =>
       cachedResponse ← caches_match (url request);
       match cachedResponse with
       | Some r => ret r
       | None => lift (createOfflineResponse request)
       end).

Definition handler (s : Strategy) : Request -> Js Worker Response :=
  match s with
  | DataClass => handleDataRequest
  | StaticClass => handleStaticRequest
  | NavigationClass => handleNavigationRequest
  | GenericClass => handleGenericRequest
  end.

(** The [fetch] listener: the response it hands to [respondWith], or
    [None] when it returns without calling it. *)
Definition onfetch (request : Request) : option (Js Worker Response) :=
  match classify request with
  | Some s => Some (handler s request)
  | None => None
  end.

(** What the page gets for a request in the worker's scope: the
    listener's response, or, when the listener did not call
    [respondWith], the browser's own network request. *)
Definition respond (request : Request) : Js Worker Response :=
  match onfetch request with
  | Some h => h
  | None => sw_fetch request
  end.

End ServiceWorker.

(** ** Sample data *)

Definition records_text : string :=
  "[{" +:+ quoted "name" +:+ ": " +:+ quoted "Ann" +:+ ", " +:+
           quoted "date" +:+ ": " +:+ quoted "2023-06-10" +:+ ", " +:+
           quoted "trophy" +:+ ": " +:+ quoted "Petty Cup" +:+ ", " +:+
           quoted "course" +:+ ": " +:+ quoted "Pine Hills" +:+ ", " +:+
           quoted "score" +:+ ": 72}, {" +:+
           quoted "name" +:+ ": " +:+ quoted "Bob" +:+ ", " +:+
           quoted "date" +:+ ": " +:+ quoted "2024-05-04" +:+ ", " +:+
           quoted "trophy" +:+ ": " +:+ quoted "TAMC" +:+ ", " +:+
           quoted "course" +:+ ": " +:+ quoted "Oak Run" +:+ ", " +:+
           quoted "score" +:+ ": 69}]".

Definition records : json :=
  JArr [JObj [("name", JStr "Ann"); ("date", JStr "2023-06-10"); ("trophy", JStr "Petty Cup");
              ("course", JStr "Pine Hills"); ("score", JNum 72)];
        JObj [("name", JStr "Bob"); ("date", JStr "2024-05-04"); ("trophy", JStr "TAMC");
              ("course", JStr "Oak Run"); ("score", JNum 69)]].

Definition warm_store : Storage := mkStorage {[ "golf-tournaments" := records_text ]} 5000.
Definition empty_store : Storage := mkStorage ∅ 5000.
Definition full_store : Storage := mkStorage ∅ 10.

Definition ok_response : Response :=
  mkResponse 200 "OK" [("Content-Type", "application/json")] records_text.
Definition unavailable : Response :=
  mkResponse 503 "Service Unavailable" [("Content-Type", "text/plain")] "Offline".

(** A network that is down, and one whose first [k] calls fail. *)
Definition net_down : Network := fun _ _ => Rejected (TypeError "Failed to fetch").
Definition net_flaky (k : nat) : Network :=
  fun n _ => if (n <? k)%nat then Resolved unavailable else Resolved ok_response.
Definition net_up : Network := net_flaky 0.

Definition renders : json -> option JsError := fun _ => None.

Definition data_url : string := "https://golf.example/data/championships.json".
Definition site : string := "https://golf.example".

Definition fresh_worker : Worker := mkWorker [] 0 [].

(** Requests. *)
Definition get_request (u md : string) (h : Headers) : Request :=
  mkRequest "GET" u md "default" h.

Definition page_navigation : Request := get_request "https://golf.example/story" "navigate" [].
Definition page_fetch : Request := get_request "https://golf.example/story" "cors" [].
Definition page_request : Request :=
  get_request "https://golf.example/story" "navigate"
              [("Accept", "text/html,application/xhtml+xml")].
Definition api_request : Request :=
  get_request "https://golf.example/api/scores" "cors" [("Accept", "application/json")].
Definition bare_request : Request := get_request "https://golf.example/api/scores" "cors" [].
Definition data_get : Request := get_request data_url "cors" [("Accept", "*/*")].
Definition data_reload : Request :=
  mkRequest "GET" data_url "cors" "reload" [("Accept", "*/*")].
Definition data_post : Request :=
  mkRequest "POST" data_url "cors" "default" [("Accept", "application/json")].
Definition bare_data_request : Request := get_request data_url "cors" [].

(** ** Vocabulary of the statements *)

(** What stays in memory across a computation: the collection, the retry
    bound, the status and the store. *)
Definition kept (d d' : Dashboard) : Prop :=
  tournaments d' = tournaments d /\ maxRetries d' = maxRetries d /\
  connectionStatus d' = connectionStatus d /\ localStorage d' = localStorage d.

(** The state after the failed attempt number [i] of [fetchWithRetry] has
    been caught and reported, and the state after a delay. *)
Definition reported (network : Network) (req : Request) (i : nat) (d : Dashboard) : Dashboard :=
  emit (EvConsole "warn" ("Fetch attempt " +:+ pretty (i + 1)%nat +:+ " failed: " +:+
                          message (failure_of (network (fetches d) req))))
       (emit (EvFetch req) (set_fetches (S (fetches d)) d)).

Definition delayed (ms : nat) (d : Dashboard) : Dashboard :=
  emit (EvDelay ms) (set_clock (clock d + ms) d).

(** What [getCachedData] returns on a store. *)
Definition cached_value (JSON_parse : string -> option json) (st : Storage) : json :=
  match getItem "golf-tournaments" st with
  | None => JNull
  | Some cached =>
      if String.eqb cached "" then JNull
      else match JSON_parse cached with
           | Some v => v
           | None => JNull
           end
  end.

(** The medium rejects the write of an item. *)
Definition rejects (st : Storage) (key value : string) : bool :=
  negb (storage_size (<[key := value]> (items st)) <=? quota st)%nat.

(** The medium rejects one of the two writes of [setCachedData]. *)
Definition write_rejected (JSON_stringify : json -> string) (data : json) (d : Dashboard) : bool :=
  rejects (localStorage d) "golf-tournaments" (JSON_stringify data) ||
  rejects (mkStorage (<["golf-tournaments" := JSON_stringify data]> (items (localStorage d)))
                     (quota (localStorage d)))
          "golf-tournaments-timestamp" (pretty (clock d)).

Definition cache_warning : Event :=
  EvConsole "warn" "Failed to cache data: QuotaExceededError".

Definition NoDataAvailable : JsError := Error "No data available".

(** The cache that the handler of a class writes. *)
Definition written_cache (s : Strategy) : string :=
  match s with
  | DataClass => DATA_CACHE
  | StaticClass => STATIC_CACHE
  | NavigationClass => STATIC_CACHE
  | GenericClass => CACHE_NAME
  end.

(** ** The rest of the client: start-up, events and the submitted record *)

(** The waits recorded in a trace, in order. *)
Fixpoint delays (t : list Event) : list nat :=
  match t with
  | [] => []
  | EvDelay ms :: t' => ms :: delays t'
  | _ :: t' => delays t'
  end.

(** What [getCachedData] logs when parsing the item throws. *)
Definition parse_warning : Event :=
  EvConsole "warn" "Failed to load cached data: SyntaxError".

(** The wait of [fetchWithRetry] after the failure of attempt [i]. *)
Definition backoff (i : nat) : nat := 2 ^ i * 1000.

Section DashboardLifecycle.

Variable JSON_parse : string -> option json.
Variable JSON_stringify : json -> string.
Variable network : Network.
Variable render : json -> option JsError.

(** [handleError]: the error is logged (the error panel it puts into the
    page is left out). *)
Definition handleError (error : JsError) : Js Dashboard unit :=
  console "error" ("Dashboard error: " +:+ message error).

(** [init].  [setupEventListeners] only registers the listeners below and
    [setupServiceWorker] catches its own failure; neither touches the state. *)
Definition init : Js Dashboard unit :=
  try_catch
    (showConnectionStatus online;;
     loadData JSON_parse JSON_stringify network;;
     renderDashboard render)
    (fun error =>
       console "error" ("Initialization failed: " +:+ message error);;
       handleError error).

(** The listeners of the window's [online] and [offline] events, and of
    [visibilitychange] when the page becomes visible. *)
Definition on_online : Js Dashboard unit :=
  showConnectionStatus online;;
  refreshData JSON_parse JSON_stringify network render.

Definition on_offline : Js Dashboard unit := showConnectionStatus offline.

Definition on_visible : Js Dashboard unit :=
  console "log" "Page visible - resuming activity";;
  refreshData JSON_parse JSON_stringify network render.

(** [Array.prototype.push] on [this.tournaments]: a TypeError when the
    value is not an array. *)
Definition tournaments_push (t : json) : Js Dashboard unit :=
  current ← gets tournaments;
  match current with
  | JArr l => modify (set_tournaments (JArr (l ++ [t])))
  | _ => throw (TypeError "this.tournaments.push is not a function")
  end.

(** [handleFormSubmit] from the point where [newTournament] has been read
    from the form: the record is pushed, the cache is updated and the
    dashboard rendered (closing the modal and the success message are left
    out). *)
Definition handleFormSubmit (newTournament : json) : Js Dashboard unit :=
  tournaments_push newTournament;;
  current ← gets tournaments;
  setCachedData JSON_stringify current;;
  renderDashboard render.

End DashboardLifecycle.

(** ** The rest of the service worker: install, activate, sync *)

Definition STATIC_FILES : list string :=
  ["/"; "/index.html"; "/app.js"; "/enhanced-styles.css"; "/data/championships.json";
   "/our-story.html"; "/analytics.html";
   "https://cdn.jsdelivr.net/npm/chart.js";
   "https://cdn.jsdelivr.net/npm/date-fns@2.29.3/index.min.js"].

(** A URL of the worker's code against its origin: a path is put under the
    origin, an absolute URL is kept. *)
Definition resolve (origin u : string) : string :=
  if startsWith u "/" then origin +:+ u else u.

(** [new Request(url, { cache: 'reload' })]. *)
Definition reload_request (origin u : string) : Request :=
  mkRequest "GET" (resolve origin u) "cors" "reload" [].

(** [caches.delete(name)]. *)
Definition delete_cache (cacheName : string) (cs : CacheStorage) : CacheStorage :=
  List.filter (fun nc => negb (String.eqb (fst nc) cacheName)) cs.

(** The test of [activate] on a cache name, negated: the cache is kept. *)
Definition current_cache (cacheName : string) : bool :=
  String.eqb cacheName STATIC_CACHE || String.eqb cacheName DATA_CACHE ||
  String.eqb cacheName CACHE_NAME.

(** The names that [caches.keys()] gives. *)
Definition cache_names (cs : CacheStorage) : list string := map fst cs.

(** What [addAll] accepts for a request: an ok response that [put] would
    accept. *)
Definition addable (entry : Request * FetchOutcome) : bool :=
  match snd entry with
  | Rejected _ => false
  | Resolved r => ok r && storable (fst entry) r
  end.

Definition all_ok (entries : list (Request * FetchOutcome)) : bool :=
  forallb addable entries.

(** The first failure among the outcomes of [addAll]'s requests: a
    rejection as it is, a response that is not accepted as a TypeError. *)
Fixpoint first_failure (entries : list (Request * FetchOutcome)) : JsError :=
  match entries with
  | [] => TypeError "Request failed"
  | (_, Rejected e) :: _ => e
  | (req, Resolved r) :: rest =>
      if addable (req, Resolved r) then first_failure rest else TypeError "Request failed"
  end.

(** The entries that [addAll] puts: each request with its response. *)
Fixpoint put_all (cacheName : string) (entries : list (Request * FetchOutcome))
    (cs : CacheStorage) : CacheStorage :=
  match entries with
  | [] => cs
  | (req, Resolved r) :: rest => put_all cacheName rest (put_cache cacheName req r cs)
  | (_, Rejected _) :: rest => put_all cacheName rest cs
  end.

Section WorkerLifecycle.

Variable network : Network.
Variable origin : string.

(** One request of [addAll]: the outcome is kept, nothing is thrown. *)
Definition fetch_outcome (request : Request) : Js Worker FetchOutcome :=
  try_catch (r ← sw_fetch network request; ret (Resolved r))
            (fun e => ret (Rejected e)).

Fixpoint fetch_each (requests : list Request) : Js Worker (list FetchOutcome) :=
  match requests with
  | [] => ret []
  | request :: rest =>
      o ← fetch_outcome request;
      os ← fetch_each rest;
      ret (o :: os)
  end.

(** [cache.addAll(requests)]: a request that is not cacheable makes the call
    reject before anything is fetched.  Otherwise every request is fetched;
    the responses are stored only when each of them is ok and accepted by the
    cache, otherwise the call rejects and stores nothing. *)
Definition cache_addAll (cache : string) (requests : list Request) : Js Worker unit :=
  if forallb cacheable requests then
    outcomes ← fetch_each requests;
    if all_ok (combine requests outcomes)
    then modify (fun w => set_caches (put_all cache (combine requests outcomes) (caches w)) w)
    else throw (first_failure (combine requests outcomes))
  else throw (TypeError "Request scheme is unsupported").

(** The [install] listener.  The two chains of its [Promise.all] are run
    one after the other: both caches are opened, then the static files are
    added; the final [catch] logs a failure. *)
Definition install : Js Worker unit :=
  sw_log "Service Worker: Installing...";;
  try_catch
    (static ← caches_open STATIC_CACHE;
     _ ← caches_open DATA_CACHE;
     sw_log "Service Worker: Caching static files";;
     sw_log "Service Worker: Data cache initialized";;
     cache_addAll static (map (reload_request origin) STATIC_FILES);;
     sw_log "Service Worker: Installation complete")
    (fun error => sw_log ("Service Worker: Installation failed " +:+ message error)).

(** The loop of [activate] over the cache names. *)
Fixpoint delete_old (names : list string) : Js Worker unit :=
  match names with
  | [] => ret tt
  | cacheName :: rest =>
      (if negb (current_cache cacheName) then
         sw_log ("Service Worker: Deleting old cache " +:+ cacheName);;
         modify (fun w => set_caches (delete_cache cacheName (caches w)) w)
       else ret tt);;
      delete_old rest
  end.

(** The [activate] listener ([clients.claim] does not touch the caches). *)
Definition activate : Js Worker unit :=
  sw_log "Service Worker: Activating...";;
  names ← gets (fun w => cache_names (caches w));
  delete_old names;;
  sw_log "Service Worker: Activation complete".

Definition sync_request : Request :=
  mkRequest "GET" (origin +:+ "/data/championships.json") "cors" "default" [].

(** [syncData] (the message it posts to the clients is left out). *)
Definition syncData : Js Worker unit :=
  try_catch
    (sw_log "Service Worker: Syncing data in background";;
     response ← sw_fetch network sync_request;
     if ok response then
       cache ← caches_open DATA_CACHE;
       cache_put cache sync_request response;;
       sw_log "Service Worker: Background data sync complete"
     else ret tt)
    (fun error => sw_log ("Service Worker: Background sync failed " +:+ message error)).

(** [updateCache]. *)
Definition updateCache : Js Worker unit :=
  try_catch
    (sw_log "Service Worker: Manual cache update triggered";;
     cache ← caches_open STATIC_CACHE;
     cache_addAll cache (map (reload_request origin) STATIC_FILES);;
     sw_log "Service Worker: Manual cache update complete")
    (fun error =>
       sw_log ("Service Worker: Manual cache update failed " +:+ message error)).

(** The [sync] and [periodicsync] listeners, on the tag of the event. *)
Definition onsync (tag : string) : Js Worker unit :=
  sw_log ("Service Worker: Background sync triggered " +:+ tag);;
  if String.eqb tag "background-sync-data" then syncData else ret tt.

Definition onperiodicsync (tag : string) : Js Worker unit :=
  sw_log ("Service Worker: Periodic sync triggered " +:+ tag);;
  if String.eqb tag "data-sync" then syncData else ret tt.

End WorkerLifecycle.

(** The outcomes of the calls number [n], [n+1], ... of [fetch] on a list of
    requests. *)
Fixpoint outcomes_from (network : Network) (n : nat) (requests : list Request)
    : list FetchOutcome :=
  match requests with
  | [] => []
  | request :: rest => network n request :: outcomes_from network (S n) rest
  end.

(** What is left of the caches after the loop of [activate] over [names]. *)
Definition after_delete_old (names : list string) (cs : CacheStorage) : CacheStorage :=
  fold_left (fun acc n => if current_cache n then acc else delete_cache n acc) names cs.

(** A network that serves every request, and a store with room for the
    collection but not for its timestamp. *)
Definition served : Response := mkResponse 200 "OK" [] "served".
(** Two ok responses that a cache refuses. *)
Definition partial_content : Response :=
  mkResponse 206 "Partial Content" [("Content-Range", "bytes 0-5/6")] "served".
Definition varying : Response :=
  mkResponse 200 "OK" [("Vary", "Accept-Encoding, *")] "served".
Definition net_partial : Network := fun _ _ => Resolved partial_content.
Definition net_varying : Network := fun _ _ => Resolved varying.
Definition net_serving : Network := fun _ _ => Resolved served.
Definition net_once : Network :=
  fun n _ => if (n =? 0)%nat then Resolved ok_response
             else Rejected (TypeError "Failed to fetch").
Definition tight_store : Storage := mkStorage ∅ 20.
Definition corrupt_store : Storage := mkStorage {[ "golf-tournaments" := "[{" ]} 5000.
Definition shell_worker : Worker :=
  mkWorker [(STATIC_CACHE, {[ "https://golf.example/index.html" := served ]})] 0 [].
Definition net_story : Network :=
  fun n _ => if (n <? 9)%nat then Resolved served
             else if (n =? 9)%nat then Resolved ok_response
             else Rejected (TypeError "Failed to fetch").
Definition newcomer : json :=
  JObj [("name", JStr "Cy"); ("date", JStr "2025-07-01"); ("trophy", JStr "SUC");
        ("course", JStr "Elm Park"); ("score", JNum 70); ("history", JStr "")].
Definition old_worker : Worker :=
  mkWorker [("golf-static-v1.1", {[ "https://golf.example/" := unavailable ]});
            (STATIC_CACHE, {[ "https://golf.example/" := ok_response ]})] 0 [].

(** A computation that, started with the retry bound [N], keeps the bound
    and makes at most [n] network attempts, however it ends. *)
Definition bounded {A} (N n : nat) (m : Js Dashboard A) : Prop :=
  forall d c d',
    maxRetries d = N -> m d = (c, d') ->
    maxRetries d' = N /\ (attempts (trace d') <= attempts (trace d) + n)%nat.

(** The worker after an installation in which every static file was served. *)
Definition installed_worker : Worker := snd (install net_story site fresh_worker).

(** * Theorems *)

(** ** Checks on concrete inputs *)

Example includes_data_path : includes data_url "/data/" = true.
Proof. reflexivity. Qed.

Example json_url_has_js : endsWith data_url ".json" = true /\ includes data_url ".js" = true.
Proof. split; reflexivity. Qed.

Example headers_get_ignores_case :
  headers_get [("Accept", "text/html")] "accept" = Some "text/html" /\
  headers_get [("Cache-Control", "no-cache")] "accept" = None.
Proof. split; reflexivity. Qed.

Example parse_records : parse_json records_text = Some records.
Proof. vm_compute. reflexivity. Qed.

Example parse_stringify_records : parse_json (stringify_json records) = Some records.
Proof. vm_compute. reflexivity. Qed.

Example parse_rejects_truncated : parse_json "[1, 2" = None.
Proof. vm_compute. reflexivity. Qed.

Example empty_array_is_truthy : truthy (JArr []) = true /\ truthy JNull = false.
Proof. split; reflexivity. Qed.

Example classify_samples :
  classify data_get = Some DataClass /\
  classify (get_request "https://golf.example/app.js" "no-cors" []) = Some StaticClass /\
  classify page_request = Some NavigationClass /\
  classify bare_request = Some GenericClass /\
  classify data_post = None.
Proof. repeat split; reflexivity. Qed.

Example spread_overrides :
  spread [("Cache-Control", "no-cache")] [("Cache-Control", "max-age=0"); ("Accept", "*/*")] =
  [("Cache-Control", "max-age=0"); ("Accept", "*/*")].
Proof. reflexivity. Qed.

Example markup_checks :
  well_formed_markup "<p>a<br>b</p>" = true /\
  well_formed_markup "<a><b></a></b>" = false /\
  well_formed_markup "<p>" = false.
Proof. repeat split; reflexivity. Qed.

(** ** The Retrying Fetcher *)

Lemma attempts_app (t : list Event) (e : Event) :
  attempts (t ++ [e]) = (attempts t + (if is_fetch e then 1 else 0))%nat.
Proof.
  unfold attempts. rewrite List.filter_app, length_app. simpl.
  destruct (is_fetch e); reflexivity.
Qed.

#[local] Arguments attempts : simpl never.


Lemma kept_refl d : kept d d.
Proof. repeat split. Qed.

Lemma kept_trans d1 d2 d3 : kept d1 d2 -> kept d2 d3 -> kept d1 d3.
Proof. unfold kept. intuition congruence. Qed.

Section RetryingFetcher.

Variable network : Network.
Variables (url : string) (options_headers : Headers).

Local Abbreviation req := (retry_request url options_headers).

(** One iteration whose attempt succeeds returns the response. *)
Lemma attempt_succeeds remaining i d r :
  network (fetches d) req = Resolved r -> ok r = true ->
  fetchWithRetry_from network (S remaining) i url options_headers d =
  (Normal (Some r), emit (EvFetch req) (set_fetches (S (fetches d)) d)).
Proof.
  intros Hnet Hok. cbn [fetchWithRetry_from].
  unfold try_catch, bind, fetch. rewrite Hnet, Hok. reflexivity.
Qed.


(** One iteration whose attempt fails: the last one rethrows, the others
    wait and go on. *)
Lemma attempt_fails remaining i d :
  failed (network (fetches d) req) = true ->
  fetchWithRetry_from network (S remaining) i url options_headers d =
  if (i + 1 =? maxRetries d)%nat
  then (Throw (failure_of (network (fetches d) req)), reported network req i d)
  else fetchWithRetry_from network remaining (S i) url options_headers
         (delayed (2 ^ i * 1000) (reported network req i d)).
Proof.
  intros Hfail. cbn [fetchWithRetry_from].
  unfold try_catch, bind, fetch, reported.
  destruct (network (fetches d) req) as [e | r]; simpl in *.
  - unfold console, modify, gets, throw, delay. simpl.
    destruct (i + 1 =? maxRetries d)%nat; reflexivity.
  - apply negb_true_iff in Hfail. rewrite Hfail. simpl.
    unfold console, modify, gets, throw, delay. simpl.
    destruct (i + 1 =? maxRetries d)%nat; reflexivity.
Qed.

(** The loop, when attempt number [k] (from 0) is the first to succeed. *)
Lemma retry_until_success k : forall remaining i d r,
  (k < remaining)%nat -> (i + remaining = maxRetries d)%nat ->
  fails_from network req (fetches d) k = true ->
  network (fetches d + k)%nat req = Resolved r -> ok r = true ->
  exists d',
    fetchWithRetry_from network remaining i url options_headers d = (Normal (Some r), d') /\
    fetches d' = (fetches d + k + 1)%nat /\
    attempts (trace d') = (attempts (trace d) + k + 1)%nat /\
    kept d d'.
Proof.
  induction k as [| k IH]; intros remaining i d r Hlt Hinv Hfails Hnet Hok.
  - destruct remaining as [| remaining]; [lia |].
    rewrite Nat.add_0_r in Hnet.
    rewrite (attempt_succeeds _ _ _ _ Hnet Hok).
    eexists; split; [reflexivity |]. simpl. rewrite attempts_app. simpl.
    repeat split; lia.
  - destruct remaining as [| remaining]; [lia |].
    simpl in Hfails. apply andb_true_iff in Hfails as [Hfail Hfails].
    rewrite (attempt_fails _ _ _ Hfail).
    destruct (Nat.eqb_spec (i + 1) (maxRetries d)) as [Heq | Hne]; [lia |].
    destruct (IH remaining (S i) (delayed (2 ^ i * 1000) (reported network req i d)) r)
      as (d' & Hrun & Hf & Ha & Hk); simpl; try lia; try assumption.
    + rewrite <- Hnet. f_equal. lia.
    + exists d'. split; [exact Hrun |]. simpl in Hf, Ha.
      rewrite !attempts_app in Ha. simpl in Ha.
      repeat split; try lia; destruct Hk as (? & ? & ? & ?); assumption.
Qed.

(** The loop, when every attempt that is left fails. *)
Lemma retry_exhausted remaining : forall i d,
  (0 < remaining)%nat -> (i + remaining = maxRetries d)%nat ->
  fails_from network req (fetches d) remaining = true ->
  exists d',
    fetchWithRetry_from network remaining i url options_headers d =
      (Throw (failure_of (network (fetches d + remaining - 1)%nat req)), d') /\
    fetches d' = (fetches d + remaining)%nat /\
    attempts (trace d') = (attempts (trace d) + remaining)%nat /\
    kept d d'.
Proof.
  induction remaining as [| remaining IH]; intros i d Hpos Hinv Hfails; [lia |].
  simpl in Hfails. apply andb_true_iff in Hfails as [Hfail Hfails].
  rewrite (attempt_fails _ _ _ Hfail).
  destruct (Nat.eqb_spec (i + 1) (maxRetries d)) as [Heq | Hne].
  - assert (remaining = 0%nat) by lia. subst remaining.
    exists (reported network req i d). split.
    + replace (fetches d + 1 - 1)%nat with (fetches d) by lia. reflexivity.
    + simpl. rewrite !attempts_app. simpl. repeat split; lia.
  - destruct (IH (S i) (delayed (2 ^ i * 1000) (reported network req i d)))
      as (d' & Hrun & Hf & Ha & Hk); simpl; try lia; try assumption.
    exists d'.
    replace (fetches (delayed (2 ^ i * 1000) (reported network req i d)) + remaining - 1)%nat
      with (fetches d + S remaining - 1)%nat in Hrun by (simpl; lia).
    simpl in Hf, Ha. rewrite !attempts_app in Ha. simpl in Ha.
    split; [exact Hrun |].
    repeat split; try lia; destruct Hk as (? & ? & ? & ?); assumption.
Qed.

End RetryingFetcher.

(** C4. With the constructor's bound of three attempts: when the first [k < 3]
    attempts fail and the next one succeeds, [fetchWithRetry] makes exactly
    [k + 1] attempts and returns the successful response; when the first three
    attempts fail it makes exactly three attempts and throws the failure of the
    last one, which for a response that is not ok is the error with message
    [HTTP <status>: <statusText>]. *)
Theorem fetchWithRetry_attempts (network : Network) (url : string)
    (options_headers : Headers) (d : Dashboard) :
  maxRetries d = 3%nat ->
  (forall k r,
      (k < 3)%nat ->
      fails_from network (retry_request url options_headers) (fetches d) k = true ->
      network (fetches d + k)%nat (retry_request url options_headers) = Resolved r ->
      ok r = true ->
      exists d',
        fetchWithRetry network url options_headers d = (Normal (Some r), d') /\
        attempts (trace d') = (attempts (trace d) + k + 1)%nat) /\
  (fails_from network (retry_request url options_headers) (fetches d) 3 = true ->
   exists d' e,
     fetchWithRetry network url options_headers d = (Throw e, d') /\
     attempts (trace d') = (attempts (trace d) + 3)%nat /\
     match network (fetches d + 2)%nat (retry_request url options_headers) with
     | Rejected e' => e = e'
     | Resolved r =>
         e = Error ("HTTP " +:+ pretty (status r) +:+ ": " +:+ statusText r)
     end).
Proof.
  intros Hmax. split.
  - intros k r Hk Hfails Hnet Hok.
    destruct (retry_until_success network url options_headers k 3 0 d r)
      as (d' & Hrun & _ & Ha & _); try assumption; try lia.
    exists d'. unfold fetchWithRetry, bind, gets. rewrite Hmax. auto.
  - intros Hfails.
    destruct (retry_exhausted network url options_headers 3 0 d)
      as (d' & Hrun & _ & Ha & _); try assumption; try lia.
    exists d', (failure_of (network (fetches d + 2)%nat (retry_request url options_headers))).
    unfold fetchWithRetry, bind, gets. rewrite Hmax.
    replace (fetches d + 3 - 1)%nat with (fetches d + 2)%nat in Hrun by lia.
    repeat split; try assumption.
    destruct (network (fetches d + 2)%nat _); reflexivity.
Qed.

Lemma fetchWithRetry_attempts_witness :
  (exists d',
      fetchWithRetry (net_flaky 2) "./data/championships.json" [] (constructor empty_store 0) =
        (Normal (Some ok_response), d') /\
      attempts (trace d') = 3%nat) /\
  (exists d' e,
      fetchWithRetry (net_flaky 3) "./data/championships.json" [] (constructor empty_store 0) =
        (Throw e, d') /\
      attempts (trace d') = 3%nat /\
      e = Error "HTTP 503: Service Unavailable").
Proof.
  split.
  - destruct (fetchWithRetry_attempts (net_flaky 2) "./data/championships.json" []
                (constructor empty_store 0) eq_refl) as [Hsucc _].
    destruct (Hsucc 2%nat ok_response) as (d' & Hrun & Ha);
      [lia | reflexivity | reflexivity | reflexivity |].
    exists d'. split; [exact Hrun | exact Ha].
  - destruct (fetchWithRetry_attempts (net_flaky 3) "./data/championships.json" []
                (constructor empty_store 0) eq_refl) as [_ Hfail].
    destruct (Hfail eq_refl) as (d' & e & Hrun & Ha & He).
    exists d', e. split; [exact Hrun |]. split; [exact Ha |]. exact He.
Defined.

(** ** The Durable Store of the client *)

Section DurableStore.

Variable JSON_parse : string -> option json.
Variable JSON_stringify : json -> string.


(** [getCachedData] never throws; it changes nothing but the console. *)
Lemma getCachedData_returns d :
  exists d',
    getCachedData JSON_parse d = (Normal (cached_value JSON_parse (localStorage d)), d') /\
    kept d d' /\ fetches d' = fetches d /\ attempts (trace d') = attempts (trace d).
Proof.
  unfold getCachedData, cached_value.
  destruct (getItem "golf-tournaments" (localStorage d)) as [cached |].
  - destruct (String.eqb cached "").
    + exists d. auto using kept_refl.
    + destruct (JSON_parse cached).
      * exists d. auto using kept_refl.
      * eexists. split; [reflexivity |]. simpl. rewrite attempts_app. simpl.
        repeat split; lia.
  - exists d. auto using kept_refl.
Qed.

Lemma getCachedData_hit d cached v :
  getItem "golf-tournaments" (localStorage d) = Some cached ->
  cached <> "" -> JSON_parse cached = Some v ->
  getCachedData JSON_parse d = (Normal v, d).
Proof.
  intros Hget Hne Hparse. unfold getCachedData. rewrite Hget.
  destruct (String.eqb_spec cached ""); [contradiction |].
  rewrite Hparse. reflexivity.
Qed.

Lemma getCachedData_miss d :
  getItem "golf-tournaments" (localStorage d) = None ->
  getCachedData JSON_parse d = (Normal JNull, d).
Proof. intros Hget. unfold getCachedData. rewrite Hget. reflexivity. Qed.


Lemma setItem_rejected st key value :
  rejects st key value = true ->
  setItem key value st = (Throw QuotaExceededError, st).
Proof.
  unfold rejects, setItem. intros H. apply negb_true_iff in H. rewrite H. reflexivity.
Qed.

Lemma setItem_accepted st key value :
  rejects st key value = false ->
  setItem key value st =
  (Normal tt, mkStorage (<[key := value]> (items st)) (quota st)).
Proof.
  unfold rejects, setItem. intros H. apply negb_false_iff in H. rewrite H. reflexivity.
Qed.


(** [setCachedData] completes normally whatever the medium does. *)
Lemma setCachedData_returns data d :
  exists d',
    setCachedData JSON_stringify data d = (Normal tt, d') /\
    tournaments d' = tournaments d /\ maxRetries d' = maxRetries d /\
    connectionStatus d' = connectionStatus d /\ fetches d' = fetches d /\
    (write_rejected JSON_stringify data d = true ->
       trace d' = trace d ++ [cache_warning]) /\
    (write_rejected JSON_stringify data d = false ->
       trace d' = trace d /\
       getItem "golf-tournaments" (localStorage d') = Some (JSON_stringify data)).
Proof.
  unfold write_rejected, setCachedData, try_catch, bind, localStorage_setItem, gets.
  destruct (rejects (localStorage d) "golf-tournaments" (JSON_stringify data)) eqn:R1.
  - rewrite (setItem_rejected _ _ _ R1). simpl.
    eexists. split; [reflexivity |]. simpl. repeat split; auto; discriminate.
  - rewrite (setItem_accepted _ _ _ R1). simpl.
    match goal with |- context [rejects ?st ?k ?v] => destruct (rejects st k v) eqn:R2 end.
    + rewrite (setItem_rejected _ _ _ R2). simpl.
      eexists. split; [reflexivity |]. simpl. repeat split; auto; discriminate.
    + rewrite (setItem_accepted _ _ _ R2). simpl.
      eexists. split; [reflexivity |]. simpl. repeat split; auto; try discriminate.
      unfold getItem. simpl. rewrite lookup_insert_ne by discriminate.
      apply lookup_insert_eq.
Qed.

End DurableStore.

(** ** The Data Loader *)

Section DataLoader.

Variable JSON_parse : string -> option json.
Variable JSON_stringify : json -> string.
Variable network : Network.
Variable render : json -> option JsError.

Local Abbreviation data_request := (retry_request "./data/championships.json" []).


(** With a cached value that is truthy, [loadData] returns at once. *)
Lemma loadData_cached d cached v :
  getItem "golf-tournaments" (localStorage d) = Some cached ->
  cached <> "" -> JSON_parse cached = Some v -> truthy v = true ->
  loadData JSON_parse JSON_stringify network d =
  (Normal tt, emit (EvConsole "log" "Loaded data from cache") (set_tournaments v d)).
Proof.
  intros Hget Hne Hparse Htruthy. unfold loadData, try_catch, bind.
  rewrite (getCachedData_hit JSON_parse d cached v Hget Hne Hparse).
  rewrite Htruthy. reflexivity.
Qed.

(** The only error that [loadData] lets out. *)
Lemma loadData_throws d e d' :
  loadData JSON_parse JSON_stringify network d = (Throw e, d') ->
  e = NoDataAvailable.
Proof.
  unfold loadData, try_catch.
  match goal with |- context [match ?x with _ => _ end] =>
    destruct x as [[[] | e0] d1] end; [discriminate |].
  unfold bind at 1. unfold console, modify. unfold bind.
  destruct (getCachedData_returns JSON_parse
              (emit (EvConsole "error" ("Failed to load data: " +:+ message e0)) d1))
    as (d2 & Hrun & _).
  rewrite Hrun. destruct (truthy _); simpl.
  - discriminate.
  - unfold throw. intros H. inversion H. reflexivity.
Qed.

(** A cold start with the network down: the retries are exhausted and
    [loadData] throws. *)
Lemma loadData_cold_offline d :
  (0 < maxRetries d)%nat ->
  getItem "golf-tournaments" (localStorage d) = None ->
  fails_from network data_request (fetches d) (maxRetries d) = true ->
  exists d',
    loadData JSON_parse JSON_stringify network d = (Throw NoDataAvailable, d') /\
    attempts (trace d') = (attempts (trace d) + maxRetries d)%nat /\
    kept d d'.
Proof.
  intros Hmax Hget Hfails. unfold loadData, try_catch, bind at 1.
  rewrite (getCachedData_miss JSON_parse d Hget). simpl.
  unfold bind at 1, fetchWithRetry, bind at 1, gets.
  destruct (retry_exhausted network "./data/championships.json" [] (maxRetries d) 0 d)
    as (d1 & Hrun & _ & Ha & Hk); try assumption; try lia.
  rewrite Hrun. unfold bind at 1, console, modify.
  assert (Hget1 : getItem "golf-tournaments" (localStorage d1) = None).
  { destruct Hk as (_ & _ & _ & Hst). rewrite Hst. exact Hget. }
  unfold bind.
  rewrite getCachedData_miss by (simpl; exact Hget1). simpl.
  eexists. split; [reflexivity |]. simpl. rewrite attempts_app, Ha. simpl.
  split; [lia |]. exact Hk.
Qed.

(** A cold start whose first attempt succeeds with a body that parses. *)
Lemma loadData_fresh d r v :
  (0 < maxRetries d)%nat ->
  getItem "golf-tournaments" (localStorage d) = None ->
  network (fetches d) data_request = Resolved r -> ok r = true ->
  JSON_parse (body r) = Some v ->
  exists d',
    loadData JSON_parse JSON_stringify network d = (Normal tt, d') /\
    tournaments d' = v /\
    attempts (trace d') = (attempts (trace d) + 1)%nat.
Proof.
  intros Hmax Hget Hnet Hok Hparse. unfold loadData, try_catch, bind at 1.
  rewrite (getCachedData_miss JSON_parse d Hget). simpl.
  unfold bind at 1, fetchWithRetry, bind at 1, gets.
  destruct (maxRetries d) as [| n] eqn:Hn; [lia |].
  rewrite (attempt_succeeds network _ _ n 0 d r Hnet Hok).
  unfold bind at 1, response_json. rewrite Hparse.
  unfold ret, bind at 1, modify, bind at 1, gets. simpl.
  destruct (setCachedData_returns JSON_stringify v
              (set_tournaments v
                 (emit (EvFetch data_request) (set_fetches (S (fetches d)) d))))
    as (d1 & Hrun & Ht & _ & _ & _ & Hrej & Hacc).
  unfold bind in *. rewrite Hrun. unfold console, modify.
  eexists. split; [reflexivity |]. simpl. split; [exact Ht |].
  rewrite attempts_app. simpl.
  destruct (write_rejected JSON_stringify v _) eqn:Hw.
  - rewrite (Hrej eq_refl). simpl. rewrite !attempts_app. simpl. lia.
  - destruct (Hacc eq_refl) as [-> _]. simpl. rewrite attempts_app. simpl. lia.
Qed.

End DataLoader.

(** C7. On a cold start (no cached item in the store) with the first three
    network attempts failing, [loadData] makes the three attempts of the retry
    bound and throws the error [No data available]; and that error is the only
    one [loadData] ever lets out, from any state. *)
Theorem loadData_cold_start_offline (JSON_parse : string -> option json)
    (JSON_stringify : json -> string) (network : Network) (d : Dashboard) :
  maxRetries d = 3%nat ->
  getItem "golf-tournaments" (localStorage d) = None ->
  fails_from network (retry_request "./data/championships.json" []) (fetches d) 3 = true ->
  (exists d',
      loadData JSON_parse JSON_stringify network d = (Throw (Error "No data available"), d') /\
      attempts (trace d') = (attempts (trace d) + 3)%nat /\
      tournaments d' = tournaments d) /\
  (forall d0 e d1,
      loadData JSON_parse JSON_stringify network d0 = (Throw e, d1) ->
      e = Error "No data available").
Proof.
  intros Hmax Hget Hfails. split.
  - destruct (loadData_cold_offline JSON_parse JSON_stringify network d)
      as (d' & Hrun & Ha & Hk); rewrite ?Hmax; try assumption; try lia.
    exists d'. rewrite Hmax in Ha. destruct Hk as (Ht & _). auto.
  - intros d0 e d1. apply loadData_throws.
Qed.

Lemma loadData_cold_start_offline_witness :
  exists d',
    loadData parse_json stringify_json net_down (constructor empty_store 0) =
      (Throw (Error "No data available"), d') /\
    attempts (trace d') = 3%nat.
Proof.
  destruct (loadData_cold_start_offline parse_json stringify_json net_down
              (constructor empty_store 0) eq_refl eq_refl eq_refl)
    as [(d' & Hrun & Ha & _) _].
  exists d'. split; [exact Hrun | exact Ha].
Defined.

(** C8. [setCachedData] completes normally whatever the backing medium does
    with the two writes: when one of them is rejected the error is caught and a
    warning is logged, and nothing of the instance but the store and the console
    changes.  So a cold [loadData] whose fetch succeeds completes normally with
    the fetched collection in memory, whether or not the store took the write. *)
Theorem cache_write_rejection_swallowed (JSON_parse : string -> option json)
    (JSON_stringify : json -> string) (network : Network) (d : Dashboard) :
  (forall data,
      exists d',
        setCachedData JSON_stringify data d = (Normal tt, d') /\
        tournaments d' = tournaments d /\
        (write_rejected JSON_stringify data d = true ->
           trace d' = trace d ++ [cache_warning]) /\
        (write_rejected JSON_stringify data d = false ->
           trace d' = trace d /\
           getItem "golf-tournaments" (localStorage d') = Some (JSON_stringify data))) /\
  (forall r v,
      (0 < maxRetries d)%nat ->
      getItem "golf-tournaments" (localStorage d) = None ->
      network (fetches d) (retry_request "./data/championships.json" []) = Resolved r ->
      ok r = true ->
      JSON_parse (body r) = Some v ->
      exists d',
        loadData JSON_parse JSON_stringify network d = (Normal tt, d') /\
        tournaments d' = v).
Proof.
  split.
  - intros data.
    destruct (setCachedData_returns JSON_stringify data d)
      as (d' & Hrun & Ht & _ & _ & _ & Hrej & Hacc).
    exists d'. auto.
  - intros r v Hmax Hget Hnet Hok Hparse.
    destruct (loadData_fresh JSON_parse JSON_stringify network d r v)
      as (d' & Hrun & Ht & _); try assumption.
    exists d'. auto.
Qed.

(** The store is full: the write is rejected, the load completes. *)
Lemma cache_write_rejection_swallowed_witness :
  write_rejected stringify_json records (constructor full_store 0) = true /\
  (exists d',
      setCachedData stringify_json records (constructor full_store 0) = (Normal tt, d') /\
      trace d' = [cache_warning]) /\
  (exists d',
      loadData parse_json stringify_json net_up (constructor full_store 0) = (Normal tt, d') /\
      tournaments d' = records).
Proof.
  pose proof (cache_write_rejection_swallowed parse_json stringify_json net_up
                (constructor full_store 0)) as [Hset Hload].
  split; [vm_compute; reflexivity |]. split.
  - destruct (Hset records) as (d' & Hrun & _ & Hrej & _).
    exists d'. split; [exact Hrun |]. apply Hrej. vm_compute. reflexivity.
  - apply (Hload ok_response records).
    + simpl. lia.
    + reflexivity.
    + reflexivity.
    + reflexivity.
    + vm_compute. reflexivity.
Defined.

(** C1. With a cached collection in the store (any item that parses to a
    truthy value, as every array is), [refreshData] never reaches the network:
    [loadData] returns at its first test of the cache, so its later branch,
    the one that falls back on the cache after a network error and shows
    [offline], is not run.  Whatever the network would answer, and so also
    when every attempt would fail, no attempt is made: the collection in
    memory becomes the cached one, the store is unchanged, and the status left
    is [online] when rendering completes ([offline] only when rendering
    throws). *)
Theorem refreshData_cache_first (JSON_parse : string -> option json)
    (JSON_stringify : json -> string) (network : Network)
    (render : json -> option JsError) (d : Dashboard) (cached : string) (v : json) :
  getItem "golf-tournaments" (localStorage d) = Some cached ->
  cached <> "" ->
  JSON_parse cached = Some v ->
  truthy v = true ->
  exists d',
    refreshData JSON_parse JSON_stringify network render d = (Normal tt, d') /\
    attempts (trace d') = attempts (trace d) /\
    fetches d' = fetches d /\
    tournaments d' = v /\
    localStorage d' = localStorage d /\
    connectionStatus d' = match render v with None => online | Some _ => offline end.
Proof.
  intros Hget Hne Hparse Htruthy.
  unfold refreshData, try_catch, bind at 1, showConnectionStatus at 1, modify.
  unfold bind at 1.
  rewrite (loadData_cached JSON_parse JSON_stringify network _ cached v)
    by (simpl; assumption).
  unfold bind, renderDashboard. simpl.
  destruct (render v) as [e |]; simpl.
  - eexists. split; [reflexivity |]. simpl. rewrite !attempts_app. simpl.
    repeat split; lia.
  - eexists. split; [reflexivity |]. simpl. rewrite !attempts_app. simpl.
    repeat split; lia.
Qed.

(** The store holds a collection of two records and every network attempt
    fails: [refreshData] makes no network attempt, shows the two records and
    leaves the status [online]. *)
Lemma refreshData_cache_first_witness :
  (forall n req, failed (net_down n req) = true) /\
  exists d',
    refreshData parse_json stringify_json net_down renders (constructor warm_store 0) =
      (Normal tt, d') /\
    attempts (trace d') = 0%nat /\
    fetches d' = 0%nat /\
    tournaments d' = records /\
    localStorage d' = warm_store /\
    connectionStatus d' = online.
Proof.
  split; [reflexivity |].
  destruct (refreshData_cache_first parse_json stringify_json net_down renders
              (constructor warm_store 0) records_text records)
    as (d' & Hrun & Ha & Hf & Ht & Hl & Hs).
  - reflexivity.
  - discriminate.
  - vm_compute. reflexivity.
  - reflexivity.
  - exists d'. split; [exact Hrun |]. split; [exact Ha |]. split; [exact Hf |].
    split; [exact Ht |]. split; [exact Hl | exact Hs].
Defined.

(** ** The Strategy Router *)

Lemma substring_js (s : string) : forall i,
  substring i 5 s = ".json" -> includes s ".js" = true.
Proof.
  induction s as [| c s IH]; intros i H.
  - destruct i; discriminate.
  - destruct i as [| i].
    + cbn [includes]. apply orb_true_iff. left.
      destruct s as [| c1 [| c2 s]]; simpl in H; try discriminate.
      injection H as -> -> -> _. reflexivity.
    + cbn [includes]. apply orb_true_iff. right. apply (IH i). exact H.
Qed.

(** A URL that ends in [.json] also matches the static test on [.js]. *)
Lemma json_suffix_is_static (request : Request) :
  endsWith (url request) ".json" = true -> isStaticResource request = true.
Proof.
  unfold endsWith, isStaticResource. intros H.
  apply andb_true_iff in H as [_ H]. apply String.eqb_eq in H.
  rewrite (substring_js _ _ H). rewrite orb_true_r. reflexivity.
Qed.


(** C5 (as amended). The classification is a total function of the
    request's method, URL, mode and headers, and of nothing else.  A request
    that is not GET is not classified.  For a GET request the data test comes
    first, then the static test, then the navigation test, else the request is
    generic; so a [.json] URL under the data path is Data although the static
    test matches it too. *)
Theorem classify_precedence (request other : Request) :
  (method other = method request -> url other = url request ->
   mode other = mode request -> headers other = headers request ->
   classify other = classify request) /\
  (method request <> "GET" -> classify request = None) /\
  (method request = "GET" ->
   (isDataRequest request = true -> classify request = Some DataClass) /\
   (isDataRequest request = false -> isStaticResource request = true ->
    classify request = Some StaticClass) /\
   (isDataRequest request = false -> isStaticResource request = false ->
    isNavigationRequest request = true -> classify request = Some NavigationClass) /\
   (isDataRequest request = false -> isStaticResource request = false ->
    isNavigationRequest request = false -> classify request = Some GenericClass) /\
   (includes (url request) "/data/" = true -> endsWith (url request) ".json" = true ->
    isStaticResource request = true /\ classify request = Some DataClass)).
Proof.
  split; [| split].
  - intros Hm Hu Hmode Hh.
    unfold classify, isDataRequest, isStaticResource, isNavigationRequest.
    rewrite Hm, Hu, Hmode, Hh. reflexivity.
  - intros Hne. unfold classify.
    destruct (String.eqb_spec (method request) "GET"); [contradiction | reflexivity].
  - intros Hget. unfold classify. rewrite Hget. simpl.
    split; [intros ->; reflexivity |].
    split; [intros -> ->; reflexivity |].
    split; [intros -> -> ->; reflexivity |].
    split; [intros -> -> ->; reflexivity |].
    intros Hdata Hjson. split.
    + apply json_suffix_is_static. exact Hjson.
    + unfold isDataRequest. rewrite Hdata. reflexivity.
Qed.

Lemma classify_precedence_witness :
  classify data_reload = classify data_get /\
  classify data_post = None /\
  isStaticResource data_get = true /\ classify data_get = Some DataClass.
Proof.
  destruct (classify_precedence data_get data_reload) as (Hdet & _ & Hget).
  destruct (classify_precedence data_post data_post) as (_ & Hpost & _).
  split; [apply Hdet; reflexivity |].
  split; [apply Hpost; discriminate |].
  destruct (Hget eq_refl) as (_ & _ & _ & _ & Hjson).
  apply Hjson; reflexivity.
Defined.

(** C5 as stated fails: two requests with the same method, URL and headers
    are classified differently, because the navigation test reads the mode;
    and a POST to a [.json] URL under the data path is not classified as Data. *)
Lemma classify_counterexample :
  ~ (forall r1 r2 : Request,
        method r1 = method r2 -> url r1 = url r2 -> headers r1 = headers r2 ->
        classify r1 = classify r2) /\
  (includes (url data_post) "/data/" = true /\ endsWith (url data_post) ".json" = true /\
   classify data_post <> Some DataClass).
Proof.
  split.
  - intros H. specialize (H page_navigation page_fetch eq_refl eq_refl eq_refl).
    vm_compute in H. discriminate.
  - repeat split; try reflexivity. vm_compute. discriminate.
Qed.

(** ** The cache storage *)

Lemma cache_named_app cacheName cs cs' :
  cache_named cacheName (cs ++ cs') =
  match cache_named cacheName cs with
  | Some c => Some c
  | None => cache_named cacheName cs'
  end.
Proof.
  induction cs as [| [n c] cs IH]; simpl; [reflexivity |].
  destruct (String.eqb n cacheName); [reflexivity | exact IH].
Qed.

Lemma cache_named_open_other cacheName other cs :
  other <> cacheName ->
  cache_named other (open_cache cacheName cs) = cache_named other cs.
Proof.
  intros Hne. unfold open_cache.
  destruct (cache_named cacheName cs); [reflexivity |].
  rewrite cache_named_app. simpl.
  destruct (String.eqb_spec cacheName other); [congruence |].
  destruct (cache_named other cs); reflexivity.
Qed.

Lemma cache_named_set_other cacheName other key r cs :
  other <> cacheName ->
  cache_named other (set_entry cacheName key r cs) = cache_named other cs.
Proof.
  intros Hne. induction cs as [| [n c] cs IH]; simpl; [reflexivity |].
  destruct (String.eqb_spec n cacheName) as [-> | Hn]; simpl.
  - destruct (String.eqb_spec cacheName other); [congruence | reflexivity].
  - destruct (String.eqb n other); [reflexivity | exact IH].
Qed.

Lemma cache_named_set_same cacheName key r cs c :
  cache_named cacheName cs = Some c ->
  cache_named cacheName (set_entry cacheName key r cs) = Some (<[key := r]> c).
Proof.
  induction cs as [| [n c0] cs IH]; simpl; [discriminate |].
  destruct (String.eqb n cacheName) eqn:E; simpl; rewrite E.
  - intros [= ->]. reflexivity.
  - exact IH.
Qed.

Lemma cache_named_put_other cacheName other request r cs :
  other <> cacheName ->
  cache_named other (put_cache cacheName request r cs) = cache_named other cs.
Proof.
  intros Hne. unfold put_cache.
  destruct (storable request r); [apply cache_named_set_other; exact Hne | reflexivity].
Qed.

(** A pair that the cache accepts is stored under the URL of the request. *)
Lemma cache_named_put_same cacheName request r cs c :
  storable request r = true ->
  cache_named cacheName cs = Some c ->
  cache_named cacheName (put_cache cacheName request r cs) =
  Some (<[url request := r]> c).
Proof.
  intros Hst. unfold put_cache. rewrite Hst. apply cache_named_set_same.
Qed.

(** A pair that the cache does not accept leaves the storage as it was. *)
Lemma put_cache_refused cacheName request r cs :
  storable request r = false -> put_cache cacheName request r cs = cs.
Proof.
  intros Hst. unfold put_cache. rewrite Hst. reflexivity.
Qed.

Lemma cache_named_open_same cacheName cs :
  exists c, cache_named cacheName (open_cache cacheName cs) = Some c /\
            (forall c0, cache_named cacheName cs = Some c0 -> c = c0).
Proof.
  unfold open_cache. destruct (cache_named cacheName cs) as [c |] eqn:E.
  - exists c. split; [exact E |]. intros c0 [= ->]. reflexivity.
  - exists ∅. split; [| discriminate]. rewrite cache_named_app, E. simpl.
    rewrite String.eqb_refl. reflexivity.
Qed.

(** Opening a cache and putting an entry touches that cache only. *)
Lemma open_put_other cacheName other request r cs :
  other <> cacheName ->
  cache_named other (put_cache cacheName request r (open_cache cacheName cs)) =
  cache_named other cs.
Proof.
  intros Hne. rewrite cache_named_put_other, cache_named_open_other by assumption.
  reflexivity.
Qed.

(** ** The caching strategies *)


Ltac sw_simpl := cbn [caches sw_fetches sw_trace sw_emit set_caches].

Ltac split_caches :=
  repeat (sw_simpl;
          match goal with
          | |- context [match_caches ?k (caches ?w)] => destruct (match_caches k (caches w))
          end).

Ltac run_handler :=
  unfold handleDataRequest, handleStaticRequest, handleNavigationRequest,
    handleGenericRequest, caches_open, unawaited, cache_put, caches_match, sw_log,
    sw_fetch, lift, throw, try_catch, bind, modify, gets, ret;
  sw_simpl.

Section CachingStrategies.

Variable network : Network.
Variable origin : string.

Lemma handler_writes s request w c w' :
  handler network origin s request w = (c, w') ->
  forall other, other <> written_cache s ->
  cache_named other (caches w') = cache_named other (caches w).
Proof.
  destruct s; cbn [handler written_cache]; run_handler; split_caches; sw_simpl;
    (destruct (network (sw_fetches w) request) as [e | resp];
       [| destruct (ok resp); [destruct (storable request resp) |]]);
    split_caches; sw_simpl;
    intros H other Hne; inversion H; subst; sw_simpl;
    auto using open_put_other.
Qed.

(** Network success with a response that the cache accepts: the data cache
    takes the response, which is returned. *)
Lemma handleDataRequest_network_ok request w r :
  network (sw_fetches w) request = Resolved r -> ok r = true ->
  storable request r = true ->
  exists w' c,
    handleDataRequest network request w = (Normal r, w') /\
    cache_named DATA_CACHE (caches w') = Some c /\
    c !! url request = Some r.
Proof.
  intros Hnet Hok Hst. run_handler. rewrite Hnet, Hok, Hst. sw_simpl.
  destruct (cache_named_open_same DATA_CACHE (caches w)) as (c & Hc & _).
  eexists. exists (<[url request := r]> c).
  split; [reflexivity |]. cbn [caches]. split.
  - apply cache_named_put_same; assumption.
  - apply lookup_insert_eq.
Qed.

(** Network success with a response that the cache refuses: the response is
    returned all the same, and the data cache, opened, takes nothing. *)
Lemma handleDataRequest_network_refused request w r :
  network (sw_fetches w) request = Resolved r -> ok r = true ->
  storable request r = false ->
  exists w',
    handleDataRequest network request w = (Normal r, w') /\
    caches w' = open_cache DATA_CACHE (caches w).
Proof.
  intros Hnet Hok Hst. run_handler. rewrite Hnet, Hok, Hst. sw_simpl.
  eexists. split; [reflexivity |]. sw_simpl.
  apply put_cache_refused. exact Hst.
Qed.

(** Network failure: what the caches hold for the URL is returned and the
    caches are left as they were. *)
Lemma handleDataRequest_cached request w cached :
  failed (network (sw_fetches w) request) = true ->
  match_caches (url request) (caches w) = Some cached ->
  exists w',
    handleDataRequest network request w = (Normal cached, w') /\
    caches w' = caches w.
Proof.
  intros Hfail Hmatch. run_handler.
  destruct (network (sw_fetches w) request) as [e | r]; simpl in Hfail.
  - sw_simpl. rewrite Hmatch. eexists. split; reflexivity.
  - apply negb_true_iff in Hfail. rewrite Hfail. sw_simpl.
    rewrite Hmatch. eexists. split; reflexivity.
Qed.

(** Neither network nor cache: the handler ends as
    [createOfflineResponse] does. *)
Lemma handleDataRequest_offline request w :
  failed (network (sw_fetches w) request) = true ->
  match_caches (url request) (caches w) = None ->
  exists w',
    handleDataRequest network request w = (createOfflineResponse request, w') /\
    caches w' = caches w.
Proof.
  intros Hfail Hmatch. run_handler.
  destruct (network (sw_fetches w) request) as [e | r]; simpl in Hfail.
  - sw_simpl. rewrite Hmatch. eexists. split; reflexivity.
  - apply negb_true_iff in Hfail. rewrite Hfail. sw_simpl.
    rewrite Hmatch. eexists. split; reflexivity.
Qed.

End CachingStrategies.

(** Without an Accept header [createOfflineResponse] throws. *)
Lemma createOfflineResponse_no_accept (request : Request) :
  headers_get (headers request) "accept" = None ->
  createOfflineResponse request = Throw null_includes.
Proof. intros H. unfold createOfflineResponse. rewrite H. reflexivity. Qed.

(** With an Accept header it returns one of its three responses. *)
Lemma createOfflineResponse_with_accept (request : Request) (a : string) :
  headers_get (headers request) "accept" = Some a ->
  exists r, createOfflineResponse request = Normal r.
Proof.
  intros H. unfold createOfflineResponse. rewrite H.
  destruct (includes a "text/html"); [eexists; reflexivity |].
  destruct (includes a "application/json"); eexists; reflexivity.
Qed.


(** C9 (as amended). Whatever the network answers, the response to a request
    leaves the data cache as it was unless the request is of the Data class,
    the static cache as it was unless the request is of the Static or of the
    Navigation class, the generic cache as it was unless the request is of the
    Generic class, and every other cache as it was. *)
Theorem cache_writes_by_class (network : Network) (origin : string)
    (request : Request) (w w' : Worker) (c : Completion Response) :
  respond network origin request w = (c, w') ->
  (classify request <> Some DataClass ->
   cache_named DATA_CACHE (caches w') = cache_named DATA_CACHE (caches w)) /\
  (classify request <> Some StaticClass -> classify request <> Some NavigationClass ->
   cache_named STATIC_CACHE (caches w') = cache_named STATIC_CACHE (caches w)) /\
  (classify request <> Some GenericClass ->
   cache_named CACHE_NAME (caches w') = cache_named CACHE_NAME (caches w)) /\
  (forall other, other <> DATA_CACHE -> other <> STATIC_CACHE -> other <> CACHE_NAME ->
   cache_named other (caches w') = cache_named other (caches w)).
Proof.
  unfold respond, onfetch. destruct (classify request) as [s |].
  - intros Hrun. pose proof (handler_writes network origin s request w c w' Hrun) as Hw.
    repeat split.
    + intros Hs. apply Hw. destruct s; try discriminate. congruence.
    + intros Hs Hn. apply Hw. destruct s; try discriminate; congruence.
    + intros Hs. apply Hw. destruct s; try discriminate. congruence.
    + intros other H1 H2 H3. apply Hw. destruct s; assumption.
  - unfold sw_fetch. destruct (network (sw_fetches w) request);
      intros H; inversion H; subst; repeat split; reflexivity.
Qed.

Lemma cache_writes_by_class_witness :
  exists w',
    respond net_up site data_get fresh_worker = (Normal ok_response, w') /\
    cache_named STATIC_CACHE (caches w') = None /\
    cache_named CACHE_NAME (caches w') = None.
Proof.
  eexists. split; [vm_compute; reflexivity |].
  match goal with |- cache_named _ (caches ?w') = _ /\ _ =>
    destruct (cache_writes_by_class net_up site data_get fresh_worker w'
                (Normal ok_response) ltac:(vm_compute; reflexivity))
      as (_ & Hstatic & Hgeneric & _)
  end.
  split.
  - rewrite Hstatic; [reflexivity | discriminate | discriminate].
  - rewrite Hgeneric; [reflexivity | discriminate].
Defined.

(** C9 as stated fails: a request of the Navigation class, answered by the
    network, is written into the static cache. *)
Lemma navigation_writes_static_counterexample :
  classify page_request = Some NavigationClass /\
  cache_named STATIC_CACHE (caches fresh_worker) = None /\
  exists w' c,
    respond net_up site page_request fresh_worker = (Normal ok_response, w') /\
    cache_named STATIC_CACHE (caches w') = Some c /\
    c !! url page_request = Some ok_response.
Proof.
  split; [reflexivity |]. split; [reflexivity |].
  eexists. eexists. split; [vm_compute; reflexivity |].
  split; [reflexivity |]. vm_compute. reflexivity.
Qed.

(** C10. A request whose method is not GET gets no response from the
    listener: what the page receives is the outcome of the network request
    itself, no cache is looked up and no cache is changed. *)
Theorem non_GET_passes_through (network : Network) (origin : string)
    (request : Request) (w : Worker) :
  method request <> "GET" ->
  onfetch network origin request = None /\
  respond network origin request w =
    (match network (sw_fetches w) request with
     | Rejected e => Throw e
     | Resolved r => Normal r
     end,
     mkWorker (caches w) (S (sw_fetches w)) (sw_trace w ++ [SwFetch request])).
Proof.
  intros Hne. unfold respond, onfetch, classify.
  destruct (String.eqb_spec (method request) "GET"); [contradiction |].
  split; [reflexivity |]. unfold sw_fetch, sw_emit. cbn [caches sw_fetches sw_trace].
  destruct (network (sw_fetches w) request); reflexivity.
Qed.

Lemma non_GET_passes_through_witness :
  respond net_down site data_post fresh_worker =
    (Throw (TypeError "Failed to fetch"), mkWorker [] 1 [SwFetch data_post]).
Proof.
  destruct (non_GET_passes_through net_down site data_post fresh_worker) as [_ Hrun].
  - discriminate.
  - exact Hrun.
Defined.

(** C3. A GET request without an Accept header, with the network down and
    nothing cached: the handler's call of [createOfflineResponse] throws, so the
    response promise given to [respondWith] rejects. *)
Theorem offline_responder_throws_without_accept :
  classify bare_request = Some GenericClass /\
  headers_get (headers bare_request) "accept" = None /\
  match_caches (url bare_request) (caches fresh_worker) = None /\
  exists w',
    respond net_down site bare_request fresh_worker = (Throw null_includes, w').
Proof.
  repeat split; try reflexivity. eexists. vm_compute. reflexivity.
Qed.

(** C6. A Data-class request without an Accept header, with the network down
    and nothing cached: [handleDataRequest] does not end with an offline
    response, it throws. *)
Theorem handleDataRequest_throws_without_accept :
  classify bare_data_request = Some DataClass /\
  failed (net_down 0%nat bare_data_request) = true /\
  match_caches (url bare_data_request) (caches fresh_worker) = None /\
  exists w',
    handleDataRequest net_down bare_data_request fresh_worker = (Throw null_includes, w').
Proof.
  repeat split; try reflexivity. eexists. vm_compute. reflexivity.
Qed.

(** ** The Offline Responder *)

Lemma offline_page_well_formed : well_formed_markup offline_page = true.
Proof. vm_compute. reflexivity. Qed.

Lemma offline_page_retry : includes offline_page retry_action = true.
Proof. vm_compute. reflexivity. Qed.

Lemma offline_json_parses :
  parse_json offline_json = Some (JObj [("error", JStr "Offline"); ("data", JArr [])]).
Proof. vm_compute. reflexivity. Qed.

(** C2 (as amended). The kind of the offline response follows the Accept
    header of the request.  When it includes [text/html] the response is
    well-formed markup with a retry action.  Otherwise, when it includes
    [application/json], the body parses as an object with the members
    [error], the string [Offline], and [data], an array of zero records: the
    empty collection is wrapped, it is not the payload itself. *)
Theorem createOfflineResponse_kinds (request : Request) (a : string) :
  headers_get (headers request) "accept" = Some a ->
  (includes a "text/html" = true ->
   exists r,
     createOfflineResponse request = Normal r /\ status r = 200%nat /\
     well_formed_markup (body r) = true /\ includes (body r) retry_action = true) /\
  (includes a "text/html" = false -> includes a "application/json" = true ->
   exists r,
     createOfflineResponse request = Normal r /\ status r = 200%nat /\
     parse_json (body r) = Some (JObj [("error", JStr "Offline"); ("data", JArr [])])).
Proof.
  intros Haccept. unfold createOfflineResponse. rewrite Haccept. split.
  - intros ->. eexists. split; [reflexivity |]. cbn [status body].
    auto using offline_page_well_formed, offline_page_retry.
  - intros -> ->. eexists. split; [reflexivity |]. cbn [status body].
    auto using offline_json_parses.
Qed.

Lemma createOfflineResponse_kinds_witness :
  (exists r,
      createOfflineResponse page_request = Normal r /\
      well_formed_markup (body r) = true /\ includes (body r) retry_action = true) /\
  (exists r,
      createOfflineResponse api_request = Normal r /\
      parse_json (body r) = Some (JObj [("error", JStr "Offline"); ("data", JArr [])])).
Proof.
  split.
  - destruct (createOfflineResponse_kinds page_request "text/html,application/xhtml+xml"
                eq_refl) as [Hhtml _].
    destruct (Hhtml eq_refl) as (r & Hr & _ & Hwf & Hretry).
    exists r. auto.
  - destruct (createOfflineResponse_kinds api_request "application/json" eq_refl)
      as [_ Hjson].
    destruct (Hjson eq_refl eq_refl) as (r & Hr & _ & Hparse).
    exists r. auto.
Defined.

(** C2 as stated fails: the payload synthesized for a request that accepts
    JSON parses, but not as an array of records, which is the shape of a
    successful payload. *)
Lemma offline_payload_shape_counterexample :
  is_array records = true /\
  parse_json records_text = Some records /\
  exists r v,
    createOfflineResponse api_request = Normal r /\
    parse_json (body r) = Some v /\
    is_array v = false.
Proof.
  split; [reflexivity |]. split; [vm_compute; reflexivity |].
  eexists. eexists. split; [reflexivity |]. split; [vm_compute; reflexivity |].
  reflexivity.
Qed.

(** * Further properties of the client *)

(** ** Backoff of the Retrying Fetcher *)

Lemma delays_app (t : list Event) (e : Event) :
  delays (t ++ [e]) = delays t ++ match e with EvDelay ms => [ms] | _ => [] end.
Proof.
  induction t as [| x t IH]; simpl.
  - destruct e; reflexivity.
  - destruct x; simpl; rewrite IH; reflexivity.
Qed.

Section Backoff.

Variable network : Network.
Variables (url : string) (options_headers : Headers).

Local Abbreviation req := (retry_request url options_headers).

Lemma backoff_until_success k : forall remaining i d r,
  (k < remaining)%nat -> (i + remaining = maxRetries d)%nat ->
  fails_from network req (fetches d) k = true ->
  network (fetches d + k)%nat req = Resolved r -> ok r = true ->
  exists d',
    fetchWithRetry_from network remaining i url options_headers d = (Normal (Some r), d') /\
    delays (trace d') = delays (trace d) ++ map backoff (seq i k) /\
    clock d' = (clock d + list_sum (map backoff (seq i k)))%nat.
Proof.
  induction k as [| k IH]; intros remaining i d r Hlt Hinv Hfails Hnet Hok.
  - destruct remaining as [| remaining]; [lia |].
    rewrite Nat.add_0_r in Hnet.
    rewrite (attempt_succeeds network url options_headers _ _ _ _ Hnet Hok).
    eexists; split; [reflexivity |]. simpl. rewrite delays_app, app_nil_r.
    split; [reflexivity | lia].
  - destruct remaining as [| remaining]; [lia |].
    simpl in Hfails. apply andb_true_iff in Hfails as [Hfail Hfails].
    rewrite (attempt_fails network url options_headers _ _ _ Hfail).
    destruct (Nat.eqb_spec (i + 1) (maxRetries d)) as [Heq | Hne]; [lia |].
    destruct (IH remaining (S i) (delayed (2 ^ i * 1000) (reported network req i d)) r)
      as (d' & Hrun & Hd & Hc); simpl; try lia; try assumption.
    + rewrite <- Hnet. f_equal. lia.
    + exists d'. split; [exact Hrun |]. simpl in Hd, Hc.
      rewrite !delays_app in Hd. simpl in Hd. rewrite !app_nil_r in Hd.
      split.
      * rewrite Hd, <- app_assoc. reflexivity.
      * rewrite Hc. unfold list_sum. cbn [seq map fold_right]. change (backoff i) with (2 ^ i * 1000)%nat. lia.
Qed.

Lemma backoff_exhausted remaining : forall i d,
  (0 < remaining)%nat -> (i + remaining = maxRetries d)%nat ->
  fails_from network req (fetches d) remaining = true ->
  exists d' e,
    fetchWithRetry_from network remaining i url options_headers d = (Throw e, d') /\
    delays (trace d') = delays (trace d) ++ map backoff (seq i (remaining - 1)) /\
    clock d' = (clock d + list_sum (map backoff (seq i (remaining - 1))))%nat.
Proof.
  induction remaining as [| remaining IH]; intros i d Hpos Hinv Hfails; [lia |].
  simpl in Hfails. apply andb_true_iff in Hfails as [Hfail Hfails].
  rewrite (attempt_fails network url options_headers _ _ _ Hfail).
  destruct (Nat.eqb_spec (i + 1) (maxRetries d)) as [Heq | Hne].
  - assert (remaining = 0%nat) by lia. subst remaining.
    eexists. eexists. split; [reflexivity |]. simpl.
    rewrite !delays_app. simpl. rewrite !app_nil_r. split; [reflexivity | lia].
  - destruct (IH (S i) (delayed (2 ^ i * 1000) (reported network req i d)))
      as (d' & e & Hrun & Hd & Hc); simpl; try lia; try assumption.
    exists d', e. split; [exact Hrun |]. simpl in Hd, Hc.
    rewrite !delays_app in Hd. simpl in Hd. rewrite !app_nil_r in Hd.
    destruct remaining as [| remaining]; [lia |].
    replace (S (S remaining) - 1)%nat with (S remaining) by lia.
    replace (S remaining - 1)%nat with remaining in Hd, Hc by lia.
    rewrite ?Nat.sub_0_r. split.
    + rewrite Hd, <- app_assoc. reflexivity.
    + rewrite Hc. unfold list_sum. cbn [seq map fold_right]. change (backoff i) with (2 ^ i * 1000)%nat. lia.
Qed.

(** Whatever the network does, the loop keeps the memory and makes at most
    [remaining] attempts. *)
Lemma retry_any remaining : forall i d c d',
  fetchWithRetry_from network remaining i url options_headers d = (c, d') ->
  kept d d' /\ (attempts (trace d') <= attempts (trace d) + remaining)%nat /\
  (remaining = 0%nat -> c = Normal None).
Proof.
  induction remaining as [| remaining IH]; intros i d c d' Hrun.
  - simpl in Hrun. inversion Hrun; subst. split; [apply kept_refl |]. split; [lia | auto].
  - destruct (failed (network (fetches d) req)) eqn:Hfail.
    + rewrite (attempt_fails network url options_headers _ _ _ Hfail) in Hrun.
      destruct (i + 1 =? maxRetries d)%nat.
      * inversion Hrun; subst. simpl. rewrite !attempts_app. simpl.
        split; [repeat split |]. split; [lia | discriminate].
      * apply IH in Hrun as (Hk & Ha & _). simpl in Ha. rewrite !attempts_app in Ha.
        simpl in Ha. split; [| split; [lia | discriminate]].
        destruct Hk as (? & ? & ? & ?). repeat split; assumption.
    + destruct (network (fetches d) req) as [e | r] eqn:Hnet; [discriminate |].
      simpl in Hfail. apply negb_false_iff in Hfail.
      rewrite (attempt_succeeds network url options_headers _ _ _ _ Hnet Hfail) in Hrun.
      inversion Hrun; subst. simpl. rewrite attempts_app. simpl.
      split; [repeat split |]. split; [lia | discriminate].
Qed.

End Backoff.

(** X1. Between attempts [fetchWithRetry] waits 1 s, 2 s, 4 s, ...: the wait
    after the failure of attempt [j] (from 0) is [2^j] seconds.  When every
    attempt fails there are [maxRetries - 1] waits, none after the last
    attempt; when attempt [k] is the first to succeed there are [k] waits. *)
Theorem fetchWithRetry_backoff (network : Network) (url : string)
    (options_headers : Headers) (d : Dashboard) :
  (0 < maxRetries d)%nat ->
  (fails_from network (retry_request url options_headers) (fetches d) (maxRetries d) = true ->
   exists d' e,
     fetchWithRetry network url options_headers d = (Throw e, d') /\
     delays (trace d') = delays (trace d) ++ map backoff (seq 0 (maxRetries d - 1)) /\
     clock d' = (clock d + list_sum (map backoff (seq 0 (maxRetries d - 1))))%nat) /\
  (forall k r,
      (k < maxRetries d)%nat ->
      fails_from network (retry_request url options_headers) (fetches d) k = true ->
      network (fetches d + k)%nat (retry_request url options_headers) = Resolved r ->
      ok r = true ->
      exists d',
        fetchWithRetry network url options_headers d = (Normal (Some r), d') /\
        delays (trace d') = delays (trace d) ++ map backoff (seq 0 k) /\
        clock d' = (clock d + list_sum (map backoff (seq 0 k)))%nat).
Proof.
  intros Hpos. unfold fetchWithRetry, bind, gets. split.
  - intros Hfails.
    apply (backoff_exhausted network url options_headers (maxRetries d) 0 d);
      [assumption | reflexivity | assumption].
  - intros k r Hk Hfails Hnet Hok.
    apply (backoff_until_success network url options_headers k (maxRetries d) 0 d r);
      [assumption | reflexivity | assumption | assumption | assumption].
Qed.

Lemma fetchWithRetry_backoff_witness :
  (exists d' e,
      fetchWithRetry net_down "./data/championships.json" [] (constructor empty_store 500) =
        (Throw e, d') /\
      delays (trace d') = [1000; 2000]%nat /\ clock d' = 3500%nat) /\
  (exists d',
      fetchWithRetry (net_flaky 1) "./data/championships.json" [] (constructor empty_store 500) =
        (Normal (Some ok_response), d') /\
      delays (trace d') = [1000]%nat /\ clock d' = 1500%nat).
Proof.
  destruct (fetchWithRetry_backoff net_down "./data/championships.json" []
              (constructor empty_store 500)) as [Hdown _]; [simpl; lia |].
  destruct (fetchWithRetry_backoff (net_flaky 1) "./data/championships.json" []
              (constructor empty_store 500)) as [_ Hflaky]; [simpl; lia |].
  split.
  - destruct (Hdown eq_refl) as (d' & e & Hrun & Hd & Hc). exists d', e. auto.
  - destruct (Hflaky 1%nat ok_response) as (d' & Hrun & Hd & Hc);
      [simpl; lia | reflexivity | reflexivity | reflexivity |].
    exists d'. auto.
Defined.

(** X2. Whatever the network answers, [fetchWithRetry] makes at most
    [maxRetries] attempts and changes neither the collection, nor the store,
    nor the status, nor the bound. *)
Theorem fetchWithRetry_budget (network : Network) (url : string)
    (options_headers : Headers) (d d' : Dashboard) (c : Completion (option Response)) :
  fetchWithRetry network url options_headers d = (c, d') ->
  (attempts (trace d') <= attempts (trace d) + maxRetries d)%nat /\
  tournaments d' = tournaments d /\ localStorage d' = localStorage d /\
  connectionStatus d' = connectionStatus d /\ maxRetries d' = maxRetries d.
Proof.
  unfold fetchWithRetry, bind, gets. intros Hrun.
  apply retry_any in Hrun as ((Ht & Hm & Hs & Hl) & Ha & _). auto.
Qed.

Lemma fetchWithRetry_budget_witness :
  exists c d',
    fetchWithRetry (net_flaky 7) "./data/championships.json" [] (constructor warm_store 0) =
      (c, d') /\
    (attempts (trace d') <= 3)%nat /\ localStorage d' = warm_store.
Proof.
  destruct (fetchWithRetry (net_flaky 7) "./data/championships.json" []
              (constructor warm_store 0)) as [c d'] eqn:Hrun.
  exists c, d'. split; [reflexivity |].
  destruct (fetchWithRetry_budget _ _ _ _ _ _ Hrun) as (Ha & _ & Hl & _).
  split; [exact Ha | exact Hl].
Defined.

(** ** The network budget of the loader *)

Ltac bounded_done :=
  split; [first [reflexivity | assumption | congruence]
         | simpl; rewrite ?attempts_app; simpl; lia].

Lemma bounded_weaken {A} N n p (m : Js Dashboard A) :
  (n <= p)%nat -> bounded N n m -> bounded N p m.
Proof.
  intros Hle Hm d c d' HN Hrun. destruct (Hm d c d' HN Hrun) as [H1 H2].
  split; [exact H1 | lia].
Qed.

Lemma bounded_bind {A B} N n p (m : Js Dashboard A) (k : A -> Js Dashboard B) :
  bounded N n m -> (forall a, bounded N p (k a)) -> bounded N (n + p) (bind m k).
Proof.
  intros Hm Hk d c d' HN. unfold bind.
  destruct (m d) as [[a | e] d1] eqn:Hrun; intros Hrest.
  - destruct (Hm d _ d1 HN Hrun) as [H1 H2].
    destruct (Hk a d1 c d' H1 Hrest) as [H3 H4]. split; [exact H3 | lia].
  - injection Hrest as <- <-. destruct (Hm d _ d1 HN Hrun) as [H1 H2].
    split; [exact H1 | lia].
Qed.

Lemma bounded_try_catch {A} N n p (body : Js Dashboard A) (handler : JsError -> Js Dashboard A) :
  bounded N n body -> (forall e, bounded N p (handler e)) ->
  bounded N (n + p) (try_catch body handler).
Proof.
  intros Hm Hk d c d' HN. unfold try_catch.
  destruct (body d) as [[a | e] d1] eqn:Hrun; intros Hrest.
  - injection Hrest as <- <-. destruct (Hm d _ d1 HN Hrun) as [H1 H2].
    split; [exact H1 | lia].
  - destruct (Hm d _ d1 HN Hrun) as [H1 H2].
    destruct (Hk e d1 c d' H1 Hrest) as [H3 H4]. split; [exact H3 | lia].
Qed.

Lemma bounded_ret {A} N (a : A) : bounded N 0 (ret a).
Proof. intros d c d' HN Hrun. inversion Hrun; subst. bounded_done. Qed.

Lemma bounded_throw {A} N (e : JsError) : bounded N 0 (@throw Dashboard A e).
Proof. intros d c d' HN Hrun. inversion Hrun; subst. bounded_done. Qed.

Lemma bounded_gets {A} N (f : Dashboard -> A) : bounded N 0 (gets f).
Proof. intros d c d' HN Hrun. inversion Hrun; subst. bounded_done. Qed.

Lemma bounded_modify N (f : Dashboard -> Dashboard) :
  (forall d, maxRetries (f d) = maxRetries d /\ attempts (trace (f d)) = attempts (trace d)) ->
  bounded N 0 (modify f).
Proof.
  intros Hf d c d' HN Hrun. inversion Hrun; subst.
  destruct (Hf d) as [H1 H2]. split; [congruence | lia].
Qed.

Lemma bounded_console N level text : bounded N 0 (console level text).
Proof.
  apply bounded_modify. intros d. simpl. rewrite attempts_app. simpl. split; [reflexivity | lia].
Qed.

Lemma bounded_showConnectionStatus N s : bounded N 0 (showConnectionStatus s).
Proof.
  apply bounded_modify. intros d. simpl. rewrite attempts_app. simpl. split; [reflexivity | lia].
Qed.

Lemma bounded_set_tournaments N v : bounded N 0 (modify (set_tournaments v)).
Proof. apply bounded_modify. intros d. split; reflexivity. Qed.

Lemma bounded_renderDashboard N render : bounded N 0 (renderDashboard render).
Proof.
  intros d c d' HN. unfold renderDashboard.
  destruct (render (tournaments d)); intros Hrun; inversion Hrun; subst; bounded_done.
Qed.

Section Budget.

Variable JSON_parse : string -> option json.
Variable JSON_stringify : json -> string.
Variable network : Network.
Variable render : json -> option JsError.

Lemma bounded_getCachedData N : bounded N 0 (getCachedData JSON_parse).
Proof.
  intros d c d' HN Hrun.
  destruct (getCachedData_returns JSON_parse d) as (d1 & Hret & (_ & Hm & _) & _ & Ha).
  rewrite Hret in Hrun. inversion Hrun; subst. split; [congruence | lia].
Qed.

Lemma bounded_setCachedData N data : bounded N 0 (setCachedData JSON_stringify data).
Proof.
  intros d c d' HN Hrun.
  destruct (setCachedData_returns JSON_stringify data d)
    as (d1 & Hret & _ & Hm & _ & _ & Hrej & Hacc).
  rewrite Hret in Hrun. inversion Hrun; subst. split; [congruence |].
  destruct (write_rejected JSON_stringify data d).
  - rewrite (Hrej eq_refl), attempts_app. simpl. lia.
  - destruct (Hacc eq_refl) as [-> _]. lia.
Qed.

Lemma bounded_response_json N response : bounded N 0 (response_json JSON_parse response).
Proof.
  unfold response_json. destruct response as [r |]; [| apply bounded_throw].
  destruct (JSON_parse (body r)); [apply bounded_ret | apply bounded_throw].
Qed.

Lemma bounded_fetchWithRetry N url options_headers :
  bounded N N (fetchWithRetry network url options_headers).
Proof.
  intros d c d' HN. unfold fetchWithRetry, bind, gets. intros Hrun.
  apply retry_any in Hrun as ((_ & Hm & _) & Ha & _).
  split; [congruence | lia].
Qed.

Lemma bounded_loadData N : bounded N N (loadData JSON_parse JSON_stringify network).
Proof.
  unfold loadData.
  apply (bounded_weaken N (N + 0)); [lia |].
  apply bounded_try_catch.
  - apply (bounded_weaken N (0 + N)); [lia |].
    apply bounded_bind; [apply bounded_getCachedData |].
    intros cachedData. destruct (truthy cachedData).
    + apply (bounded_weaken N (0 + 0)); [lia |].
      apply bounded_bind; [apply bounded_set_tournaments |].
      intros _. apply bounded_console.
    + apply (bounded_weaken N (N + (0 + (0 + (0 + (0 + 0)))))); [lia |].
      apply bounded_bind; [apply bounded_fetchWithRetry |]. intros response.
      apply bounded_bind; [apply bounded_response_json |]. intros data.
      apply bounded_bind; [apply bounded_set_tournaments |]. intros _.
      apply bounded_bind; [apply bounded_gets |]. intros current.
      apply bounded_bind; [apply bounded_setCachedData |]. intros _.
      apply bounded_console.
  - intros error.
    apply (bounded_weaken N (0 + (0 + (0 + (0 + 0))))); [lia |].
    apply bounded_bind; [apply bounded_console |]. intros _.
    apply bounded_bind; [apply bounded_getCachedData |]. intros fallbackData.
    destruct (truthy fallbackData).
    + apply bounded_bind; [apply bounded_set_tournaments |]. intros _.
      apply bounded_bind; [apply bounded_showConnectionStatus |]. intros _.
      apply bounded_console.
    + apply (bounded_weaken N 0); [lia |]. apply bounded_throw.
Qed.

Lemma bounded_refreshData N :
  bounded N N (refreshData JSON_parse JSON_stringify network render).
Proof.
  unfold refreshData.
  apply (bounded_weaken N ((0 + (N + (0 + 0))) + (0 + 0))); [lia |].
  apply bounded_try_catch.
  - apply bounded_bind; [apply bounded_showConnectionStatus |]. intros _.
    apply bounded_bind; [apply bounded_loadData |]. intros _.
    apply bounded_bind; [apply bounded_renderDashboard |]. intros _.
    apply bounded_showConnectionStatus.
  - intros error.
    apply bounded_bind; [apply bounded_console |]. intros _.
    apply bounded_showConnectionStatus.
Qed.

Lemma bounded_init N : bounded N N (init JSON_parse JSON_stringify network render).
Proof.
  unfold init, handleError.
  apply (bounded_weaken N ((0 + (N + 0)) + (0 + 0))); [lia |].
  apply bounded_try_catch.
  - apply bounded_bind; [apply bounded_showConnectionStatus |]. intros _.
    apply bounded_bind; [apply bounded_loadData |]. intros _.
    apply bounded_renderDashboard.
  - intros error.
    apply bounded_bind; [apply bounded_console |]. intros _.
    apply bounded_console.
Qed.

Lemma bounded_handleFormSubmit N newTournament :
  bounded N 0 (handleFormSubmit JSON_stringify render newTournament).
Proof.
  unfold handleFormSubmit, tournaments_push.
  apply (bounded_weaken N ((0 + 0) + (0 + (0 + 0)))); [lia |].
  apply bounded_bind.
  - apply bounded_bind; [apply bounded_gets |]. intros current.
    destruct current; try apply bounded_throw. apply bounded_set_tournaments.
  - intros _. apply bounded_bind; [apply bounded_gets |]. intros current.
    apply bounded_bind; [apply bounded_setCachedData |]. intros _.
    apply bounded_renderDashboard.
Qed.

(** [refreshData] catches everything and ends by showing a status. *)
Lemma refreshData_returns d :
  exists d',
    refreshData JSON_parse JSON_stringify network render d = (Normal tt, d') /\
    (connectionStatus d' = online \/ connectionStatus d' = offline).
Proof.
  unfold refreshData, try_catch.
  match goal with |- context [match ?x with _ => _ end] =>
    destruct x as [[[] | e] d1] eqn:Hbody end.
  - exists d1. split; [reflexivity |]. left.
    unfold bind, showConnectionStatus, modify, renderDashboard in Hbody.
    destruct (loadData _ _ _ _) as [[[] | e1] d2]; [| discriminate].
    destruct (render (tournaments d2)); [discriminate |].
    inversion Hbody; subst. reflexivity.
  - eexists. split; [reflexivity |]. right. reflexivity.
Qed.

(** [init] catches everything. *)
Lemma init_returns d :
  exists d', init JSON_parse JSON_stringify network render d = (Normal tt, d').
Proof.
  unfold init, try_catch.
  match goal with |- context [match ?x with _ => _ end] =>
    destruct x as [[[] | e] d1] end.
  - exists d1. reflexivity.
  - eexists. reflexivity.
Qed.

End Budget.

(** X3. [loadData], [refreshData] and [init] make at most [maxRetries]
    network attempts each, however they end and whatever the network answers,
    and the submission of a record makes none; all four keep the retry bound
    of the instance. *)
Theorem operations_within_budget (JSON_parse : string -> option json)
    (JSON_stringify : json -> string) (network : Network)
    (render : json -> option JsError) (newTournament : json) (N : nat) :
  bounded N N (loadData JSON_parse JSON_stringify network) /\
  bounded N N (refreshData JSON_parse JSON_stringify network render) /\
  bounded N N (init JSON_parse JSON_stringify network render) /\
  bounded N 0 (handleFormSubmit JSON_stringify render newTournament).
Proof.
  split; [apply bounded_loadData |].
  split; [apply bounded_refreshData |].
  split; [apply bounded_init |].
  apply bounded_handleFormSubmit.
Qed.

Lemma operations_within_budget_witness :
  let '(_, d') := loadData parse_json stringify_json (net_flaky 7) (constructor empty_store 0) in
  maxRetries d' = 3%nat /\ (attempts (trace d') <= 3)%nat.
Proof.
  destruct (loadData parse_json stringify_json (net_flaky 7) (constructor empty_store 0))
    as [c d'] eqn:Hrun.
  destruct (operations_within_budget parse_json stringify_json (net_flaky 7) renders newcomer 3)
    as (Hload & _).
  apply (Hload (constructor empty_store 0) c d' eq_refl Hrun).
Defined.

(** X4. [refreshData] and [init] never throw.  [refreshData] never leaves
    the status at [reconnecting]: it ends [online] or [offline]. *)
Theorem refresh_and_init_never_throw (JSON_parse : string -> option json)
    (JSON_stringify : json -> string) (network : Network)
    (render : json -> option JsError) (d : Dashboard) :
  (exists d',
      refreshData JSON_parse JSON_stringify network render d = (Normal tt, d') /\
      (connectionStatus d' = online \/ connectionStatus d' = offline)) /\
  (exists d', init JSON_parse JSON_stringify network render d = (Normal tt, d')).
Proof.
  split; [apply refreshData_returns | apply init_returns].
Qed.

(** ** The loader and the store together *)

Section LoaderAndStore.

Variable JSON_parse : string -> option json.
Variable JSON_stringify : json -> string.
Variable network : Network.
Variable render : json -> option JsError.

Local Abbreviation data_request := (retry_request "./data/championships.json" []).

(** [getCachedData] leaves the state as it is, or logs that parsing
    failed. *)
Lemma getCachedData_cases d :
  exists d0,
    getCachedData JSON_parse d = (Normal (cached_value JSON_parse (localStorage d)), d0) /\
    (d0 = d \/ d0 = emit parse_warning d).
Proof.
  unfold getCachedData, cached_value.
  destruct (getItem "golf-tournaments" (localStorage d)) as [cached |]; [| eauto].
  destruct (String.eqb cached ""); [eauto |].
  destruct (JSON_parse cached); eauto.
Qed.

(** Whether a write is rejected depends on the store and the clock only. *)
Lemma write_rejected_ext data d d0 :
  localStorage d0 = localStorage d -> clock d0 = clock d ->
  write_rejected JSON_stringify data d0 = write_rejected JSON_stringify data d.
Proof. intros Hl Hc. unfold write_rejected. rewrite Hl, Hc. reflexivity. Qed.

(** Without a usable cached value, a first attempt that succeeds with a body
    that parses gives the collection, and the item when the store takes it. *)
Lemma loadData_unusable_fresh d r v :
  (0 < maxRetries d)%nat ->
  truthy (cached_value JSON_parse (localStorage d)) = false ->
  network (fetches d) data_request = Resolved r -> ok r = true ->
  JSON_parse (body r) = Some v ->
  exists d',
    loadData JSON_parse JSON_stringify network d = (Normal tt, d') /\
    tournaments d' = v /\
    attempts (trace d') = (attempts (trace d) + 1)%nat /\
    connectionStatus d' = connectionStatus d /\
    maxRetries d' = maxRetries d /\
    (write_rejected JSON_stringify v d = false ->
     getItem "golf-tournaments" (localStorage d') = Some (JSON_stringify v)).
Proof.
  intros Hmax Hfalsy Hnet Hok Hparse. unfold loadData, try_catch, bind at 1.
  destruct (getCachedData_cases d) as (d0 & Hget & Hd0). rewrite Hget, Hfalsy.
  assert (Hsame : maxRetries d0 = maxRetries d /\ fetches d0 = fetches d /\
                  localStorage d0 = localStorage d /\ clock d0 = clock d /\
                  attempts (trace d0) = attempts (trace d) /\
                  connectionStatus d0 = connectionStatus d).
  { destruct Hd0 as [-> | ->]; simpl; rewrite ?attempts_app; simpl;
      repeat split; lia. }
  destruct Hsame as (Hm0 & Hf0 & Hl0 & Hc0 & Ha0 & Hs0).
  unfold bind at 1, fetchWithRetry, bind at 1, gets.
  destruct (maxRetries d0) as [| n] eqn:Hn; [lia |].
  rewrite <- Hf0 in Hnet.
  rewrite (attempt_succeeds network _ _ n 0 d0 r Hnet Hok).
  unfold bind at 1, response_json. rewrite Hparse.
  unfold ret, bind at 1, modify, bind at 1, gets. simpl.
  set (d1 := set_tournaments v (emit (EvFetch data_request) (set_fetches (S (fetches d0)) d0))).
  destruct (setCachedData_returns JSON_stringify v d1)
    as (d2 & Hrun & Ht & Hm & Hs & _ & Hrej & Hacc).
  assert (Hw : write_rejected JSON_stringify v d1 = write_rejected JSON_stringify v d).
  { apply write_rejected_ext; simpl; assumption. }
  unfold bind. rewrite Hrun. unfold console, modify.
  eexists. split; [reflexivity |]. simpl.
  split; [exact Ht |]. rewrite attempts_app. simpl.
  split; [| split; [| split]].
  - destruct (write_rejected JSON_stringify v d1) eqn:Hw1.
    + rewrite (Hrej eq_refl). unfold d1. simpl. rewrite !attempts_app. simpl. lia.
    + destruct (Hacc eq_refl) as [-> _]. unfold d1. simpl. rewrite attempts_app. simpl. lia.
  - rewrite Hs. unfold d1. simpl. exact Hs0.
  - rewrite Hm. unfold d1. simpl. congruence.
  - intros Hno. rewrite <- Hw in Hno. destruct (Hacc Hno) as [_ Hitem]. exact Hitem.
Qed.

(** Without a usable cached value and with every attempt failing,
    [loadData] throws and leaves the collection and the store alone. *)
Lemma loadData_unusable_offline d :
  (0 < maxRetries d)%nat ->
  truthy (cached_value JSON_parse (localStorage d)) = false ->
  fails_from network data_request (fetches d) (maxRetries d) = true ->
  exists d',
    loadData JSON_parse JSON_stringify network d = (Throw NoDataAvailable, d') /\
    attempts (trace d') = (attempts (trace d) + maxRetries d)%nat /\
    kept d d'.
Proof.
  intros Hmax Hfalsy Hfails. unfold loadData, try_catch, bind at 1.
  destruct (getCachedData_cases d) as (d0 & Hget & Hd0). rewrite Hget, Hfalsy.
  assert (Hsame : kept d d0 /\ fetches d0 = fetches d /\
                  attempts (trace d0) = attempts (trace d)).
  { destruct Hd0 as [-> | ->]; simpl; rewrite ?attempts_app; simpl;
      repeat split; lia. }
  destruct Hsame as (Hk0 & Hf0 & Ha0).
  assert (Hm0 : maxRetries d0 = maxRetries d) by apply Hk0.
  unfold bind at 1, fetchWithRetry, bind at 1, gets.
  destruct (retry_exhausted network "./data/championships.json" [] (maxRetries d0) 0 d0)
    as (d1 & Hrun & _ & Ha & Hk); rewrite ?Hm0, ?Hf0; try assumption; try lia.
  rewrite Hm0 in Hrun. rewrite Hrun. unfold bind at 1, console, modify.
  pose proof (kept_trans _ _ _ Hk0 Hk) as Hk1.
  set (d2 := emit _ d1).
  destruct (getCachedData_cases d2) as (d3 & Hget3 & Hd3).
  assert (Hl2 : localStorage d2 = localStorage d) by apply Hk1.
  unfold bind. rewrite Hget3, Hl2, Hfalsy. unfold throw.
  eexists. split; [reflexivity |].
  destruct Hd3 as [-> | ->]; unfold d2; simpl; rewrite ?attempts_app; simpl;
    rewrite ?attempts_app; simpl; (split; [lia | exact Hk1]).
Qed.

(** [loadData] never changes the connection status: its fallback on the
    cache, the one place where it shows [offline], follows a first reading
    of the same store that gave nothing usable, and reads nothing usable
    either. *)
Lemma loadData_keeps_status d c d' :
  loadData JSON_parse JSON_stringify network d = (c, d') ->
  connectionStatus d' = connectionStatus d.
Proof.
  unfold loadData, try_catch, bind at 1.
  destruct (getCachedData_cases d) as (d0 & Hget & Hd0). rewrite Hget.
  assert (Hk0 : kept d d0) by (destruct Hd0 as [-> | ->]; repeat split).
  destruct (truthy (cached_value JSON_parse (localStorage d))) eqn:Hfalsy.
  - unfold bind, modify, console. intros H. inversion H; subst. simpl. apply Hk0.
  - assert (Hfallback : forall e d1, kept d d1 ->
              (console "error" ("Failed to load data: " +:+ message e);;
               fallbackData ← getCachedData JSON_parse;
               if truthy fallbackData then
                 modify (set_tournaments fallbackData);;
                 showConnectionStatus offline;;
                 console "log" "Using cached data due to network error"
               else throw (Error "No data available"))%js d1 = (c, d') ->
              connectionStatus d' = connectionStatus d).
    { intros e d1 Hk1. unfold bind at 1, console, modify.
      set (d2 := emit _ d1).
      destruct (getCachedData_cases d2) as (d3 & Hget3 & Hd3).
      assert (Hl2 : localStorage d2 = localStorage d) by apply Hk1.
      unfold bind. rewrite Hget3, Hl2, Hfalsy. unfold throw.
      intros H. inversion H; subst.
      destruct Hd3 as [-> | ->]; unfold d2; simpl; apply Hk1. }
    unfold bind at 1, fetchWithRetry, bind at 1, gets.
    destruct (fetchWithRetry_from network (maxRetries d0) 0 "./data/championships.json" [] d0)
      as [c1 d1] eqn:Hrun.
    apply retry_any in Hrun as (Hk & _).
    pose proof (kept_trans _ _ _ Hk0 Hk) as Hk1.
    destruct c1 as [[r |] | e].
    + unfold bind at 1, response_json.
      destruct (JSON_parse (body r)) as [v |].
      * unfold ret, bind at 1, modify, bind at 1, gets.
        unfold bind at 1.
        match goal with |- context [setCachedData _ ?x ?y] =>
          destruct (setCachedData_returns JSON_stringify x y)
            as (d4 & Hset & _ & _ & Hs4 & _) end.
        rewrite Hset. unfold console, modify. intros H. inversion H; subst. simpl.
        rewrite Hs4. simpl. apply Hk1.
      * unfold throw. apply Hfallback. exact Hk1.
    + unfold bind at 1, response_json, throw. apply Hfallback. exact Hk1.
    + apply Hfallback. exact Hk1.
Qed.

(** The two writes of [setCachedData], both accepted. *)
Lemma setCachedData_accepted data d :
  write_rejected JSON_stringify data d = false ->
  setCachedData JSON_stringify data d =
  (Normal tt,
   set_localStorage
     (mkStorage (<["golf-tournaments-timestamp" := pretty (clock d)]>
                   (<["golf-tournaments" := JSON_stringify data]> (items (localStorage d))))
                (quota (localStorage d))) d).
Proof.
  unfold write_rejected. intros Hw. apply orb_false_iff in Hw as [R1 R2].
  unfold setCachedData, try_catch, bind, localStorage_setItem, gets.
  rewrite (setItem_accepted _ _ _ R1). simpl.
  rewrite (setItem_accepted _ _ _ R2). reflexivity.
Qed.

(** The first write accepted, the second rejected. *)
Lemma setCachedData_half_written data d :
  rejects (localStorage d) "golf-tournaments" (JSON_stringify data) = false ->
  write_rejected JSON_stringify data d = true ->
  setCachedData JSON_stringify data d =
  (Normal tt,
   emit cache_warning
     (set_localStorage
        (mkStorage (<["golf-tournaments" := JSON_stringify data]> (items (localStorage d)))
                   (quota (localStorage d))) d)).
Proof.
  unfold write_rejected. intros R1 Hw. rewrite R1 in Hw. simpl in Hw.
  unfold setCachedData, try_catch, bind, localStorage_setItem, gets.
  rewrite (setItem_accepted _ _ _ R1). simpl.
  rewrite (setItem_rejected _ _ _ Hw). reflexivity.
Qed.

End LoaderAndStore.

(** X5. A stored item that is absent, empty, not parseable or that parses to a
    falsy value counts as no cache: [loadData] goes to the network.  When the
    first attempt succeeds with a body that parses, the collection is the
    fetched one and, if the store takes the write, the item is replaced by it;
    when every attempt fails, [loadData] throws [No data available] and leaves
    the collection and the store as they were. *)
Theorem loadData_ignores_unusable_cache (JSON_parse : string -> option json)
    (JSON_stringify : json -> string) (network : Network) (d : Dashboard) :
  (0 < maxRetries d)%nat ->
  truthy (cached_value JSON_parse (localStorage d)) = false ->
  (forall r v,
      network (fetches d) (retry_request "./data/championships.json" []) = Resolved r ->
      ok r = true -> JSON_parse (body r) = Some v ->
      exists d',
        loadData JSON_parse JSON_stringify network d = (Normal tt, d') /\
        tournaments d' = v /\
        attempts (trace d') = (attempts (trace d) + 1)%nat /\
        (write_rejected JSON_stringify v d = false ->
         getItem "golf-tournaments" (localStorage d') = Some (JSON_stringify v))) /\
  (fails_from network (retry_request "./data/championships.json" []) (fetches d)
     (maxRetries d) = true ->
   exists d',
     loadData JSON_parse JSON_stringify network d = (Throw (Error "No data available"), d') /\
     attempts (trace d') = (attempts (trace d) + maxRetries d)%nat /\
     tournaments d' = tournaments d /\ localStorage d' = localStorage d).
Proof.
  intros Hmax Hfalsy. split.
  - intros r v Hnet Hok Hparse.
    destruct (loadData_unusable_fresh JSON_parse JSON_stringify network d r v)
      as (d' & Hrun & Ht & Ha & _ & _ & Hitem); try assumption.
    exists d'. auto.
  - intros Hfails.
    destruct (loadData_unusable_offline JSON_parse JSON_stringify network d)
      as (d' & Hrun & Ha & Ht & _ & _ & Hl); try assumption.
    exists d'. auto.
Qed.

(** The item ["[{"] does not parse: the load fetches and replaces it. *)
Lemma loadData_ignores_unusable_cache_witness :
  getItem "golf-tournaments" corrupt_store = Some "[{" /\
  (exists d',
      loadData parse_json stringify_json net_up (constructor corrupt_store 0) = (Normal tt, d') /\
      tournaments d' = records /\
      getItem "golf-tournaments" (localStorage d') = Some (stringify_json records)) /\
  (exists d',
      loadData parse_json stringify_json net_down (constructor corrupt_store 0) =
        (Throw (Error "No data available"), d') /\
      localStorage d' = corrupt_store).
Proof.
  split; [reflexivity |].
  destruct (loadData_ignores_unusable_cache parse_json stringify_json net_up
              (constructor corrupt_store 0)) as [Hup _];
    [simpl; lia | vm_compute; reflexivity |].
  destruct (loadData_ignores_unusable_cache parse_json stringify_json net_down
              (constructor corrupt_store 0)) as [_ Hdown];
    [simpl; lia | vm_compute; reflexivity |].
  split.
  - destruct (Hup ok_response records) as (d' & Hrun & Ht & _ & Hitem);
      [reflexivity | reflexivity | vm_compute; reflexivity |].
    exists d'. split; [exact Hrun |]. split; [exact Ht |].
    apply Hitem. vm_compute. reflexivity.
  - destruct (Hdown eq_refl) as (d' & Hrun & _ & _ & Hl).
    exists d'. split; [exact Hrun | exact Hl].
Defined.

(** X6. Writing a collection with [setCachedData] and reading it back with
    [getCachedData] gives the same collection, when the store takes both writes
    and the text that [JSON.stringify] gives for it parses back to it; the
    timestamp item then holds the clock of the write. *)
Theorem cache_round_trip (JSON_parse : string -> option json)
    (JSON_stringify : json -> string) (data : json) (d : Dashboard) :
  write_rejected JSON_stringify data d = false ->
  JSON_stringify data <> "" ->
  JSON_parse (JSON_stringify data) = Some data ->
  exists d1,
    setCachedData JSON_stringify data d = (Normal tt, d1) /\
    getCachedData JSON_parse d1 = (Normal data, d1) /\
    getItem "golf-tournaments-timestamp" (localStorage d1) = Some (pretty (clock d)).
Proof.
  intros Hw Hne Hparse. rewrite (setCachedData_accepted JSON_stringify data d Hw).
  eexists. split; [reflexivity |]. split.
  - apply (getCachedData_hit JSON_parse _ (JSON_stringify data) data); try assumption.
    unfold getItem. simpl. rewrite lookup_insert_ne by discriminate.
    apply lookup_insert_eq.
  - unfold getItem. simpl. apply lookup_insert_eq.
Qed.

Lemma cache_round_trip_witness :
  exists d1,
    setCachedData stringify_json records (constructor empty_store 1234) = (Normal tt, d1) /\
    getCachedData parse_json d1 = (Normal records, d1) /\
    getItem "golf-tournaments-timestamp" (localStorage d1) = Some "1234".
Proof.
  apply (cache_round_trip parse_json stringify_json records (constructor empty_store 1234)).
  - vm_compute. reflexivity.
  - vm_compute. discriminate.
  - vm_compute. reflexivity.
Defined.

(** X7. A cold [loadData] that fetches the collection and stores it is followed
    by a [loadData] that makes no network attempt and gives the same
    collection, whatever the network would answer then. *)
Theorem loadData_twice (JSON_parse : string -> option json)
    (JSON_stringify : json -> string) (network : Network) (d : Dashboard)
    (r : Response) (v : json) :
  (0 < maxRetries d)%nat ->
  truthy (cached_value JSON_parse (localStorage d)) = false ->
  network (fetches d) (retry_request "./data/championships.json" []) = Resolved r ->
  ok r = true ->
  JSON_parse (body r) = Some v ->
  truthy v = true ->
  write_rejected JSON_stringify v d = false ->
  JSON_stringify v <> "" ->
  JSON_parse (JSON_stringify v) = Some v ->
  exists d1 d2,
    loadData JSON_parse JSON_stringify network d = (Normal tt, d1) /\
    loadData JSON_parse JSON_stringify network d1 = (Normal tt, d2) /\
    attempts (trace d1) = (attempts (trace d) + 1)%nat /\
    attempts (trace d2) = attempts (trace d1) /\
    tournaments d2 = v.
Proof.
  intros Hmax Hfalsy Hnet Hok Hparse Htruthy Hw Hne Hround.
  destruct (loadData_unusable_fresh JSON_parse JSON_stringify network d r v)
    as (d1 & Hrun & Ht & Ha & _ & _ & Hitem); try assumption.
  exists d1. eexists. split; [exact Hrun |]. split.
  - apply (loadData_cached JSON_parse JSON_stringify network d1 (JSON_stringify v) v);
      auto.
  - simpl. rewrite attempts_app. simpl. repeat split; lia.
Qed.

Lemma loadData_twice_witness :
  exists d1 d2,
    loadData parse_json stringify_json net_once (constructor empty_store 0) = (Normal tt, d1) /\
    loadData parse_json stringify_json net_once d1 = (Normal tt, d2) /\
    attempts (trace d2) = 1%nat /\
    tournaments d2 = records.
Proof.
  destruct (loadData_twice parse_json stringify_json net_once (constructor empty_store 0)
              ok_response records) as (d1 & d2 & H1 & H2 & Ha1 & Ha2 & Ht).
  - simpl. lia.
  - reflexivity.
  - reflexivity.
  - reflexivity.
  - vm_compute. reflexivity.
  - reflexivity.
  - vm_compute. reflexivity.
  - vm_compute. discriminate.
  - vm_compute. reflexivity.
  - exists d1, d2. split; [exact H1 |]. split; [exact H2 |].
    split; [rewrite Ha2, Ha1; reflexivity | exact Ht].
Defined.

(** X8. The two writes of [setCachedData] are not one step: when the store
    takes the collection but rejects the timestamp, the collection item is
    stored, the timestamp item keeps what it had, a warning is logged and the
    call completes normally. *)
Theorem setCachedData_timestamp_rejected (JSON_stringify : json -> string)
    (data : json) (d : Dashboard) :
  rejects (localStorage d) "golf-tournaments" (JSON_stringify data) = false ->
  write_rejected JSON_stringify data d = true ->
  exists d',
    setCachedData JSON_stringify data d = (Normal tt, d') /\
    getItem "golf-tournaments" (localStorage d') = Some (JSON_stringify data) /\
    getItem "golf-tournaments-timestamp" (localStorage d') =
      getItem "golf-tournaments-timestamp" (localStorage d) /\
    trace d' = trace d ++ [cache_warning].
Proof.
  intros R1 Hw. rewrite (setCachedData_half_written JSON_stringify data d R1 Hw).
  eexists. split; [reflexivity |]. unfold getItem. simpl.
  split; [apply lookup_insert_eq |].
  split; [apply lookup_insert_ne; discriminate | reflexivity].
Qed.

Lemma setCachedData_timestamp_rejected_witness :
  exists d',
    setCachedData stringify_json (JArr []) (constructor tight_store 0) = (Normal tt, d') /\
    getItem "golf-tournaments" (localStorage d') = Some "[]" /\
    getItem "golf-tournaments-timestamp" (localStorage d') = None.
Proof.
  destruct (setCachedData_timestamp_rejected stringify_json (JArr [])
              (constructor tight_store 0)) as (d' & Hrun & Hitem & Hts & _).
  - vm_compute. reflexivity.
  - vm_compute. reflexivity.
  - exists d'. split; [exact Hrun |]. split; [exact Hitem | exact Hts].
Defined.

(** X9. Submitting a record when the collection is an array of [N] records:
    the record is appended as the last of [N + 1], without any network
    attempt, and the whole collection is written to the store before rendering;
    if rendering throws, the submission throws that error, with the record
    already appended and written.  When the collection in memory is not an
    array (a truthy cached value of another shape), the submission throws a
    TypeError and changes nothing. *)
Theorem handleFormSubmit_appends (JSON_stringify : json -> string)
    (render : json -> option JsError) (newTournament : json) (d : Dashboard) :
  (forall l,
      tournaments d = JArr l ->
      exists d',
        handleFormSubmit JSON_stringify render newTournament d =
          (match render (JArr (l ++ [newTournament])) with
           | None => Normal tt
           | Some e => Throw e
           end, d') /\
        tournaments d' = JArr (l ++ [newTournament]) /\
        attempts (trace d') = attempts (trace d) /\
        (write_rejected JSON_stringify (JArr (l ++ [newTournament])) d = false ->
         getItem "golf-tournaments" (localStorage d') =
           Some (JSON_stringify (JArr (l ++ [newTournament]))))) /\
  (is_array (tournaments d) = false ->
   exists e, handleFormSubmit JSON_stringify render newTournament d = (Throw e, d) /\
             name e = "TypeError").
Proof.
  split.
  - intros l Harr.
    unfold handleFormSubmit, tournaments_push, bind at 1, bind at 1, gets.
    rewrite Harr. unfold modify, bind at 1. simpl.
    set (v := JArr (l ++ [newTournament])). set (d1 := set_tournaments v d).
    destruct (setCachedData_returns JSON_stringify v d1)
      as (d2 & Hrun & Ht & _ & _ & _ & Hrej & Hacc).
    assert (Hw : write_rejected JSON_stringify v d1 = write_rejected JSON_stringify v d)
      by reflexivity.
    unfold bind. rewrite Hrun. unfold renderDashboard. rewrite Ht. simpl.
    assert (Ha : attempts (trace d2) = attempts (trace d)).
    { destruct (write_rejected JSON_stringify v d1) eqn:Hw1.
      - rewrite (Hrej eq_refl), attempts_app. simpl. lia.
      - destruct (Hacc eq_refl) as [-> _]. reflexivity. }
    destruct (render v) as [e |].
    + exists d2. split; [reflexivity |]. split; [exact Ht |]. split; [exact Ha |].
      intros Hno. rewrite <- Hw in Hno. apply Hacc. exact Hno.
    + eexists. split; [reflexivity |]. simpl. split; [exact Ht |].
      rewrite attempts_app. simpl. split; [lia |].
      intros Hno. rewrite <- Hw in Hno. apply Hacc. exact Hno.
  - intros Hnot. unfold handleFormSubmit, tournaments_push, bind, gets.
    destruct (tournaments d); try discriminate; eexists; split; reflexivity.
Qed.

Lemma handleFormSubmit_appends_witness :
  (exists d' l,
      handleFormSubmit stringify_json renders newcomer
        (set_tournaments records (constructor warm_store 0)) = (Normal tt, d') /\
      tournaments d' = JArr (l ++ [newcomer]) /\ length l = 2%nat /\
      attempts (trace d') = 0%nat) /\
  (exists e,
      handleFormSubmit stringify_json renders newcomer
        (set_tournaments (JObj [("error", JStr "Offline"); ("data", JArr [])])
           (constructor warm_store 0)) =
      (Throw e, set_tournaments (JObj [("error", JStr "Offline"); ("data", JArr [])])
                  (constructor warm_store 0))).
Proof.
  split.
  - destruct (handleFormSubmit_appends stringify_json renders newcomer
                (set_tournaments records (constructor warm_store 0))) as [Happ _].
    destruct (Happ _ eq_refl) as (d' & Hrun & Ht & Ha & _).
    exists d'. eexists. split; [exact Hrun |]. split; [exact Ht |].
    split; [reflexivity | exact Ha].
  - destruct (handleFormSubmit_appends stringify_json renders newcomer
                (set_tournaments (JObj [("error", JStr "Offline"); ("data", JArr [])])
                   (constructor warm_store 0))) as [_ Hnot].
    destruct (Hnot eq_refl) as (e & Hrun & _). exists e. exact Hrun.
Defined.

(** [refreshData] without a usable cached value and with every attempt
    failing. *)
Lemma refreshData_unusable_offline (JSON_parse : string -> option json)
    (JSON_stringify : json -> string) (network : Network)
    (render : json -> option JsError) (d : Dashboard) :
  (0 < maxRetries d)%nat ->
  truthy (cached_value JSON_parse (localStorage d)) = false ->
  fails_from network (retry_request "./data/championships.json" []) (fetches d)
    (maxRetries d) = true ->
  exists d',
    refreshData JSON_parse JSON_stringify network render d = (Normal tt, d') /\
    connectionStatus d' = offline /\
    attempts (trace d') = (attempts (trace d) + maxRetries d)%nat /\
    tournaments d' = tournaments d /\ localStorage d' = localStorage d.
Proof.
  intros Hmax Hfalsy Hfails.
  set (d0 := emit (EvStatus reconnecting) (set_connectionStatus reconnecting d)).
  destruct (loadData_unusable_offline JSON_parse JSON_stringify network d0)
    as (d1 & Hrun & Ha & Ht & _ & _ & Hl); try assumption.
  unfold refreshData, try_catch, bind at 1, showConnectionStatus at 1, modify. fold d0.
  unfold bind at 1. rewrite Hrun. unfold bind, console, showConnectionStatus, modify.
  eexists. split; [reflexivity |]. simpl. rewrite !attempts_app. simpl.
  unfold d0 in Ha. simpl in Ha. rewrite attempts_app in Ha. simpl in Ha.
  repeat split; try assumption; lia.
Qed.

(** X10. [refreshData] without a usable cached value.  With every attempt
    failing it ends [offline] after [maxRetries] attempts, the collection and
    the store as they were.  With a first attempt that succeeds, a body that
    parses and a rendering that completes, it ends [online] with the fetched
    collection in memory. *)
Theorem refreshData_without_cache (JSON_parse : string -> option json)
    (JSON_stringify : json -> string) (network : Network)
    (render : json -> option JsError) (d : Dashboard) :
  (0 < maxRetries d)%nat ->
  truthy (cached_value JSON_parse (localStorage d)) = false ->
  (fails_from network (retry_request "./data/championships.json" []) (fetches d)
     (maxRetries d) = true ->
   exists d',
     refreshData JSON_parse JSON_stringify network render d = (Normal tt, d') /\
     connectionStatus d' = offline /\
     attempts (trace d') = (attempts (trace d) + maxRetries d)%nat /\
     tournaments d' = tournaments d /\ localStorage d' = localStorage d) /\
  (forall r v,
      network (fetches d) (retry_request "./data/championships.json" []) = Resolved r ->
      ok r = true -> JSON_parse (body r) = Some v -> render v = None ->
      exists d',
        refreshData JSON_parse JSON_stringify network render d = (Normal tt, d') /\
        connectionStatus d' = online /\
        attempts (trace d') = (attempts (trace d) + 1)%nat /\
        tournaments d' = v).
Proof.
  intros Hmax Hfalsy. split.
  - intros Hfails.
    apply refreshData_unusable_offline; assumption.
  - intros r v Hnet Hok Hparse Hrender.
    set (d0 := emit (EvStatus reconnecting) (set_connectionStatus reconnecting d)).
    destruct (loadData_unusable_fresh JSON_parse JSON_stringify network d0 r v)
      as (d1 & Hrun & Ht & Ha & _ & _ & _); try assumption.
    unfold refreshData, try_catch, bind at 1, showConnectionStatus at 1, modify. fold d0.
    unfold bind at 1. rewrite Hrun. unfold bind, renderDashboard. rewrite Ht, Hrender.
    unfold showConnectionStatus, modify.
    eexists. split; [reflexivity |]. simpl. rewrite !attempts_app. simpl.
    unfold d0 in Ha. simpl in Ha. rewrite attempts_app in Ha. simpl in Ha.
    repeat split; try assumption; lia.
Qed.

Lemma refreshData_without_cache_witness :
  (exists d',
      refreshData parse_json stringify_json net_down renders (constructor empty_store 0) =
        (Normal tt, d') /\
      connectionStatus d' = offline /\ attempts (trace d') = 3%nat) /\
  (exists d',
      refreshData parse_json stringify_json net_up renders (constructor empty_store 0) =
        (Normal tt, d') /\
      connectionStatus d' = online /\ tournaments d' = records).
Proof.
  split.
  - destruct (refreshData_without_cache parse_json stringify_json net_down renders
                (constructor empty_store 0)) as [Hdown _];
      [simpl; lia | reflexivity |].
    destruct (Hdown eq_refl) as (d' & Hrun & Hs & Ha & _).
    exists d'. split; [exact Hrun |]. split; [exact Hs | exact Ha].
  - destruct (refreshData_without_cache parse_json stringify_json net_up renders
                (constructor empty_store 0)) as [_ Hup];
      [simpl; lia | reflexivity |].
    destruct (Hup ok_response records) as (d' & Hrun & Hs & _ & Ht);
      [reflexivity | reflexivity | vm_compute; reflexivity | reflexivity |].
    exists d'. split; [exact Hrun |]. split; [exact Hs | exact Ht].
Defined.

(** X11. [init] on a start without a usable cached value and with every
    attempt failing: the failure is caught and reported twice on the console,
    by [init] and by [handleError]; the collection stays as the constructor left
    it and the status stays [online]. *)
Theorem init_reports_failure (JSON_parse : string -> option json)
    (JSON_stringify : json -> string) (network : Network)
    (render : json -> option JsError) (d : Dashboard) :
  (0 < maxRetries d)%nat ->
  truthy (cached_value JSON_parse (localStorage d)) = false ->
  fails_from network (retry_request "./data/championships.json" []) (fetches d)
    (maxRetries d) = true ->
  exists d' t,
    init JSON_parse JSON_stringify network render d = (Normal tt, d') /\
    trace d' = t ++ [EvConsole "error" "Initialization failed: No data available";
                     EvConsole "error" "Dashboard error: No data available"] /\
    tournaments d' = tournaments d /\
    connectionStatus d' = online.
Proof.
  intros Hmax Hfalsy Hfails.
  set (d0 := emit (EvStatus online) (set_connectionStatus online d)).
  destruct (loadData_unusable_offline JSON_parse JSON_stringify network d0)
    as (d1 & Hrun & _ & Ht & _ & Hs & _); try assumption.
  unfold init, try_catch, bind at 1, showConnectionStatus at 1, modify. fold d0.
  unfold bind at 1. rewrite Hrun. unfold handleError, bind, console, modify.
  exists (emit (EvConsole "error" "Dashboard error: No data available")
            (emit (EvConsole "error" "Initialization failed: No data available") d1)),
         (trace d1).
  split; [reflexivity |]. simpl. rewrite <- app_assoc. simpl.
  repeat split; assumption.
Qed.

Lemma init_reports_failure_witness :
  exists d',
    init parse_json stringify_json net_down renders (constructor empty_store 0) =
      (Normal tt, d') /\
    tournaments d' = JArr [] /\ connectionStatus d' = online.
Proof.
  destruct (init_reports_failure parse_json stringify_json net_down renders
              (constructor empty_store 0)) as (d' & t & Hrun & _ & Ht & Hs);
    [simpl; lia | reflexivity | reflexivity |].
  exists d'. split; [exact Hrun |]. split; [exact Ht | exact Hs].
Defined.

(** * Further properties of the service worker *)

(** X12. Cache-first: when some cache holds the URL of a static request,
    [handleStaticRequest] returns the first such entry without any network
    call and without changing the caches. *)
Theorem handleStaticRequest_hit (network : Network) (request : Request)
    (w : Worker) (r : Response) :
  match_caches (url request) (caches w) = Some r ->
  exists w',
    handleStaticRequest network request w = (Normal r, w') /\
    sw_fetches w' = sw_fetches w /\
    caches w' = caches w.
Proof.
  intros Hmatch. run_handler. rewrite Hmatch. sw_simpl.
  eexists. split; [reflexivity |]. split; reflexivity.
Qed.

Lemma handleStaticRequest_hit_witness :
  exists w',
    handleStaticRequest net_down (get_request "https://golf.example/" "no-cors" [])
      old_worker = (Normal unavailable, w') /\
    sw_fetches w' = 0%nat.
Proof.
  destruct (handleStaticRequest_hit net_down (get_request "https://golf.example/" "no-cors" [])
              old_worker unavailable) as (w' & Hrun & Hf & _).
  - vm_compute. reflexivity.
  - exists w'. split; [exact Hrun | exact Hf].
Defined.

(** X13. A static request that no cache holds goes to the network once.  An ok
    response is returned; it is stored in the static cache under the URL when
    the cache accepts it, and when the cache refuses it (status 206, a Vary
    header with [*], a scheme other than http and https) the response is
    returned all the same and the static cache, opened, takes nothing.  A
    response that is not ok is returned as it is and nothing is stored.  When
    [fetch] rejects, the handler ends as [createOfflineResponse] does, the
    caches unchanged. *)
Theorem handleStaticRequest_miss (network : Network) (request : Request) (w : Worker) :
  match_caches (url request) (caches w) = None ->
  (forall r, network (sw_fetches w) request = Resolved r -> ok r = true ->
     storable request r = true ->
     exists w' c,
       handleStaticRequest network request w = (Normal r, w') /\
       cache_named STATIC_CACHE (caches w') = Some c /\ c !! url request = Some r) /\
  (forall r, network (sw_fetches w) request = Resolved r -> ok r = true ->
     storable request r = false ->
     exists w',
       handleStaticRequest network request w = (Normal r, w') /\
       caches w' = open_cache STATIC_CACHE (caches w)) /\
  (forall r, network (sw_fetches w) request = Resolved r -> ok r = false ->
     exists w',
       handleStaticRequest network request w = (Normal r, w') /\ caches w' = caches w) /\
  (forall e, network (sw_fetches w) request = Rejected e ->
     exists w',
       handleStaticRequest network request w = (createOfflineResponse request, w') /\
       caches w' = caches w).
Proof.
  intros Hmatch. repeat split.
  - intros r Hnet Hok Hst. run_handler. rewrite Hmatch. sw_simpl.
    rewrite Hnet, Hok. sw_simpl. rewrite Hst. sw_simpl.
    destruct (cache_named_open_same STATIC_CACHE (caches w)) as (c & Hc & _).
    eexists. exists (<[url request := r]> c). split; [reflexivity |]. sw_simpl.
    split; [apply cache_named_put_same; assumption | apply lookup_insert_eq].
  - intros r Hnet Hok Hst. run_handler. rewrite Hmatch. sw_simpl.
    rewrite Hnet, Hok. sw_simpl. rewrite Hst. sw_simpl.
    eexists. split; [reflexivity |]. sw_simpl. apply put_cache_refused. exact Hst.
  - intros r Hnet Hok. run_handler. rewrite Hmatch. sw_simpl. rewrite Hnet, Hok. sw_simpl.
    eexists. split; reflexivity.
  - intros e Hnet. run_handler. rewrite Hmatch. sw_simpl. rewrite Hnet. sw_simpl.
    eexists. split; reflexivity.
Qed.

Lemma handleStaticRequest_miss_witness :
  (exists w' c,
      handleStaticRequest net_serving (get_request "https://golf.example/app.js" "no-cors" [])
        fresh_worker = (Normal served, w') /\
      cache_named STATIC_CACHE (caches w') = Some c /\
      c !! "https://golf.example/app.js" = Some served) /\
  (exists w',
      handleStaticRequest net_partial (get_request "https://golf.example/app.js" "no-cors" [])
        fresh_worker = (Normal partial_content, w') /\
      caches w' = [(STATIC_CACHE, ∅)]) /\
  (exists w',
      handleStaticRequest net_serving
        (get_request "chrome-extension://golf/app.js" "no-cors" [])
        fresh_worker = (Normal served, w') /\
      caches w' = [(STATIC_CACHE, ∅)]) /\
  (exists w',
      handleStaticRequest (net_flaky 1) (get_request "https://golf.example/app.js" "no-cors" [])
        fresh_worker = (Normal unavailable, w') /\
      caches w' = []).
Proof.
  split; [| split; [| split]].
  - destruct (handleStaticRequest_miss net_serving
                (get_request "https://golf.example/app.js" "no-cors" []) fresh_worker eq_refl)
      as (Hok & _).
    apply (Hok served); reflexivity.
  - destruct (handleStaticRequest_miss net_partial
                (get_request "https://golf.example/app.js" "no-cors" []) fresh_worker eq_refl)
      as (_ & Hno & _).
    apply (Hno partial_content); reflexivity.
  - destruct (handleStaticRequest_miss net_serving
                (get_request "chrome-extension://golf/app.js" "no-cors" [])
                fresh_worker eq_refl)
      as (_ & Hno & _).
    apply (Hno served); reflexivity.
  - destruct (handleStaticRequest_miss (net_flaky 1)
                (get_request "https://golf.example/app.js" "no-cors" []) fresh_worker eq_refl)
      as (_ & _ & Hbad & _).
    apply (Hbad unavailable); reflexivity.
Defined.

(** X14. Navigation fallback.  When the network fails (a rejection or a
    response that is not ok), a cached copy of the requested URL is returned;
    without one, the cached [/index.html] of the origin is returned; without
    that either, the handler ends as [createOfflineResponse] does.  The caches
    are not changed in any of the three cases. *)
Theorem handleNavigationRequest_fallback (network : Network) (origin : string)
    (request : Request) (w : Worker) :
  failed (network (sw_fetches w) request) = true ->
  exists w',
    handleNavigationRequest network origin request w =
      (match match_caches (url request) (caches w) with
       | Some page => Normal page
       | None =>
           match match_caches (origin +:+ "/index.html") (caches w) with
           | Some shell => Normal shell
           | None => createOfflineResponse request
           end
       end, w') /\
    caches w' = caches w.
Proof.
  intros Hfail. run_handler.
  destruct (network (sw_fetches w) request) as [e | r]; simpl in Hfail.
  - sw_simpl. destruct (match_caches (url request) (caches w)); sw_simpl.
    + eexists. split; reflexivity.
    + destruct (match_caches (origin +:+ "/index.html") (caches w));
        eexists; split; reflexivity.
  - apply negb_true_iff in Hfail. rewrite Hfail. sw_simpl.
    destruct (match_caches (url request) (caches w)); sw_simpl.
    + eexists. split; reflexivity.
    + destruct (match_caches (origin +:+ "/index.html") (caches w));
        eexists; split; reflexivity.
Qed.

Lemma handleNavigationRequest_fallback_witness :
  exists w',
    handleNavigationRequest net_down site page_request shell_worker = (Normal served, w') /\
    caches w' = caches shell_worker.
Proof.
  destruct (handleNavigationRequest_fallback net_down site page_request shell_worker eq_refl)
    as (w' & Hrun & Hc).
  exists w'. split; [| exact Hc]. rewrite Hrun. vm_compute. reflexivity.
Defined.

(** X15. The generic handler passes on whatever response the network gives.
    An ok response is stored in the generic cache when the cache accepts it;
    when the cache refuses it (status 206, a Vary header with [*], a scheme
    other than http and https) the generic cache, opened, takes nothing.  A
    response that is not ok is returned as it is, even when a cached copy
    exists, and nothing is stored.  Only when [fetch] rejects is the cached
    copy used, and without one the handler ends as [createOfflineResponse]
    does. *)
Theorem handleGenericRequest_cases (network : Network) (request : Request) (w : Worker) :
  (forall r, network (sw_fetches w) request = Resolved r -> ok r = true ->
     storable request r = true ->
     exists w' c,
       handleGenericRequest network request w = (Normal r, w') /\
       cache_named CACHE_NAME (caches w') = Some c /\ c !! url request = Some r) /\
  (forall r, network (sw_fetches w) request = Resolved r -> ok r = true ->
     storable request r = false ->
     exists w',
       handleGenericRequest network request w = (Normal r, w') /\
       caches w' = open_cache CACHE_NAME (caches w)) /\
  (forall r, network (sw_fetches w) request = Resolved r -> ok r = false ->
     exists w',
       handleGenericRequest network request w = (Normal r, w') /\ caches w' = caches w) /\
  (forall e, network (sw_fetches w) request = Rejected e ->
     exists w',
       handleGenericRequest network request w =
         (match match_caches (url request) (caches w) with
          | Some cached => Normal cached
          | None => createOfflineResponse request
          end, w') /\
       caches w' = caches w).
Proof.
  repeat split.
  - intros r Hnet Hok Hst. run_handler. rewrite Hnet, Hok. sw_simpl. rewrite Hst. sw_simpl.
    destruct (cache_named_open_same CACHE_NAME (caches w)) as (c & Hc & _).
    eexists. exists (<[url request := r]> c). split; [reflexivity |]. sw_simpl.
    split; [apply cache_named_put_same; assumption | apply lookup_insert_eq].
  - intros r Hnet Hok Hst. run_handler. rewrite Hnet, Hok. sw_simpl. rewrite Hst. sw_simpl.
    eexists. split; [reflexivity |]. sw_simpl. apply put_cache_refused. exact Hst.
  - intros r Hnet Hok. run_handler. rewrite Hnet, Hok. sw_simpl.
    eexists. split; reflexivity.
  - intros e Hnet. run_handler. rewrite Hnet. sw_simpl.
    destruct (match_caches (url request) (caches w)); eexists; split; reflexivity.
Qed.

Lemma handleGenericRequest_cases_witness :
  (exists w',
      handleGenericRequest (net_flaky 1) (get_request "https://golf.example/" "cors" [])
        old_worker = (Normal unavailable, w') /\
      caches w' = caches old_worker) /\
  (exists w',
      handleGenericRequest net_varying (get_request "https://golf.example/" "cors" [])
        fresh_worker = (Normal varying, w') /\
      caches w' = [(CACHE_NAME, ∅)]).
Proof.
  split.
  - destruct (handleGenericRequest_cases (net_flaky 1)
                (get_request "https://golf.example/" "cors" []) old_worker)
      as (_ & _ & Hbad & _).
    apply (Hbad unavailable); reflexivity.
  - destruct (handleGenericRequest_cases net_varying
                (get_request "https://golf.example/" "cors" []) fresh_worker)
      as (_ & Hno & _).
    apply (Hno varying); reflexivity.
Defined.

(** X16. With an Accept header on the request no handler throws: every GET
    request gets a response.  The one error a handler can throw is the
    TypeError of [createOfflineResponse] on a request without Accept header. *)
Theorem handlers_respond_with_accept (network : Network) (origin : string)
    (s : Strategy) (request : Request) (w : Worker) :
  (forall a, headers_get (headers request) "accept" = Some a ->
     exists r w', handler network origin s request w = (Normal r, w')) /\
  (forall e w', handler network origin s request w = (Throw e, w') ->
     e = null_includes /\ headers_get (headers request) "accept" = None).
Proof.
  split.
  - intros a Ha. destruct (createOfflineResponse_with_accept request a Ha) as (off & Hoff).
    destruct s; cbn [handler]; run_handler; rewrite ?Hoff; split_caches; sw_simpl;
      (destruct (network (sw_fetches w) request) as [e | resp];
         [| destruct (ok resp); [destruct (storable request resp) |]]);
      split_caches; sw_simpl; rewrite ?Hoff; eexists; eexists; reflexivity.
  - intros e w'. unfold createOfflineResponse in *.
    destruct (headers_get (headers request) "accept") as [a |] eqn:Ha.
    + destruct s; cbn [handler]; run_handler; unfold createOfflineResponse; rewrite ?Ha;
        split_caches; sw_simpl;
        (destruct (network (sw_fetches w) request) as [e0 | resp];
           [| destruct (ok resp); [destruct (storable request resp) |]]);
        split_caches; sw_simpl; rewrite ?Ha;
        try destruct (includes a "text/html"); try destruct (includes a "application/json");
        discriminate.
    + destruct s; cbn [handler]; run_handler; unfold createOfflineResponse; rewrite ?Ha;
        split_caches; sw_simpl;
        (destruct (network (sw_fetches w) request) as [e0 | resp];
           [| destruct (ok resp); [destruct (storable request resp) |]]);
        split_caches; sw_simpl; rewrite ?Ha;
        intros H; inversion H; auto.
Qed.

Lemma handlers_respond_with_accept_witness :
  exists r w', handler net_down site DataClass data_get fresh_worker = (Normal r, w').
Proof.
  destruct (handlers_respond_with_accept net_down site DataClass data_get fresh_worker)
    as [Hresp _].
  apply (Hresp "*/*"). reflexivity.
Defined.

(** X17. Answering a request costs at most one network call, whatever its
    class and however it ends. *)
Theorem respond_one_fetch (network : Network) (origin : string)
    (request : Request) (w w' : Worker) (c : Completion Response) :
  respond network origin request w = (c, w') ->
  (sw_fetches w <= sw_fetches w')%nat /\ (sw_fetches w' <= sw_fetches w + 1)%nat.
Proof.
  unfold respond, onfetch. destruct (classify request) as [s |].
  - destruct s; cbn [handler]; run_handler; split_caches; sw_simpl;
      (destruct (network (sw_fetches w) request) as [e | resp];
         [| destruct (ok resp); [destruct (storable request resp) |]]);
      split_caches; sw_simpl; intros H; inversion H; subst; sw_simpl; lia.
  - unfold sw_fetch. destruct (network (sw_fetches w) request);
      intros H; inversion H; subst; sw_simpl; lia.
Qed.

Lemma respond_one_fetch_witness :
  exists c w',
    respond net_down site page_request shell_worker = (c, w') /\
    (sw_fetches w' <= 1)%nat.
Proof.
  destruct (respond net_down site page_request shell_worker) as [c w'] eqn:Hrun.
  exists c, w'. split; [reflexivity |].
  apply (respond_one_fetch net_down site page_request shell_worker w' c Hrun).
Defined.

(** X18. For a request whose Accept header names neither [text/html] nor
    [application/json] (as [*/*] does), a Data request that neither network
    nor cache can satisfy is answered with status 503 and the text [Offline]:
    a response that is not ok, so a caller that tests [ok] counts it as a
    failed attempt. *)
Theorem handleDataRequest_offline_503 (network : Network) (request : Request)
    (w : Worker) (a : string) :
  headers_get (headers request) "accept" = Some a ->
  includes a "text/html" = false ->
  includes a "application/json" = false ->
  failed (network (sw_fetches w) request) = true ->
  match_caches (url request) (caches w) = None ->
  exists r w',
    handleDataRequest network request w = (Normal r, w') /\
    status r = 503%nat /\ body r = "Offline" /\
    failed (Resolved r) = true.
Proof.
  intros Ha Hhtml Hjson Hfail Hmatch.
  destruct (handleDataRequest_offline network request w Hfail Hmatch) as (w' & Hrun & _).
  unfold createOfflineResponse in Hrun. rewrite Ha, Hhtml, Hjson in Hrun.
  eexists. exists w'. split; [exact Hrun |]. repeat split.
Qed.

Lemma handleDataRequest_offline_503_witness :
  exists r w',
    handleDataRequest net_down data_get fresh_worker = (Normal r, w') /\
    status r = 503%nat.
Proof.
  destruct (handleDataRequest_offline_503 net_down data_get fresh_worker "*/*")
    as (r & w' & Hrun & Hs & _); try reflexivity.
  exists r, w'. split; [exact Hrun | exact Hs].
Defined.

(** ** Install, activate and sync *)

Lemma cache_named_delete cacheName other cs :
  cache_named other (delete_cache cacheName cs) =
  if String.eqb cacheName other then None
  else cache_named other cs.
Proof.
  unfold delete_cache. induction cs as [| [n c] cs IH]; simpl.
  - destruct (String.eqb cacheName other); reflexivity.
  - destruct (String.eqb_spec n cacheName) as [-> | Hn]; simpl.
    + rewrite IH. destruct (String.eqb_spec cacheName other); reflexivity.
    + rewrite IH. destruct (String.eqb_spec n other) as [-> | Hno].
      * destruct (String.eqb_spec cacheName other); [congruence | reflexivity].
      * reflexivity.
Qed.

Lemma cache_named_in cacheName cs c :
  cache_named cacheName cs = Some c -> In cacheName (cache_names cs).
Proof.
  induction cs as [| [n c0] cs IH]; simpl; [discriminate |].
  destruct (String.eqb_spec n cacheName); [auto | intros H; right; auto].
Qed.

Lemma after_delete_old_current names : forall cs n,
  current_cache n = true ->
  cache_named n (after_delete_old names cs) = cache_named n cs.
Proof.
  unfold after_delete_old.
  induction names as [| m names IH]; intros cs n Hn; simpl; [reflexivity |].
  rewrite IH by assumption. destruct (current_cache m) eqn:Hm; [reflexivity |].
  rewrite cache_named_delete.
  destruct (String.eqb_spec m n); [congruence | reflexivity].
Qed.

Lemma after_delete_old_none names : forall cs n,
  cache_named n cs = None -> cache_named n (after_delete_old names cs) = None.
Proof.
  unfold after_delete_old.
  induction names as [| m names IH]; intros cs n Hn; simpl; [exact Hn |].
  apply IH. destruct (current_cache m); [exact Hn |].
  rewrite cache_named_delete. destruct (String.eqb m n); [reflexivity | exact Hn].
Qed.

Lemma after_delete_old_old names : forall cs n,
  current_cache n = false -> In n names ->
  cache_named n (after_delete_old names cs) = None.
Proof.
  induction names as [| m names IH]; intros cs n Hn Hin; [contradiction |].
  destruct (String.eqb_spec m n) as [-> | Hne].
  - unfold after_delete_old. simpl. rewrite Hn.
    apply after_delete_old_none. rewrite cache_named_delete, String.eqb_refl. reflexivity.
  - destruct Hin as [-> | Hin]; [contradiction |].
    unfold after_delete_old. simpl. apply IH; assumption.
Qed.

Lemma match_caches_found key cs :
  forall cacheName c r,
    cache_named cacheName cs = Some c -> c !! key = Some r ->
    is_Some (match_caches key cs).
Proof.
  induction cs as [| [n c0] cs IH]; intros cacheName c r Hc Hr; simpl in *; [discriminate |].
  destruct (c0 !! key) eqn:H0; [eauto |].
  destruct (String.eqb n cacheName).
  - injection Hc as ->. congruence.
  - eapply IH; eassumption.
Qed.

Lemma put_all_other cacheName other entries : forall cs,
  other <> cacheName ->
  cache_named other (put_all cacheName entries cs) = cache_named other cs.
Proof.
  induction entries as [| [req [e | r]] entries IH]; intros cs Hne; simpl; auto.
  rewrite IH by assumption. apply cache_named_put_other. assumption.
Qed.

(** After [put_all] the named cache holds every accepted entry and keeps the
    keys it had. *)
Lemma put_all_covers cacheName entries : forall cs c0,
  cache_named cacheName cs = Some c0 ->
  exists c,
    cache_named cacheName (put_all cacheName entries cs) = Some c /\
    (forall key, is_Some (c0 !! key) -> is_Some (c !! key)) /\
    (forall req r, In (req, Resolved r) entries -> storable req r = true ->
       is_Some (c !! url req)).
Proof.
  induction entries as [| [req [e | r]] entries IH]; intros cs c0 Hc0; simpl.
  - exists c0. split; [exact Hc0 |]. split; [auto | contradiction].
  - destruct (IH cs c0 Hc0) as (c & Hc & Hkeep & Hnew).
    exists c. split; [exact Hc |]. split; [exact Hkeep |].
    intros req0 r0 [Heq | Hin]; [discriminate | eauto].
  - destruct (storable req r) eqn:Hst.
    + destruct (IH (put_cache cacheName req r cs) (<[url req := r]> c0))
        as (c & Hc & Hkeep & Hnew); [apply cache_named_put_same; assumption |].
      exists c. split; [exact Hc |]. split.
      * intros key Hkey. apply Hkeep.
        destruct (decide (url req = key)) as [-> | Hne].
        -- rewrite lookup_insert_eq. eauto.
        -- rewrite lookup_insert_ne by assumption. exact Hkey.
      * intros req0 r0 [Heq | Hin] Hst0; [| eauto].
        injection Heq as -> ->. apply Hkeep. rewrite lookup_insert_eq. eauto.
    + rewrite put_cache_refused by exact Hst.
      destruct (IH cs c0 Hc0) as (c & Hc & Hkeep & Hnew).
      exists c. split; [exact Hc |]. split; [exact Hkeep |].
      intros req0 r0 [Heq | Hin] Hst0; [| eauto].
      injection Heq as -> ->. congruence.
Qed.

(** When [addAll] accepts every outcome, each request has a response that the
    cache accepts. *)
Lemma combine_all_ok requests : forall n network,
  all_ok (combine requests (outcomes_from network n requests)) = true ->
  forall req, In req requests ->
  exists r, In (req, Resolved r) (combine requests (outcomes_from network n requests)) /\
            storable req r = true.
Proof.
  induction requests as [| q requests IH]; intros n network Hok req Hin; [contradiction |].
  simpl in Hok. apply andb_true_iff in Hok as [Hq Hrest].
  destruct Hin as [-> | Hin].
  - simpl. unfold addable in Hq. simpl in Hq.
    destruct (network n req) as [e | r]; [discriminate |].
    apply andb_true_iff in Hq as [_ Hst]. exists r. split; [left; reflexivity | exact Hst].
  - destruct (IH (S n) network Hrest req Hin) as (r & Hr & Hst).
    exists r. split; [right; exact Hr | exact Hst].
Qed.

(** Outcomes that [addAll] accepts belong to cacheable requests. *)
Lemma all_ok_cacheable requests : forall n network,
  all_ok (combine requests (outcomes_from network n requests)) = true ->
  forallb cacheable requests = true.
Proof.
  induction requests as [| q requests IH]; intros n network Hok; [reflexivity |].
  simpl in Hok. apply andb_true_iff in Hok as [Hq Hrest].
  simpl. rewrite (IH _ _ Hrest), andb_true_r.
  unfold addable in Hq. simpl in Hq. destruct (network n q) as [e | r]; [discriminate |].
  apply andb_true_iff in Hq as [_ Hst]. unfold storable in Hst.
  apply andb_true_iff in Hst as [Hst _]. apply andb_true_iff in Hst as [Hst _].
  exact Hst.
Qed.

Lemma startsWith_app s t prefix :
  startsWith s prefix = true -> startsWith (s +:+ t) prefix = true.
Proof.
  revert s. induction prefix as [| p prefix IH]; intros s; [reflexivity |].
  destruct s as [| c s]; simpl; [discriminate |].
  destruct (Ascii.eqb p c); simpl; [apply IH | discriminate].
Qed.

(** The static files of a worker served over http or https are requested
    with cacheable requests. *)
Lemma static_requests_cacheable origin :
  http_scheme origin = true ->
  forallb cacheable (map (reload_request origin) STATIC_FILES) = true.
Proof.
  intros Hor.
  assert (Hpath : forall u, http_scheme (origin +:+ u) = true).
  { intros u. unfold http_scheme in *. apply orb_true_iff in Hor as [H | H].
    - rewrite (startsWith_app _ _ _ H). reflexivity.
    - rewrite (startsWith_app _ _ _ H). apply orb_true_r. }
  unfold STATIC_FILES, reload_request, resolve, cacheable.
  cbn [map forallb method url startsWith Ascii.eqb Bool.eqb String.eqb andb].
  rewrite !Hpath. reflexivity.
Qed.

Section WorkerLifecycleProofs.

Variable network : Network.
Variable origin : string.

Lemma fetch_each_run requests : forall w,
  fetch_each network requests w =
  (Normal (outcomes_from network (sw_fetches w) requests),
   mkWorker (caches w) (sw_fetches w + length requests)
            (sw_trace w ++ map SwFetch requests)).
Proof.
  induction requests as [| q requests IH]; intros w.
  - simpl. unfold ret. rewrite Nat.add_0_r, app_nil_r. destruct w; reflexivity.
  - cbn [fetch_each outcomes_from length map].
    unfold fetch_outcome, try_catch, bind, sw_fetch, ret.
    destruct (network (sw_fetches w) q) as [e | r]; sw_simpl; rewrite IH; sw_simpl;
      rewrite <- app_assoc; simpl; rewrite ?Nat.add_succ_r; reflexivity.
Qed.

(** [addAll] fetches every request of a cacheable batch and none of another;
    it stores all the responses when it accepts them all, and otherwise
    rejects and stores none. *)
Lemma cache_addAll_run cache requests w :
  let entries := combine requests (outcomes_from network (sw_fetches w) requests) in
  exists c w',
    cache_addAll network cache requests w = (c, w') /\
    (forallb cacheable requests = true ->
     sw_fetches w' = (sw_fetches w + length requests)%nat) /\
    (forallb cacheable requests = false -> sw_fetches w' = sw_fetches w) /\
    (all_ok entries = true ->
     c = Normal tt /\ caches w' = put_all cache entries (caches w)) /\
    (all_ok entries = false -> (exists e, c = Throw e) /\ caches w' = caches w).
Proof.
  intros entries. unfold cache_addAll.
  destruct (forallb cacheable requests) eqn:Hreq.
  - unfold bind. rewrite fetch_each_run. fold entries.
    destruct (all_ok entries); unfold modify, throw; sw_simpl;
      eexists; eexists; (split; [reflexivity |]); sw_simpl;
      (split; [reflexivity |]); (split; [discriminate |]);
      split; intros H; try discriminate; split; eauto.
  - unfold throw. eexists. eexists. split; [reflexivity |].
    split; [discriminate |]. split; [reflexivity |]. split.
    + intros Hall. apply all_ok_cacheable in Hall. congruence.
    + intros _. split; eauto.
Qed.

Lemma delete_old_run names : forall w,
  exists w',
    delete_old names w = (Normal tt, w') /\
    sw_fetches w' = sw_fetches w /\
    caches w' = after_delete_old names (caches w).
Proof.
  unfold after_delete_old.
  induction names as [| n names IH]; intros w.
  - exists w. auto.
  - cbn [delete_old fold_left]. unfold bind, sw_log, modify, ret.
    destruct (current_cache n); cbn [negb]; sw_simpl.
    + apply IH.
    + match goal with |- context [delete_old names ?w1] =>
        destruct (IH w1) as (w' & Hrun & Hf & Hc) end.
      exists w'. split; [exact Hrun |]. split; [exact Hf | exact Hc].
Qed.

End WorkerLifecycleProofs.

Ltac run_lifecycle :=
  unfold install, updateCache, activate, syncData, caches_open, cache_put, sw_log,
    try_catch, bind, modify, gets, ret;
  sw_simpl.

Lemma static_not_data : STATIC_CACHE <> DATA_CACHE.
Proof. discriminate. Qed.

(** X19. [install] never throws: when [addAll] rejects, the final [catch]
    logs the failure and the worker installs with nothing precached.  In every
    case the static and the data cache exist afterwards and no other cache has
    changed.  A worker served over http or https makes one network call per
    static file.  When [addAll] accepts every response, each static file is
    then found by [caches.match]; when it refuses one (a rejected [fetch], a
    response that is not ok, a status 206, a Vary header with [*]), the two
    caches are opened and nothing else is stored. *)
Theorem install_swallows_failure (network : Network) (origin : string) (w : Worker) :
  exists w',
    install network origin w = (Normal tt, w') /\
    is_Some (cache_named STATIC_CACHE (caches w')) /\
    is_Some (cache_named DATA_CACHE (caches w')) /\
    (forall other, other <> STATIC_CACHE -> other <> DATA_CACHE ->
       cache_named other (caches w') = cache_named other (caches w)) /\
    (http_scheme origin = true ->
     sw_fetches w' = (sw_fetches w + length STATIC_FILES)%nat) /\
    (all_ok (combine (map (reload_request origin) STATIC_FILES)
               (outcomes_from network (sw_fetches w)
                  (map (reload_request origin) STATIC_FILES))) = true ->
     forall u, In u STATIC_FILES -> is_Some (match_caches (resolve origin u) (caches w'))) /\
    (all_ok (combine (map (reload_request origin) STATIC_FILES)
               (outcomes_from network (sw_fetches w)
                  (map (reload_request origin) STATIC_FILES))) = false ->
     caches w' = open_cache DATA_CACHE (open_cache STATIC_CACHE (caches w)) /\
     exists e, In (SwLog ("Service Worker: Installation failed " +:+ message e))
                  (sw_trace w')).
Proof.
  run_lifecycle.
  match goal with |- context [cache_addAll network ?c ?rs ?w1] =>
    destruct (cache_addAll_run network c rs w1)
      as (c0 & w2 & Hrun & Hf & _ & Hok & Hbad);
    rewrite Hrun
  end.
  revert Hf Hok Hbad. sw_simpl. rewrite length_map. intros Hf Hok Hbad.
  set (cs1 := open_cache DATA_CACHE (open_cache STATIC_CACHE (caches w))) in *.
  destruct (cache_named_open_same STATIC_CACHE (caches w)) as (cst & Hst & _).
  assert (Hst1 : cache_named STATIC_CACHE cs1 = Some cst).
  { unfold cs1. rewrite cache_named_open_other by discriminate. exact Hst. }
  destruct (cache_named_open_same DATA_CACHE (open_cache STATIC_CACHE (caches w)))
    as (cdt & Hdt & _). fold cs1 in Hdt.
  assert (Hother : forall other, other <> STATIC_CACHE -> other <> DATA_CACHE ->
                     cache_named other cs1 = cache_named other (caches w)).
  { intros other H1 H2. unfold cs1. rewrite !cache_named_open_other by assumption.
    reflexivity. }
  destruct (all_ok _) eqn:Hall.
  - destruct (Hok eq_refl) as [-> Hcs]. sw_simpl.
    eexists. split; [reflexivity |]. sw_simpl. rewrite Hcs.
    destruct (put_all_covers STATIC_CACHE
                (combine (map (reload_request origin) STATIC_FILES)
                   (outcomes_from network (sw_fetches w)
                      (map (reload_request origin) STATIC_FILES))) cs1 cst Hst1)
      as (c & Hc & _ & Hnew).
    split; [rewrite Hc; eauto |].
    split; [rewrite put_all_other by discriminate; rewrite Hdt; eauto |].
    split; [intros other H1 H2; rewrite put_all_other by assumption; auto |].
    split; [intros Hor; apply Hf, static_requests_cacheable, Hor |].
    split; [| discriminate].
    intros _ u Hu.
    destruct (combine_all_ok _ _ _ Hall (reload_request origin u)) as (r & Hr & Hacc).
    { apply in_map. exact Hu. }
    destruct (Hnew _ _ Hr Hacc) as (r' & Hr').
    apply (match_caches_found _ _ STATIC_CACHE c r' Hc Hr').
  - destruct (Hbad eq_refl) as [[e ->] Hcs]. sw_simpl.
    eexists. split; [reflexivity |]. sw_simpl. rewrite Hcs.
    split; [rewrite Hst1; eauto |]. split; [rewrite Hdt; eauto |].
    split; [exact Hother |].
    split; [intros Hor; apply Hf, static_requests_cacheable, Hor |].
    split; [discriminate |]. intros _. split; [reflexivity |].
    exists e. apply in_or_app. right. left. reflexivity.
Qed.

Lemma install_swallows_failure_witness :
  (exists w',
      install net_serving site fresh_worker = (Normal tt, w') /\
      sw_fetches w' = 9%nat /\
      is_Some (match_caches data_url (caches w'))) /\
  (exists w',
      install net_partial site fresh_worker = (Normal tt, w') /\
      caches w' = [(STATIC_CACHE, ∅); (DATA_CACHE, ∅)]).
Proof.
  split.
  - destruct (install_swallows_failure net_serving site fresh_worker)
      as (w' & Hrun & _ & _ & _ & Hf & Hall & _).
    exists w'. split; [exact Hrun |]. split; [apply Hf; reflexivity |].
    apply (Hall eq_refl "/data/championships.json"). simpl. auto 10.
  - destruct (install_swallows_failure net_partial site fresh_worker)
      as (w' & Hrun & _ & _ & _ & _ & _ & Hnone).
    exists w'. split; [exact Hrun |]. destruct (Hnone eq_refl) as [-> _]. reflexivity.
Defined.

(** X20. [updateCache] never throws and touches no cache but the static one:
    a rejection of [addAll] is caught and logged.  When [addAll] accepts every
    response, each static file is then found by [caches.match]; when it
    refuses one, the static cache is opened and nothing else is stored. *)
Theorem updateCache_swallows_failure (network : Network) (origin : string) (w : Worker) :
  exists w',
    updateCache network origin w = (Normal tt, w') /\
    (forall other, other <> STATIC_CACHE ->
       cache_named other (caches w') = cache_named other (caches w)) /\
    (all_ok (combine (map (reload_request origin) STATIC_FILES)
               (outcomes_from network (sw_fetches w)
                  (map (reload_request origin) STATIC_FILES))) = true ->
     forall u, In u STATIC_FILES -> is_Some (match_caches (resolve origin u) (caches w'))) /\
    (all_ok (combine (map (reload_request origin) STATIC_FILES)
               (outcomes_from network (sw_fetches w)
                  (map (reload_request origin) STATIC_FILES))) = false ->
     caches w' = open_cache STATIC_CACHE (caches w) /\
     exists e, In (SwLog ("Service Worker: Manual cache update failed " +:+ message e))
                  (sw_trace w')).
Proof.
  run_lifecycle.
  match goal with |- context [cache_addAll network ?c ?rs ?w1] =>
    destruct (cache_addAll_run network c rs w1)
      as (c0 & w2 & Hrun & _ & _ & Hok & Hbad);
    rewrite Hrun
  end.
  revert Hok Hbad. sw_simpl. intros Hok Hbad.
  destruct (cache_named_open_same STATIC_CACHE (caches w)) as (cst & Hst & _).
  destruct (all_ok _) eqn:Hall.
  - destruct (Hok eq_refl) as [-> Hcs]. sw_simpl.
    eexists. split; [reflexivity |]. sw_simpl. rewrite Hcs.
    destruct (put_all_covers STATIC_CACHE
                (combine (map (reload_request origin) STATIC_FILES)
                   (outcomes_from network (sw_fetches w)
                      (map (reload_request origin) STATIC_FILES)))
                (open_cache STATIC_CACHE (caches w)) cst Hst)
      as (c & Hc & _ & Hnew).
    split; [intros other H1; rewrite put_all_other by assumption;
            apply cache_named_open_other; assumption |].
    split; [| discriminate].
    intros _ u Hu.
    destruct (combine_all_ok _ _ _ Hall (reload_request origin u)) as (r & Hr & Hacc).
    { apply in_map. exact Hu. }
    destruct (Hnew _ _ Hr Hacc) as (r' & Hr').
    apply (match_caches_found _ _ STATIC_CACHE c r' Hc Hr').
  - destruct (Hbad eq_refl) as [[e ->] Hcs]. sw_simpl.
    eexists. split; [reflexivity |]. sw_simpl. rewrite Hcs.
    split; [intros other H1; apply cache_named_open_other; assumption |].
    split; [discriminate |]. intros _. split; [reflexivity |].
    exists e. apply in_or_app. right. left. reflexivity.
Qed.

Lemma updateCache_swallows_failure_witness :
  (exists w',
      updateCache net_down site shell_worker = (Normal tt, w') /\
      caches w' = caches shell_worker) /\
  (exists w',
      updateCache net_varying site shell_worker = (Normal tt, w') /\
      caches w' = caches shell_worker).
Proof.
  split.
  - destruct (updateCache_swallows_failure net_down site shell_worker)
      as (w' & Hrun & _ & _ & Hnone).
    exists w'. split; [exact Hrun |]. destruct (Hnone eq_refl) as [-> _]. reflexivity.
  - destruct (updateCache_swallows_failure net_varying site shell_worker)
      as (w' & Hrun & _ & _ & Hnone).
    exists w'. split; [exact Hrun |]. destruct (Hnone eq_refl) as [-> _]. reflexivity.
Defined.

(** X21. [activate] never throws and makes no network call.  It keeps the
    three current caches with what they hold, and afterwards no cache of
    another name exists. *)
Theorem activate_keeps_current (w : Worker) :
  exists w',
    activate w = (Normal tt, w') /\
    sw_fetches w' = sw_fetches w /\
    (forall n, current_cache n = true ->
       cache_named n (caches w') = cache_named n (caches w)) /\
    (forall n, current_cache n = false -> cache_named n (caches w') = None).
Proof.
  run_lifecycle.
  match goal with |- context [delete_old ?names ?w1] =>
    destruct (delete_old_run names w1) as (w' & Hrun & Hf & Hc); rewrite Hrun
  end.
  revert Hf Hc. sw_simpl. intros Hf Hc.
  eexists. split; [reflexivity |]. sw_simpl. rewrite Hc.
  split; [exact Hf |]. split.
  - intros n Hn. apply after_delete_old_current. exact Hn.
  - intros n Hn. destruct (cache_named n (caches w)) as [c |] eqn:Hc0.
    + apply after_delete_old_old; [exact Hn |]. eapply cache_named_in. exact Hc0.
    + apply after_delete_old_none. exact Hc0.
Qed.

(** X22. [syncData] never throws, makes one network call and touches no cache
    but the data cache.  An ok response that the cache accepts becomes the
    data cache's entry for the data URL.  An ok response that the cache
    refuses (status 206, a Vary header with [*]) makes the awaited [put]
    reject: the [catch] logs the failure and the data cache, opened, takes
    nothing.  A failed request leaves the caches as they were. *)
Theorem syncData_writes_data_cache (network : Network) (origin : string) (w : Worker) :
  exists w',
    syncData network origin w = (Normal tt, w') /\
    sw_fetches w' = (sw_fetches w + 1)%nat /\
    (forall other, other <> DATA_CACHE ->
       cache_named other (caches w') = cache_named other (caches w)) /\
    (forall r, network (sw_fetches w) (sync_request origin) = Resolved r -> ok r = true ->
       storable (sync_request origin) r = true ->
       exists c, cache_named DATA_CACHE (caches w') = Some c /\
                 c !! (origin +:+ "/data/championships.json") = Some r) /\
    (forall r, network (sw_fetches w) (sync_request origin) = Resolved r -> ok r = true ->
       storable (sync_request origin) r = false ->
       caches w' = open_cache DATA_CACHE (caches w) /\
       exists e, In (SwLog ("Service Worker: Background sync failed " +:+ message e))
                    (sw_trace w')) /\
    (failed (network (sw_fetches w) (sync_request origin)) = true -> caches w' = caches w).
Proof.
  run_lifecycle. unfold sw_fetch. sw_simpl.
  destruct (network (sw_fetches w) (sync_request origin)) as [e | r]; sw_simpl.
  - eexists. split; [reflexivity |]. sw_simpl.
    split; [lia |]. split; [reflexivity |].
    split; [discriminate |]. split; [discriminate | reflexivity].
  - destruct (ok r) eqn:Hok; sw_simpl.
    + destruct (storable (sync_request origin) r) eqn:Hst; sw_simpl.
      * eexists. split; [reflexivity |]. sw_simpl.
        split; [lia |]. split; [intros other Hne; apply open_put_other; exact Hne |].
        split; [| split; [intros r0 [= <-]; congruence | simpl; rewrite Hok; discriminate]].
        intros r0 [= <-] _ _.
        destruct (cache_named_open_same DATA_CACHE (caches w)) as (c & Hc & _).
        exists (<[url (sync_request origin) := r]> c).
        split; [apply cache_named_put_same; assumption | apply lookup_insert_eq].
      * eexists. split; [reflexivity |]. sw_simpl.
        rewrite put_cache_refused by exact Hst.
        split; [lia |].
        split; [intros other Hne; apply cache_named_open_other; exact Hne |].
        split; [intros r0 [= <-]; congruence |].
        split; [| simpl; rewrite Hok; discriminate].
        intros r0 _ _ _. split; [reflexivity |].
        eexists. apply in_or_app. right. left. reflexivity.
    + eexists. split; [reflexivity |]. sw_simpl.
      split; [lia |]. split; [reflexivity |].
      split; [intros r0 [= <-]; congruence |].
      split; [intros r0 [= <-]; congruence | reflexivity].
Qed.

Lemma syncData_writes_data_cache_witness :
  (exists w' c,
      syncData net_up site fresh_worker = (Normal tt, w') /\
      cache_named DATA_CACHE (caches w') = Some c /\ c !! data_url = Some ok_response) /\
  (exists w',
      syncData net_partial site fresh_worker = (Normal tt, w') /\
      caches w' = [(DATA_CACHE, ∅)]).
Proof.
  split.
  - destruct (syncData_writes_data_cache net_up site fresh_worker)
      as (w' & Hrun & _ & _ & Hok & _).
    destruct (Hok ok_response eq_refl eq_refl eq_refl) as (c & Hc & Hr).
    exists w', c. split; [exact Hrun |]. split; [exact Hc | exact Hr].
  - destruct (syncData_writes_data_cache net_partial site fresh_worker)
      as (w' & Hrun & _ & _ & _ & Hno & _).
    destruct (Hno partial_content eq_refl eq_refl eq_refl) as (Hc & _).
    exists w'. split; [exact Hrun | exact Hc].
Defined.

Lemma activate_keeps_current_witness :
  exists w',
    activate old_worker = (Normal tt, w') /\
    cache_named "golf-static-v1.1" (caches w') = None /\
    cache_named STATIC_CACHE (caches w') = cache_named STATIC_CACHE (caches old_worker).
Proof.
  destruct (activate_keeps_current old_worker) as (w' & Hrun & _ & Hkeep & Hold).
  exists w'. split; [exact Hrun |].
  split; [apply Hold; reflexivity | apply Hkeep; reflexivity].
Defined.

(** X23. The fallback of the data handler reads all caches in their order, not
    the data cache: when an earlier cache holds the URL (as the static cache
    does for the data file after [install]), a failing data request is answered
    with that copy, even though a newer response, one that the cache accepts,
    has just been written to the data cache. *)
Theorem data_fallback_serves_first_cache (network : Network) (request : Request)
    (w : Worker) (first : string) (c : gmap string Response) (rest : CacheStorage)
    (r_old r_new : Response) :
  caches w = (first, c) :: rest ->
  first <> DATA_CACHE ->
  c !! url request = Some r_old ->
  network (sw_fetches w) request = Resolved r_new -> ok r_new = true ->
  storable request r_new = true ->
  failed (network (S (sw_fetches w)) request) = true ->
  exists w1 w2 dc,
    handleDataRequest network request w = (Normal r_new, w1) /\
    cache_named DATA_CACHE (caches w1) = Some dc /\ dc !! url request = Some r_new /\
    handleDataRequest network request w1 = (Normal r_old, w2).
Proof.
  intros Hcs Hfirst Hold Hnet Hok Hst Hfail.
  destruct (cache_named_open_same DATA_CACHE (caches w)) as (dc0 & Hdc0 & _).
  set (w1 := sw_emit (SwLog ("Service Worker: Data cached " +:+ url request))
               (sw_emit (SwPut DATA_CACHE (url request))
                  (set_caches
                     (set_entry DATA_CACHE (url request) r_new
                        (open_cache DATA_CACHE (caches w)))
                     (set_caches (open_cache DATA_CACHE (caches w))
                        (sw_emit (SwFetch request)
                           (mkWorker (caches w) (S (sw_fetches w))
                              (sw_trace w ++
                               [SwLog ("Service Worker: Fetching data from network " +:+
                                       url request)]))))))).
  assert (Hrun1 : handleDataRequest network request w = (Normal r_new, w1)).
  { run_handler. rewrite Hnet, Hok. sw_simpl. unfold put_cache. rewrite Hst. reflexivity. }
  assert (Hmatch : match_caches (url request) (caches w1) = Some r_old).
  { unfold w1. sw_simpl. unfold open_cache. rewrite Hcs.
    destruct (cache_named DATA_CACHE ((first, c) :: rest)); simpl;
      (destruct (String.eqb_spec first DATA_CACHE); [contradiction |]);
      simpl; rewrite Hold; reflexivity. }
  destruct (handleDataRequest_cached network request w1 r_old) as (w2 & Hrun2 & _).
  - unfold w1. sw_simpl. exact Hfail.
  - exact Hmatch.
  - exists w1, w2, (<[url request := r_new]> dc0).
    split; [exact Hrun1 |]. split.
    + unfold w1. sw_simpl. apply cache_named_set_same. exact Hdc0.
    + split; [apply lookup_insert_eq | exact Hrun2].
Qed.

Lemma data_fallback_serves_first_cache_witness :
  exists w1 w2,
    handleDataRequest net_story data_get installed_worker = (Normal ok_response, w1) /\
    handleDataRequest net_story data_get w1 = (Normal served, w2).
Proof.
  destruct (data_fallback_serves_first_cache net_story data_get installed_worker
              STATIC_CACHE
              (default ∅ (cache_named STATIC_CACHE (caches installed_worker)))
              [(DATA_CACHE, ∅)] served ok_response)
    as (w1 & w2 & dc & H1 & _ & _ & H2).
  - vm_compute. reflexivity.
  - discriminate.
  - vm_compute. reflexivity.
  - vm_compute. reflexivity.
  - reflexivity.
  - reflexivity.
  - vm_compute. reflexivity.
  - exists w1, w2. split; [exact H1 | exact H2].
Defined.

(** [syncData] catches everything. *)
Lemma syncData_returns (network : Network) (origin : string) (w : Worker) :
  exists w', syncData network origin w = (Normal tt, w').
Proof.
  run_lifecycle. unfold sw_fetch. sw_simpl.
  destruct (network (sw_fetches w) (sync_request origin)) as [e | r]; sw_simpl;
    [| destruct (ok r); sw_simpl;
       [destruct (storable (sync_request origin) r); sw_simpl |]];
    eexists; reflexivity.
Qed.

(** X24. The [sync] listener reacts to the tag [background-sync-data] only,
    and the [periodicsync] listener to the tag [data-sync] only: on any other
    tag they make no network call and leave the caches alone.  On their own tag
    they do what [syncData] does, and neither ever throws. *)
Theorem sync_listeners_by_tag (network : Network) (origin : string)
    (tag : string) (w : Worker) :
  (tag <> "background-sync-data" ->
   exists w', onsync network origin tag w = (Normal tt, w') /\
              sw_fetches w' = sw_fetches w /\ caches w' = caches w) /\
  (tag <> "data-sync" ->
   exists w', onperiodicsync network origin tag w = (Normal tt, w') /\
              sw_fetches w' = sw_fetches w /\ caches w' = caches w) /\
  (exists w', onsync network origin tag w = (Normal tt, w')) /\
  (exists w', onperiodicsync network origin tag w = (Normal tt, w')).
Proof.
  unfold onsync, onperiodicsync, bind, sw_log, modify, ret.
  repeat split.
  - intros Hne. destruct (String.eqb_spec tag "background-sync-data"); [contradiction |].
    eexists. repeat split.
  - intros Hne. destruct (String.eqb_spec tag "data-sync"); [contradiction |].
    eexists. repeat split.
  - destruct (String.eqb tag "background-sync-data").
    + apply syncData_returns.
    + eexists. reflexivity.
  - destruct (String.eqb tag "data-sync").
    + apply syncData_returns.
    + eexists. reflexivity.
Qed.

Lemma sync_listeners_by_tag_witness :
  exists w',
    onsync net_up site "data-sync" fresh_worker = (Normal tt, w') /\
    sw_fetches w' = 0%nat /\ caches w' = [].
Proof.
  destruct (sync_listeners_by_tag net_up site "data-sync" fresh_worker) as (Hother & _).
  apply Hother. discriminate.
Defined.

(** X25. The connectivity listeners.  The [offline] listener shows [offline]
    and makes no network attempt.  The [online] listener, and the one of a page
    that becomes visible, never throw and end [online] or [offline]; without a usable cached value and with every attempt
    failing, it ends [offline], although the event said that the connection is
    back. *)
Theorem connectivity_listeners (JSON_parse : string -> option json)
    (JSON_stringify : json -> string) (network : Network)
    (render : json -> option JsError) (d : Dashboard) :
  (exists d',
      on_offline d = (Normal tt, d') /\ connectionStatus d' = offline /\
      attempts (trace d') = attempts (trace d) /\ tournaments d' = tournaments d) /\
  (exists d',
      on_online JSON_parse JSON_stringify network render d = (Normal tt, d') /\
      (connectionStatus d' = online \/ connectionStatus d' = offline)) /\
  (exists d',
      on_visible JSON_parse JSON_stringify network render d = (Normal tt, d') /\
      (connectionStatus d' = online \/ connectionStatus d' = offline)) /\
  ((0 < maxRetries d)%nat ->
   truthy (cached_value JSON_parse (localStorage d)) = false ->
   fails_from network (retry_request "./data/championships.json" []) (fetches d)
     (maxRetries d) = true ->
   exists d',
     on_online JSON_parse JSON_stringify network render d = (Normal tt, d') /\
     connectionStatus d' = offline).
Proof.
  split; [| split; [| split]].
  - unfold on_offline, showConnectionStatus, modify.
    eexists. split; [reflexivity |]. simpl. rewrite attempts_app. simpl.
    repeat split. lia.
  - unfold on_online, bind, showConnectionStatus at 1, modify.
    apply refreshData_returns.
  - unfold on_visible, bind, console, modify.
    apply refreshData_returns.
  - intros Hmax Hfalsy Hfails.
    unfold on_online, bind, showConnectionStatus at 1, modify.
    destruct (refreshData_unusable_offline JSON_parse JSON_stringify network render
                (emit (EvStatus online) (set_connectionStatus online d)))
      as (d' & Hrun & Hs & _); try assumption.
    exists d'. split; [exact Hrun | exact Hs].
Qed.

Lemma connectivity_listeners_witness :
  exists d',
    on_online parse_json stringify_json net_down renders (constructor empty_store 0) =
      (Normal tt, d') /\
    connectionStatus d' = offline.
Proof.
  destruct (connectivity_listeners parse_json stringify_json net_down renders
              (constructor empty_store 0)) as (_ & _ & _ & Hdown).
  apply Hdown; [simpl; lia | reflexivity | reflexivity].
Defined.
